(** * youtu: a client binding for the Youtu face-recognition web service

    A shallow embedding of [youtu.go] (package [youtu]) and of the parts of
    the Go standard library it calls, followed by the properties of the
    program that its specification states.

    Conventions.
    - A Go [string] and a Go [[]byte] are both sequences of bytes; they are
      modelled by [string] (a list of 8-bit characters).  Go's [len] is
      [String.length]: it counts bytes.
    - Fixed-width integers are modelled by [Z]; conversions between widths
      are written out ([to_uint32], [to_int64], ...).  Go's [int] is taken
      to be 64 bits wide (all 64-bit platforms).
    - The world outside the program (wall clock, random source, network,
      file system) and the floating-point conversions of [strconv] are
      fields of a record [Runtime]; everything else is defined and
      evaluates.
    - The standard library is modelled as far as the program uses it:
      [crypto/sha1], [crypto/hmac] and [encoding/base64] in full;
      [encoding/json] as the current releases of Go behave, for structs,
      slices, strings, booleans and numbers (the scanner with its error
      messages, decoding by reflection, encoding with HTML escaping);
      [fmt] for the verbs [d], [s] and [v] without flags. *)

From Stdlib Require Import ZArith List String Ascii Bool Lia.
Import ListNotations.

Set Warnings "-register-all".

Open Scope string_scope.
Open Scope Z_scope.

(* ================================================================== *)
(** * Bytes and strings *)
(* ================================================================== *)

Module Bytes.

(** A byte as a number in [0, 256). *)
Definition code (c : ascii) : Z := Z.of_N (N_of_ascii c).
Definition chr (z : Z) : ascii := ascii_of_N (Z.to_N (z mod 256)).

(** [[]byte(s)] seen as numbers, and back. *)
Fixpoint of_string (s : string) : list Z :=
  match s with
  | EmptyString => []
  | String c s' => code c :: of_string s'
  end.

Fixpoint to_string (l : list Z) : string :=
  match l with
  | [] => EmptyString
  | b :: l' => String (chr b) (to_string l')
  end.

Definition len (s : string) : Z := Z.of_nat (String.length s).

(** [strings.Repeat]. *)
Fixpoint repeat_string (s : string) (n : nat) : string :=
  match n with
  | O => EmptyString
  | S n' => s ++ repeat_string s n'
  end.

(** Substring test (as [strings.Contains]). *)
Fixpoint has_prefix (p s : string) : bool :=
  match p, s with
  | EmptyString, _ => true
  | String a p', String b s' => Ascii.eqb a b && has_prefix p' s'
  | String _ _, EmptyString => false
  end.

Fixpoint contains (s sub : string) : bool :=
  has_prefix sub s ||
  match s with
  | EmptyString => false
  | String _ s' => contains s' sub
  end.

End Bytes.

(* ================================================================== *)
(** * Machine integers *)
(* ================================================================== *)

Definition to_uint32 (z : Z) : Z := z mod 2 ^ 32.
Definition to_int64 (z : Z) : Z := (z + 2 ^ 63) mod 2 ^ 64 - 2 ^ 63.
Definition to_int32 (z : Z) : Z := (z + 2 ^ 31) mod 2 ^ 32 - 2 ^ 31.

Definition is_uint32 (z : Z) : bool := (0 <=? z) && (z <? 2 ^ 32).
Definition is_int64 (z : Z) : bool := (- 2 ^ 63 <=? z) && (z <? 2 ^ 63).
Definition is_int32 (z : Z) : bool := (- 2 ^ 31 <=? z) && (z <? 2 ^ 31).

(** Go's [int(x)] for [x] of type [uint32], on a platform with 64-bit [int]. *)
Definition int_of_uint32 (x : Z) : Z := to_int64 x.

(* ================================================================== *)
(** * strconv *)
(* ================================================================== *)

Module strconv.

Definition digit (d : Z) : ascii := Bytes.chr (48 + d).

(** The decimal digits of a non-negative number, most significant first.
    The fuel is the number of binary digits, which bounds the number of
    decimal ones. *)
Fixpoint digits_fuel (fuel : nat) (n : Z) (acc : string) : string :=
  match fuel with
  | O => acc
  | S f =>
      let acc' := String (digit (n mod 10)) acc in
      if n <? 10 then acc' else digits_fuel f (n / 10) acc'
  end.

Definition FormatUint (n : Z) : string :=
  digits_fuel (S (Z.to_nat (Z.log2 n))) n "".

(** [strconv.FormatInt(i, 10)]. *)
Definition FormatInt (i : Z) : string :=
  if i <? 0 then "-" ++ FormatUint (- i) else FormatUint i.

(** [strconv.Itoa(i)] is [FormatInt(int64(i), 10)]. *)
Definition Itoa (i : Z) : string := FormatInt (to_int64 i).

Definition is_digit (c : ascii) : bool :=
  let n := Bytes.code c in (48 <=? n) && (n <=? 57).

Fixpoint all_digits (s : string) : bool :=
  match s with
  | EmptyString => true
  | String c s' => is_digit c && all_digits s'
  end.

Fixpoint digits_value (s : string) (acc : Z) : Z :=
  match s with
  | EmptyString => acc
  | String c s' => digits_value s' (10 * acc + (Bytes.code c - 48))
  end.

(** [strconv.ParseInt(s, 10, 64)]: an optional sign and decimal digits, in
    the range of [int64]; [None] stands for its error. *)
Definition ParseInt (s : string) : option Z :=
  let '(neg, ds) :=
    match s with
    | String c r =>
        if Bytes.code c =? 45 then (true, r)
        else if Bytes.code c =? 43 then (false, r)
        else (false, s)
    | EmptyString => (false, s)
    end in
  match ds with
  | EmptyString => None
  | _ =>
      if all_digits ds then
        let v := digits_value ds 0 in
        let v := if neg then - v else v in
        if is_int64 v then Some v else None
      else None
  end.

Definition hexdigit (d : Z) : ascii :=
  if d <? 10 then Bytes.chr (48 + d) else Bytes.chr (87 + d).

End strconv.

(* ================================================================== *)
(** * encoding/base64 *)
(* ================================================================== *)

Module base64.

Definition encodeStd : string :=
  "ABCDEFGHIJKLMNOPQRSTUVWXYZabcdefghijklmnopqrstuvwxyz0123456789+/".

Definition alpha (i : Z) : ascii :=
  match String.get (Z.to_nat i) encodeStd with
  | Some c => c
  | None => "="%char
  end.

(** [StdEncoding.EncodeToString]: three bytes give four characters; a last
    group of one or two bytes is padded with [=]. *)
Fixpoint encode (src : list Z) : string :=
  match src with
  | [] => ""
  | [a] =>
      String (alpha (Z.shiftr a 2))
        (String (alpha (Z.land (Z.shiftl a 4) 63)) "==")
  | [a; b] =>
      String (alpha (Z.shiftr a 2))
        (String (alpha (Z.land (Z.lor (Z.shiftl a 4) (Z.shiftr b 4)) 63))
           (String (alpha (Z.land (Z.shiftl b 2) 63)) "="))
  | a :: b :: c :: rest =>
      String (alpha (Z.shiftr a 2))
        (String (alpha (Z.land (Z.lor (Z.shiftl a 4) (Z.shiftr b 4)) 63))
           (String (alpha (Z.land (Z.lor (Z.shiftl b 2) (Z.shiftr c 6)) 63))
              (String (alpha (Z.land c 63)) (encode rest))))
  end.

Definition EncodeToString (src : string) : string :=
  encode (Bytes.of_string src).

(* ------------------------------------------------------------------ *)
(** ** Decoding, as RFC 4648 defines the encoding *)

(** The place of a character in the alphabet; -1 for one outside it. *)
Fixpoint index_from (i : Z) (alphabet : string) (c : ascii) : Z :=
  match alphabet with
  | EmptyString => -1
  | String a r => if Ascii.eqb a c then i else index_from (i + 1) r c
  end.

Definition value (c : ascii) : Z := index_from 0 encodeStd c.

Definition is_pad (c : ascii) : bool := Ascii.eqb c "="%char.

Definition is_empty (s : string) : bool :=
  match s with EmptyString => true | _ => false end.

Fixpoint decode_rfc4648 (s : string) : option (list Z) :=
  match s with
  | EmptyString => Some []
  | String c1 (String c2 (String c3 (String c4 rest))) =>
      let v1 := value c1 in
      let v2 := value c2 in
      if (v1 <? 0) || (v2 <? 0) then None
      else
        let b1 := Z.lor (Z.shiftl v1 2) (Z.shiftr v2 4) in
        if is_pad c3 then
          if is_pad c4 && is_empty rest then Some [b1] else None
        else
          let v3 := value c3 in
          if v3 <? 0 then None
          else
            let b2 := Z.lor (Z.land (Z.shiftl v2 4) 255) (Z.shiftr v3 2) in
            if is_pad c4 then
              if is_empty rest then Some [b1; b2] else None
            else
              let v4 := value c4 in
              if v4 <? 0 then None
              else
                let b3 := Z.lor (Z.land (Z.shiftl v3 6) 255) v4 in
                match decode_rfc4648 rest with
                | Some l => Some (b1 :: b2 :: b3 :: l)
                | None => None
                end
  | _ => None
  end.

Definition all_bytes : list Z := map Z.of_nat (seq 0 256).

Definition group1 (a : Z) : bool :=
  match decode_rfc4648 (encode [a]) with
  | Some [x] => x =? a
  | _ => false
  end.

Definition group2 (a b : Z) : bool :=
  match decode_rfc4648 (encode [a; b]) with
  | Some [x; y] => (x =? a) && (y =? b)
  | _ => false
  end.

Definition all_sextets : list Z := map Z.of_nat (seq 0 64).

Definition is_sextet (i : Z) : Prop := 0 <= i < 64.

Definition alphabet_ok (i : Z) : bool :=
  (value (alpha i) =? i) && negb (is_pad (alpha i)).

Definition sextet2 (a b : Z) : Z :=
  Z.land (Z.lor (Z.shiftl a 4) (Z.shiftr b 4)) 63.
Definition sextet3 (b c : Z) : Z :=
  Z.land (Z.lor (Z.shiftl b 2) (Z.shiftr c 6)) 63.

Definition pair_ok (a b : Z) : bool :=
  (Z.lor (Z.shiftl (Z.shiftr a 2) 2) (Z.shiftr (sextet2 a b) 4) =? a)
  && (Z.land (Z.shiftl (sextet2 a b) 4) 255 =? Z.shiftl (Z.shiftr b 4) 4)
  && (Z.shiftr (sextet3 a b) 2 =? Z.land a 15)
  && (Z.lor (Z.land (Z.shiftl (sextet3 a b) 6) 255) (Z.land b 63) =? b)
  && (Z.lor (Z.shiftl (Z.shiftr a 4) 4) (Z.land a 15) =? a).

End base64.

(* ================================================================== *)
(** * hash.Hash, crypto/sha1, crypto/hmac *)
(* ================================================================== *)

(** The interface [hash.Hash]: a value of type [H] is a hash in progress.
    [Sum h b] appends the current digest to [b] and leaves [h] as it is. *)
Class Hash (H : Type) : Type := {
  Write : H -> list Z -> H;
  Sum : H -> list Z -> list Z;
  Reset : H -> H;
  Size : Z;
  BlockSize : Z
}.

Module sha1.

Definition mask32 : Z := 2 ^ 32 - 1.
Definition add32 (a b : Z) : Z := Z.land (a + b) mask32.
Definition rotl32 (x : Z) (n : Z) : Z :=
  Z.land (Z.lor (Z.shiftl x n) (Z.shiftr x (32 - n))) mask32.
Definition not32 (x : Z) : Z := Z.lxor x mask32.

(** Big-endian encodings. *)
Definition be32 (x : Z) : list Z :=
  [Z.land (Z.shiftr x 24) 255; Z.land (Z.shiftr x 16) 255;
   Z.land (Z.shiftr x 8) 255; Z.land x 255].

Definition be64 (x : Z) : list Z :=
  (be32 (Z.land (Z.shiftr x 32) mask32) ++ be32 (Z.land x mask32))%list.

Fixpoint words_be (bs : list Z) : list Z :=
  match bs with
  | a :: b :: c :: d :: rest =>
      Z.lor (Z.lor (Z.shiftl a 24) (Z.shiftl b 16)) (Z.lor (Z.shiftl c 8) d)
      :: words_be rest
  | _ => []
  end.

(** The message schedule: [w] holds the words computed so far, newest
    first. *)
Fixpoint schedule (n : nat) (w : list Z) : list Z :=
  match n with
  | O => w
  | S n' =>
      let x := Z.lxor (Z.lxor (nth 2 w 0) (nth 7 w 0))
                 (Z.lxor (nth 13 w 0) (nth 15 w 0)) in
      schedule n' (rotl32 x 1 :: w)
  end.

Definition round_f (i : nat) (b c d : Z) : Z :=
  if (i <? 20)%nat then Z.lor (Z.land b c) (Z.land (not32 b) d)
  else if (i <? 40)%nat then Z.lxor (Z.lxor b c) d
  else if (i <? 60)%nat then
    Z.lor (Z.lor (Z.land b c) (Z.land b d)) (Z.land c d)
  else Z.lxor (Z.lxor b c) d.

Definition round_k (i : nat) : Z :=
  if (i <? 20)%nat then 0x5A827999
  else if (i <? 40)%nat then 0x6ED9EBA1
  else if (i <? 60)%nat then 0x8F1BBCDC
  else 0xCA62C1D6.

Definition regs : Type := (Z * Z * Z * Z * Z)%type.

Fixpoint rounds (i : nat) (ws : list Z) (r : regs) : regs :=
  match ws with
  | [] => r
  | w :: ws' =>
      let '(a, b, c, d, e) := r in
      let t := add32 (add32 (add32 (add32 (rotl32 a 5) (round_f i b c d)) e) w)
                 (round_k i) in
      rounds (S i) ws' (t, a, rotl32 b 30, c, d)
  end.

(** One 64-byte block. *)
Definition block (h : regs) (blk : list Z) : regs :=
  let w := rev (schedule 64 (rev (words_be blk))) in
  let '(h0, h1, h2, h3, h4) := h in
  let '(a, b, c, d, e) := rounds 0 w h in
  (add32 h0 a, add32 h1 b, add32 h2 c, add32 h3 d, add32 h4 e).

Fixpoint blocks (n : nat) (h : regs) (bs : list Z) : regs :=
  match n with
  | O => h
  | S n' => blocks n' (block h (firstn 64 bs)) (skipn 64 bs)
  end.

Definition init : regs :=
  (0x67452301, 0xEFCDAB89, 0x98BADCFE, 0x10325476, 0xC3D2E1F0).

(** Padding: a [0x80] byte, zero bytes up to 56 modulo 64, and the
    List.length in bits as 64 bits, big-endian. *)
Definition pad (msg : list Z) : list Z :=
  let n := Z.of_nat (List.length msg) in
  let zeros := Z.to_nat ((55 - n) mod 64) in
  (msg ++ [128] ++ repeat 0 zeros ++ be64 (Z.land (8 * n) (2 ^ 64 - 1)))%list.

(** [sha1.Sum(msg)], the 20-byte digest. *)
Definition Sum1 (msg : list Z) : list Z :=
  let p := pad msg in
  let '(h0, h1, h2, h3, h4) := blocks (Nat.div (List.length p) 64) init p in
  (be32 h0 ++ be32 h1 ++ be32 h2 ++ be32 h3 ++ be32 h4)%list.

(** The value [sha1.New()] returns: the bytes written so far. *)
Record digest : Type := { written : list Z }.

Definition New : digest := {| written := [] |}.

#[global] Instance digest_Hash : Hash digest := {
  Write h p := {| written := (written h ++ p)%list |};
  Sum h b := (b ++ Sum1 (written h))%list;
  Reset _ := New;
  Size := 20;
  BlockSize := 64
}.

End sha1.

Module hmac.

Section Generic.
Context {H : Type} `{Hash H}.

(** The struct [hmac] of crypto/hmac: the two padded keys and the two
    running hashes. *)
Record hmacT : Type := {
  opad : list Z;
  ipad : list Z;
  outer : H;
  inner : H
}.

Definition xor_pad (p : Z) (key : list Z) : list Z :=
  map (fun b => Z.lxor b p) key.

Definition zero_extend (n : nat) (key : list Z) : list Z :=
  (key ++ repeat 0 (n - List.length key))%list.

(** [hmac.New(h, key)]: a key longer than the block size is hashed first;
    the key is then padded with zero bytes to the block size, and the
    inner hash is fed the key xor [0x36]. *)
Definition New (new : H) (key : list Z) : hmacT :=
  let blocksize := Z.to_nat BlockSize in
  let key' :=
    if (blocksize <? List.length key)%nat
    then Sum (Write new key) [] else key in
  let k0 := zero_extend blocksize key' in
  let ip := xor_pad 0x36 k0 in
  let op := xor_pad 0x5c k0 in
  {| opad := op; ipad := ip; outer := new; inner := Write new ip |}.

Definition hmac_Write (h : hmacT) (p : list Z) : hmacT :=
  {| opad := opad h; ipad := ipad h; outer := outer h;
     inner := Write (inner h) p |}.

(** [(h *hmac).Sum(in)]: the inner digest is fed, after the key xor
    [0x5c], to the outer hash. *)
Definition hmac_Sum (h : hmacT) (b : list Z) : list Z :=
  let origLen := List.length b in
  let b1 := Sum (inner h) b in
  let o := Write (Write (Reset (outer h)) (opad h)) (skipn origLen b1) in
  Sum o (firstn origLen b1).

Definition hmac_Reset (h : hmacT) : hmacT :=
  {| opad := opad h; ipad := ipad h; outer := outer h;
     inner := Write (Reset (inner h)) (ipad h) |}.

#[global] Instance hmac_Hash : Hash hmacT := {
  Write := hmac_Write;
  Sum := hmac_Sum;
  Reset := hmac_Reset;
  Size := Size (H := H);
  BlockSize := BlockSize (H := H)
}.

End Generic.

(** The definition of HMAC in RFC 2104, with SHA-1 as the hash:
    [H((K0 xor opad) || H((K0 xor ipad) || text))]. *)
Definition HMAC_SHA1_spec (key text : list Z) : list Z :=
  let k := if (64 <? List.length key)%nat then sha1.Sum1 key else key in
  let k0 := (k ++ repeat 0 (64 - List.length k))%list in
  sha1.Sum1 (map (fun b => Z.lxor b 0x5c) k0 ++
             sha1.Sum1 (map (fun b => Z.lxor b 0x36) k0 ++ text))%list.

End hmac.

Definition hex_of_bytes (l : list Z) : string :=
  fold_right (fun b s =>
    String (strconv.hexdigit (Z.shiftr b 4))
      (String (strconv.hexdigit (Z.land b 15)) s)) "" l.

(* ================================================================== *)
(** * Errors *)
(* ================================================================== *)

(** The values of Go's [error] interface that the program meets. *)
Inductive error : Type :=
| errorString (s : string)
    (** [errors.New(s)] and [fmt.Errorf]: nothing but the message *)
| SyntaxError (msg : string) (Offset : Z)
    (** [*json.SyntaxError] *)
| UnmarshalTypeError (Value Type_ Struct Field : string)
    (** [*json.UnmarshalTypeError]; its [Offset] is left out *)
| PathError (Op Path Err : string)
    (** [*os.PathError], the failure of a file operation *)
| TransportError (msg : string)
    (** a failure of [net/http] or [net/url] *).

(** The method [Error()]. *)
Definition Error (e : error) : string :=
  match e with
  | errorString s => s
  | SyntaxError msg _ => msg
  | UnmarshalTypeError v t s f =>
      match s, f with
      | EmptyString, EmptyString =>
          "json: cannot unmarshal " ++ v ++ " into Go value of type " ++ t
      | _, _ =>
          "json: cannot unmarshal " ++ v ++ " into Go struct field "
            ++ s ++ "." ++ f ++ " of type " ++ t
      end
  | PathError op path err => op ++ " " ++ path ++ ": " ++ err
  | TransportError msg => msg
  end.

(** A result next to an error, as in Go's [(T, error)]. *)
Definition result (A : Type) : Type := (A + error)%type.

(* ================================================================== *)
(** * Go types and values, as package reflect sees them *)
(* ================================================================== *)

(** A struct field: its Go name and the value of the key [json] of its
    tag (empty when the field has no tag). *)
Record FieldInfo : Type := { fname : string; ftag : string }.

Inductive GoType : Type :=
| TBool
| TInt (name : string) (bits : Z)   (** a signed integer type, by name *)
| TFloat32
| TString
| TSlice (elem : GoType)
| TStruct (name : string) (fields : list (FieldInfo * GoType)).

(** A value carries its type, as a [reflect.Value] does.  A [float32] is
    its IEEE 754 bit pattern; a slice is [None] when nil. *)
Inductive GoVal : Type :=
| VBool (b : bool)
| VInt (name : string) (bits : Z) (z : Z)
| VFloat32 (f : Z)
| VString (s : string)
| VSlice (elem : GoType) (elems : option (list GoVal))
| VStruct (name : string) (fields : list (FieldInfo * GoVal)).

(** The zero value of a type. *)
Fixpoint zero (t : GoType) : GoVal :=
  match t with
  | TBool => VBool false
  | TInt n b => VInt n b 0
  | TFloat32 => VFloat32 0
  | TString => VString ""
  | TSlice e => VSlice e None
  | TStruct n fs => VStruct n (map (fun '(fi, ft) => (fi, zero ft)) fs)
  end.

Fixpoint typeOf (v : GoVal) : GoType :=
  match v with
  | VBool _ => TBool
  | VInt n b _ => TInt n b
  | VFloat32 _ => TFloat32
  | VString _ => TString
  | VSlice e _ => TSlice e
  | VStruct n fs => TStruct n (map (fun '(fi, fv) => (fi, typeOf fv)) fs)
  end.

(** [Type.String()]; the struct types are those of package [youtu]. *)
Fixpoint typeString (t : GoType) : string :=
  match t with
  | TBool => "bool"
  | TInt n _ => n
  | TFloat32 => "float32"
  | TString => "string"
  | TSlice e => "[]" ++ typeString e
  | TStruct n _ => "youtu." ++ n
  end.

(** A field is exported when its name starts with an upper-case letter. *)
Definition exported (fi : FieldInfo) : bool :=
  match fname fi with
  | EmptyString => false
  | String c _ => let n := Bytes.code c in (65 <=? n) && (n <=? 90)
  end.

(** A composite literal [T{f1: v1, ...}]: the fields named get their
    value, the others the zero value. *)
Fixpoint lookup_init (inits : list (string * GoVal)) (f : string)
  : option GoVal :=
  match inits with
  | [] => None
  | (k, v) :: r => if String.eqb k f then Some v else lookup_init r f
  end.

Definition literal (t : GoType) (inits : list (string * GoVal)) : GoVal :=
  match t with
  | TStruct n fs =>
      VStruct n (map (fun '(fi, ft) =>
        (fi, match lookup_init inits (fname fi) with
             | Some v => v
             | None => zero ft
             end)) fs)
  | _ => zero t
  end.

(** The selector [v.f]. *)
Fixpoint field_of (fs : list (FieldInfo * GoVal)) (f : string)
  : option GoVal :=
  match fs with
  | [] => None
  | (fi, v) :: r => if String.eqb (fname fi) f then Some v else field_of r f
  end.

Definition field (v : GoVal) (f : string) : option GoVal :=
  match v with
  | VStruct _ fs => field_of fs f
  | _ => None
  end.

(* ================================================================== *)
(** * unicode/utf8 *)
(* ================================================================== *)

Module utf8.

Definition RuneError : Z := 0xFFFD.

(** For a leading byte: the length of the sequence and the range its
    second byte must lie in; length 0 for a byte that starts none. *)
Definition first (b : Z) : nat * Z * Z :=
  if (0xC2 <=? b) && (b <=? 0xDF) then (2%nat, 0x80, 0xBF)
  else if b =? 0xE0 then (3%nat, 0xA0, 0xBF)
  else if (0xE1 <=? b) && (b <=? 0xEC) then (3%nat, 0x80, 0xBF)
  else if b =? 0xED then (3%nat, 0x80, 0x9F)
  else if (0xEE <=? b) && (b <=? 0xEF) then (3%nat, 0x80, 0xBF)
  else if b =? 0xF0 then (4%nat, 0x90, 0xBF)
  else if (0xF1 <=? b) && (b <=? 0xF3) then (4%nat, 0x80, 0xBF)
  else if b =? 0xF4 then (4%nat, 0x80, 0x8F)
  else (0%nat, 0, 0).

Definition cont (b : Z) : bool := (0x80 <=? b) && (b <=? 0xBF).

(** [utf8.DecodeRune]: the first rune of [p] and its width in bytes;
    [(RuneError, 1)] for an invalid encoding. *)
Definition DecodeRune (p : list Z) : Z * nat :=
  match p with
  | [] => (RuneError, 0%nat)
  | p0 :: r0 =>
      if p0 <? 0x80 then (p0, 1%nat)
      else
        let '(sz, lo, hi) := first p0 in
        match sz, r0 with
        | O, _ | _, [] => (RuneError, 1%nat)
        | _, b1 :: r1 =>
            if (b1 <? lo) || (hi <? b1) then (RuneError, 1%nat)
            else if (sz =? 2)%nat then
              (Z.lor (Z.shiftl (Z.land p0 0x1F) 6) (Z.land b1 0x3F), 2%nat)
            else
              match r1 with
              | [] => (RuneError, 1%nat)
              | b2 :: r2 =>
                  if negb (cont b2) then (RuneError, 1%nat)
                  else if (sz =? 3)%nat then
                    (Z.lor (Z.lor (Z.shiftl (Z.land p0 0x0F) 12)
                                  (Z.shiftl (Z.land b1 0x3F) 6))
                           (Z.land b2 0x3F), 3%nat)
                  else
                    match r2 with
                    | [] => (RuneError, 1%nat)
                    | b3 :: _ =>
                        if negb (cont b3) then (RuneError, 1%nat)
                        else
                          (Z.lor (Z.lor (Z.shiftl (Z.land p0 0x07) 18)
                                        (Z.shiftl (Z.land b1 0x3F) 12))
                                 (Z.lor (Z.shiftl (Z.land b2 0x3F) 6)
                                        (Z.land b3 0x3F)), 4%nat)
                    end
              end
        end
  end.

Definition enc3 (r : Z) : list Z :=
  [Z.lor 0xE0 (Z.shiftr r 12);
   Z.lor 0x80 (Z.land (Z.shiftr r 6) 0x3F);
   Z.lor 0x80 (Z.land r 0x3F)].

(** [utf8.EncodeRune]; a rune out of range or a surrogate is written as
    [RuneError]. *)
Definition EncodeRune (r : Z) : list Z :=
  if r <? 0 then enc3 RuneError
  else if r <=? 0x7F then [r]
  else if r <=? 0x7FF then
    [Z.lor 0xC0 (Z.shiftr r 6); Z.lor 0x80 (Z.land r 0x3F)]
  else if (0x10FFFF <? r) || ((0xD800 <=? r) && (r <=? 0xDFFF)) then
    enc3 RuneError
  else if r <=? 0xFFFF then enc3 r
  else
    [Z.lor 0xF0 (Z.shiftr r 18);
     Z.lor 0x80 (Z.land (Z.shiftr r 12) 0x3F);
     Z.lor 0x80 (Z.land (Z.shiftr r 6) 0x3F);
     Z.lor 0x80 (Z.land r 0x3F)].

End utf8.

(* ================================================================== *)
(** * encoding/json: the scanner *)
(* ================================================================== *)

Module json.

(** The scanner of [scanner.go]: a state machine fed one byte at a time,
    with a stack of the composite values being read. *)
Inductive parseState : Type :=
| parseObjectKey | parseObjectValue | parseArrayValue.

Inductive stepFn : Type :=
| stateBeginValueOrEmpty | stateBeginValue | stateBeginStringOrEmpty
| stateBeginString | stateEndValue | stateEndTop
| stateInString | stateInStringEsc | stateInStringEscU
| stateInStringEscU1 | stateInStringEscU12 | stateInStringEscU123
| stateNeg | state1 | state0 | stateDot | stateDot0
| stateE | stateESign | stateE0
| stateT | stateTr | stateTru
| stateF | stateFa | stateFal | stateFals
| stateN | stateNu | stateNul
| stateError.

Inductive scanCode : Type :=
| scanContinue | scanBeginLiteral | scanBeginObject | scanObjectKey
| scanObjectValue | scanEndObject | scanBeginArray | scanArrayValue
| scanEndArray | scanSkipSpace | scanEnd | scanError.

Record scanner : Type := {
  step : stepFn;
  endTop : bool;
  parseStack : list parseState;   (** innermost first *)
  err : option error;
  bytes : Z
}.

Definition maxNestingDepth : Z := 10000.

Definition reset : scanner :=
  {| step := stateBeginValue; endTop := false; parseStack := [];
     err := None; bytes := 0 |}.

Definition with_step (s : scanner) (f : stepFn) : scanner :=
  {| step := f; endTop := endTop s; parseStack := parseStack s;
     err := err s; bytes := bytes s |}.

Definition with_stack (s : scanner) (p : list parseState) : scanner :=
  {| step := step s; endTop := endTop s; parseStack := p;
     err := err s; bytes := bytes s |}.

Definition squote : string := "'".
Definition dquote : string := String (Bytes.chr 34) "".
Definition backslash : string := String (Bytes.chr 92) "".

Definition hex2 (b : Z) : string :=
  String (strconv.hexdigit (Z.shiftr b 4))
    (String (strconv.hexdigit (Z.land b 15)) "").

(** [quoteChar]: a byte as it is shown in a syntax error. *)
Definition quoteChar (c : Z) : string :=
  if c =? 39 then squote ++ backslash ++ squote ++ squote
  else if c =? 34 then squote ++ dquote ++ squote
  else
    let body :=
      if c =? 92 then backslash ++ backslash
      else if (0x20 <=? c) && (c <=? 0x7E) then String (Bytes.chr c) ""
      else if (0xA1 <=? c) && (c <=? 0xFF) && negb (c =? 0xAD) then
        Bytes.to_string (utf8.EncodeRune c)
      else if c =? 7 then backslash ++ "a"
      else if c =? 8 then backslash ++ "b"
      else if c =? 12 then backslash ++ "f"
      else if c =? 10 then backslash ++ "n"
      else if c =? 13 then backslash ++ "r"
      else if c =? 9 then backslash ++ "t"
      else if c =? 11 then backslash ++ "v"
      else if (c <? 0x20) || (c =? 0x7F) then backslash ++ "x" ++ hex2 c
      else backslash ++ "u00" ++ hex2 c in
    squote ++ body ++ squote.

(** [s.error(c, context)]. *)
Definition error_at (s : scanner) (c : Z) (context : string)
  : scanner * scanCode :=
  ({| step := stateError; endTop := endTop s; parseStack := parseStack s;
      err := Some (SyntaxError
                     ("invalid character " ++ quoteChar c ++ " " ++ context)
                     (bytes s));
      bytes := bytes s |}, scanError).

Definition isSpace (c : Z) : bool :=
  (c =? 32) || (c =? 9) || (c =? 13) || (c =? 10).

Definition isDigit (c : Z) : bool := (48 <=? c) && (c <=? 57).
Definition isDigit19 (c : Z) : bool := (49 <=? c) && (c <=? 57).
Definition isHex (c : Z) : bool :=
  isDigit c || ((97 <=? c) && (c <=? 102)) || ((65 <=? c) && (c <=? 70)).

Definition pushParseState (s : scanner) (c : Z) (newParseState : parseState)
    (successState : scanCode) : scanner * scanCode :=
  let s' := with_stack s (newParseState :: parseStack s) in
  if Z.of_nat (List.length (parseStack s')) <=? maxNestingDepth
  then (s', successState)
  else error_at s' c "exceeded max depth".

Definition popParseState (s : scanner) : scanner :=
  match parseStack s with
  | [] => s
  | _ :: [] =>
      {| step := stateEndTop; endTop := true; parseStack := [];
         err := err s; bytes := bytes s |}
  | _ :: rest => with_step (with_stack s rest) stateEndValue
  end.

Definition stateEndTop_step (s : scanner) (c : Z) : scanner * scanCode :=
  if negb (isSpace c)
  then (fst (error_at s c "after top-level value"), scanEnd)
  else (s, scanEnd).

Definition stateEndValue_step (s : scanner) (c : Z) : scanner * scanCode :=
  match parseStack s with
  | [] =>
      stateEndTop_step
        {| step := stateEndTop; endTop := true; parseStack := [];
           err := err s; bytes := bytes s |} c
  | ps :: rest =>
      if isSpace c then (with_step s stateEndValue, scanSkipSpace)
      else
        match ps with
        | parseObjectKey =>
            if c =? 58 then
              (with_step (with_stack s (parseObjectValue :: rest))
                 stateBeginValue, scanObjectKey)
            else error_at s c "after object key"
        | parseObjectValue =>
            if c =? 44 then
              (with_step (with_stack s (parseObjectKey :: rest))
                 stateBeginString, scanObjectValue)
            else if c =? 125 then (popParseState s, scanEndObject)
            else error_at s c "after object key:value pair"
        | parseArrayValue =>
            if c =? 44 then (with_step s stateBeginValue, scanArrayValue)
            else if c =? 93 then (popParseState s, scanEndArray)
            else error_at s c "after array element"
        end
  end.

Definition stateBeginValue_step (s : scanner) (c : Z) : scanner * scanCode :=
  if isSpace c then (s, scanSkipSpace)
  else if c =? 123 then
    pushParseState (with_step s stateBeginStringOrEmpty) c
      parseObjectKey scanBeginObject
  else if c =? 91 then
    pushParseState (with_step s stateBeginValueOrEmpty) c
      parseArrayValue scanBeginArray
  else if c =? 34 then (with_step s stateInString, scanBeginLiteral)
  else if c =? 45 then (with_step s stateNeg, scanBeginLiteral)
  else if c =? 48 then (with_step s state0, scanBeginLiteral)
  else if c =? 116 then (with_step s stateT, scanBeginLiteral)
  else if c =? 102 then (with_step s stateF, scanBeginLiteral)
  else if c =? 110 then (with_step s stateN, scanBeginLiteral)
  else if isDigit19 c then (with_step s state1, scanBeginLiteral)
  else error_at s c "looking for beginning of value".

Definition stateBeginString_step (s : scanner) (c : Z) : scanner * scanCode :=
  if isSpace c then (s, scanSkipSpace)
  else if c =? 34 then (with_step s stateInString, scanBeginLiteral)
  else error_at s c "looking for beginning of object key string".

Definition state0_step (s : scanner) (c : Z) : scanner * scanCode :=
  if c =? 46 then (with_step s stateDot, scanContinue)
  else if (c =? 101) || (c =? 69) then (with_step s stateE, scanContinue)
  else stateEndValue_step s c.

Definition stateESign_step (s : scanner) (c : Z) : scanner * scanCode :=
  if isDigit c then (with_step s stateE0, scanContinue)
  else error_at s c "in exponent of numeric literal".

(** A letter of one of the literals [true], [false] and [null]. *)
Definition expect (s : scanner) (c : Z) (want : Z) (next : stepFn)
    (context : string) : scanner * scanCode :=
  if c =? want then (with_step s next, scanContinue)
  else error_at s c context.

Definition hexstep (s : scanner) (c : Z) (next : stepFn)
  : scanner * scanCode :=
  if isHex c then (with_step s next, scanContinue)
  else error_at s c (backslash ++ "u hexadecimal character escape").

(** [s.step(s, c)]. *)
Definition do_step (s : scanner) (c : Z) : scanner * scanCode :=
  match step s with
  | stateBeginValueOrEmpty =>
      if isSpace c then (s, scanSkipSpace)
      else if c =? 93 then stateEndValue_step s c
      else stateBeginValue_step s c
  | stateBeginValue => stateBeginValue_step s c
  | stateBeginStringOrEmpty =>
      if isSpace c then (s, scanSkipSpace)
      else if c =? 125 then
        match parseStack s with
        | [] => stateEndValue_step s c
        | _ :: rest =>
            stateEndValue_step (with_stack s (parseObjectValue :: rest)) c
        end
      else stateBeginString_step s c
  | stateBeginString => stateBeginString_step s c
  | stateEndValue => stateEndValue_step s c
  | stateEndTop => stateEndTop_step s c
  | stateInString =>
      if c =? 34 then (with_step s stateEndValue, scanContinue)
      else if c =? 92 then (with_step s stateInStringEsc, scanContinue)
      else if c <? 0x20 then error_at s c "in string literal"
      else (s, scanContinue)
  | stateInStringEsc =>
      if (c =? 98) || (c =? 102) || (c =? 110) || (c =? 114) || (c =? 116)
         || (c =? 92) || (c =? 47) || (c =? 34)
      then (with_step s stateInString, scanContinue)
      else if c =? 117 then (with_step s stateInStringEscU, scanContinue)
      else error_at s c "in string escape code"
  | stateInStringEscU => hexstep s c stateInStringEscU1
  | stateInStringEscU1 => hexstep s c stateInStringEscU12
  | stateInStringEscU12 => hexstep s c stateInStringEscU123
  | stateInStringEscU123 => hexstep s c stateInString
  | stateNeg =>
      if c =? 48 then (with_step s state0, scanContinue)
      else if isDigit19 c then (with_step s state1, scanContinue)
      else error_at s c "in numeric literal"
  | state1 =>
      if isDigit c then (with_step s state1, scanContinue)
      else state0_step s c
  | state0 => state0_step s c
  | stateDot =>
      if isDigit c then (with_step s stateDot0, scanContinue)
      else error_at s c "after decimal point in numeric literal"
  | stateDot0 =>
      if isDigit c then (s, scanContinue)
      else if (c =? 101) || (c =? 69) then (with_step s stateE, scanContinue)
      else stateEndValue_step s c
  | stateE =>
      if (c =? 43) || (c =? 45) then (with_step s stateESign, scanContinue)
      else stateESign_step s c
  | stateESign => stateESign_step s c
  | stateE0 =>
      if isDigit c then (s, scanContinue) else stateEndValue_step s c
  | stateT => expect s c 114 stateTr "in literal true (expecting 'r')"
  | stateTr => expect s c 117 stateTru "in literal true (expecting 'u')"
  | stateTru => expect s c 101 stateEndValue "in literal true (expecting 'e')"
  | stateF => expect s c 97 stateFa "in literal false (expecting 'a')"
  | stateFa => expect s c 108 stateFal "in literal false (expecting 'l')"
  | stateFal => expect s c 115 stateFals "in literal false (expecting 's')"
  | stateFals =>
      expect s c 101 stateEndValue "in literal false (expecting 'e')"
  | stateN => expect s c 117 stateNu "in literal null (expecting 'u')"
  | stateNu => expect s c 108 stateNul "in literal null (expecting 'l')"
  | stateNul => expect s c 108 stateEndValue "in literal null (expecting 'l')"
  | stateError => (s, scanError)
  end.

(** [s.eof()]. *)
Definition eof (s : scanner) : scanner * scanCode :=
  match err s with
  | Some _ => (s, scanError)
  | None =>
      if endTop s then (s, scanEnd)
      else
        let s1 := fst (do_step s 32) in
        if endTop s1 then (s1, scanEnd)
        else
          match err s1 with
          | None =>
              ({| step := step s1; endTop := endTop s1;
                  parseStack := parseStack s1;
                  err := Some (SyntaxError "unexpected end of JSON input"
                                 (bytes s1));
                  bytes := bytes s1 |}, scanError)
          | Some _ => (s1, scanError)
          end
  end.

Definition is_scanError (c : scanCode) : bool :=
  match c with scanError => true | _ => false end.

Fixpoint feed (s : scanner) (data : list Z) : scanner * bool :=
  match data with
  | [] => (s, false)
  | c :: rest =>
      let s1 := {| step := step s; endTop := endTop s;
                   parseStack := parseStack s; err := err s;
                   bytes := bytes s + 1 |} in
      let '(s2, code) := do_step s1 c in
      if is_scanError code then (s2, true) else feed s2 rest
  end.

(** [checkValid(data, scan)]: [None] when [data] is one JSON value, the
    syntax error otherwise. *)
Definition checkValid (data : list Z) : option error :=
  let '(s, failed) := feed reset data in
  if failed then err s
  else
    let '(s', code) := eof s in
    if is_scanError code then err s' else None.

Definition Valid (data : string) : bool :=
  match checkValid (Bytes.of_string data) with
  | None => true
  | Some _ => false
  end.

(* ------------------------------------------------------------------ *)
(** ** The syntax tree of a valid text *)

(** A JSON value.  A number keeps its literal; a string keeps the bytes
    between its quotes, escapes included. *)
Inductive JSON : Type :=
| JNull
| JTrue
| JFalse
| JNumber (lit : string)
| JString (raw : list Z)
| JArray (elems : list JSON)
| JObject (members : list (list Z * JSON)).

Fixpoint skip_space (s : list Z) : list Z :=
  match s with
  | c :: r => if isSpace c then skip_space r else s
  | [] => []
  end.

(** The bytes of a string literal up to its closing quote, and what
    follows the quote. *)
Fixpoint scan_string (s : list Z) (acc : list Z) : list Z * list Z :=
  match s with
  | [] => (rev acc, [])
  | 34 :: r => (rev acc, r)
  | 92 :: c :: r => scan_string r (c :: 92 :: acc)
  | c :: r => scan_string r (c :: acc)
  end.

Definition is_number_byte (c : Z) : bool :=
  isDigit c || (c =? 45) || (c =? 43) || (c =? 46) || (c =? 101) || (c =? 69).

Fixpoint scan_number (s : list Z) (acc : list Z) : list Z * list Z :=
  match s with
  | c :: r => if is_number_byte c then scan_number r (c :: acc)
              else (rev acc, s)
  | [] => (rev acc, [])
  end.

(** Reading a value off a text that [checkValid] accepted. *)
Fixpoint parse_value (fuel : nat) (s : list Z) : option (JSON * list Z) :=
  match fuel with
  | O => None
  | S f =>
      match skip_space s with
      | [] => None
      | 123 :: r =>
          match skip_space r with
          | 125 :: r' => Some (JObject [], r')
          | _ =>
              match parse_members f r with
              | Some (ms, r') => Some (JObject ms, r')
              | None => None
              end
          end
      | 91 :: r =>
          match skip_space r with
          | 93 :: r' => Some (JArray [], r')
          | _ =>
              match parse_elems f r with
              | Some (vs, r') => Some (JArray vs, r')
              | None => None
              end
          end
      | 34 :: r =>
          let '(str, r') := scan_string r [] in Some (JString str, r')
      | 116 :: r => Some (JTrue, skipn 3 r)
      | 102 :: r => Some (JFalse, skipn 4 r)
      | 110 :: r => Some (JNull, skipn 3 r)
      | c :: r =>
          if isDigit c || (c =? 45) then
            let '(lit, r') := scan_number (c :: r) [] in
            Some (JNumber (Bytes.to_string lit), r')
          else None
      end
  end
with parse_elems (fuel : nat) (s : list Z) : option (list JSON * list Z) :=
  match fuel with
  | O => None
  | S f =>
      match parse_value f s with
      | None => None
      | Some (v, r) =>
          match skip_space r with
          | 44 :: r' =>
              match parse_elems f r' with
              | Some (vs, r'') => Some (v :: vs, r'')
              | None => None
              end
          | 93 :: r' => Some ([v], r')
          | _ => None
          end
      end
  end
with parse_members (fuel : nat) (s : list Z)
  : option (list (list Z * JSON) * list Z) :=
  match fuel with
  | O => None
  | S f =>
      match skip_space s with
      | 34 :: r =>
          let '(k, r1) := scan_string r [] in
          match skip_space r1 with
          | 58 :: r2 =>
              match parse_value f r2 with
              | Some (v, r3) =>
                  match skip_space r3 with
                  | 44 :: r4 =>
                      match parse_members f r4 with
                      | Some (ms, r5) => Some ((k, v) :: ms, r5)
                      | None => None
                      end
                  | 125 :: r4 => Some ([(k, v)], r4)
                  | _ => None
                  end
              | None => None
              end
          | _ => None
          end
      | _ => None
      end
  end.

Definition parse (data : list Z) : option JSON :=
  match parse_value (S (List.length data)) data with
  | Some (v, _) => Some v
  | None => None
  end.

(* ------------------------------------------------------------------ *)
(** ** Unquoting a string literal *)

Definition hexval (c : Z) : Z :=
  if isDigit c then c - 48
  else if (97 <=? c) && (c <=? 102) then c - 87
  else if (65 <=? c) && (c <=? 70) then c - 55
  else -1.

(** Four hexadecimal digits; -1 when there are none. *)
Definition hex4 (s : list Z) : Z :=
  match s with
  | a :: b :: c :: d :: _ =>
      if isHex a && isHex b && isHex c && isHex d then
        hexval a * 4096 + hexval b * 256 + hexval c * 16 + hexval d
      else -1
  | _ => -1
  end.

(** [getu4]: the rune of an escape [\uXXXX] at the head of [s]. *)
Definition getu4 (s : list Z) : Z :=
  match s with
  | 92 :: 117 :: r => hex4 r
  | _ => -1
  end.

Definition IsSurrogate (r : Z) : bool := (0xD800 <=? r) && (r <? 0xE000).

(** [utf16.DecodeRune]. *)
Definition utf16_DecodeRune (r1 r2 : Z) : Z :=
  if (0xD800 <=? r1) && (r1 <? 0xDC00) && (0xDC00 <=? r2) && (r2 <? 0xE000)
  then Z.lor (Z.shiftl (r1 - 0xD800) 10) (r2 - 0xDC00) + 0x10000
  else utf8.RuneError.

Definition unescape (c : Z) : Z :=
  if c =? 98 then 8
  else if c =? 102 then 12
  else if c =? 110 then 10
  else if c =? 114 then 13
  else if c =? 116 then 9
  else c.

(** [unquoteBytes] on the inside of a literal the scanner accepted:
    escapes are replaced and the bytes are coerced to well-formed UTF-8. *)
Fixpoint unquote_fuel (fuel : nat) (s : list Z) : list Z :=
  match fuel with
  | O => []
  | S f =>
      match s with
      | [] => []
      | 92 :: 117 :: r =>
          let rr := hex4 r in
          let rest := skipn 4 r in
          if IsSurrogate rr then
            let dec := utf16_DecodeRune rr (getu4 rest) in
            if dec =? utf8.RuneError
            then (utf8.EncodeRune utf8.RuneError ++ unquote_fuel f rest)%list
            else (utf8.EncodeRune dec ++ unquote_fuel f (skipn 6 rest))%list
          else (utf8.EncodeRune rr ++ unquote_fuel f rest)%list
      | 92 :: c :: r => unescape c :: unquote_fuel f r
      | c :: r =>
          if c <? 0x80 then c :: unquote_fuel f r
          else
            let '(rr, size) := utf8.DecodeRune s in
            (utf8.EncodeRune rr ++ unquote_fuel f (skipn size s))%list
      end
  end.

Definition unquote (raw : list Z) : string :=
  Bytes.to_string (unquote_fuel (List.length raw) raw).

(* ------------------------------------------------------------------ *)
(** ** Struct fields *)

(** [parseTag]: the name before the first comma, and the options after. *)
Fixpoint parseTag (tag : string) : string * string :=
  match tag with
  | EmptyString => ("", "")
  | String c r =>
      if Bytes.code c =? 44 then ("", r)
      else let '(n, o) := parseTag r in (String c n, o)
  end.

(** [tagOptions.Contains]. *)
Fixpoint options_contain (fuel : nat) (opts optionName : string) : bool :=
  match fuel with
  | O => false
  | S f =>
      match opts with
      | EmptyString => false
      | _ =>
          let '(o, rest) := parseTag opts in
          String.eqb o optionName || options_contain f rest optionName
      end
  end.

Definition tag_byte_ok (c : Z) : bool :=
  isDigit c || ((97 <=? c) && (c <=? 122)) || ((65 <=? c) && (c <=? 90))
  || Bytes.contains "!#$%&()*+-./:;<=>?@[]^_{|}~ " (String (Bytes.chr c) "").

(** [isValidTag], for names written in ASCII. *)
Fixpoint isValidTag_bytes (s : string) : bool :=
  match s with
  | EmptyString => true
  | String c r => tag_byte_ok (Bytes.code c) && isValidTag_bytes r
  end.

Definition isValidTag (s : string) : bool :=
  negb (String.eqb s "") && isValidTag_bytes s.

(** The name of a field in JSON: the name in its tag when there is a
    valid one, its Go name otherwise. *)
Definition jsonName (fi : FieldInfo) : string :=
  let name := fst (parseTag (ftag fi)) in
  if isValidTag name then name else fname fi.

Definition omitEmpty (fi : FieldInfo) : bool :=
  let opts := snd (parseTag (ftag fi)) in
  options_contain (S (String.length opts)) opts "omitempty".

(** The fields package json sees: exported, and not tagged ["-"]. *)
Definition visible (fi : FieldInfo) : bool :=
  exported fi && negb (String.eqb (ftag fi) "-").

(** [foldName]: ASCII letters in upper case; the two letters outside
    ASCII that fold to an ASCII one (U+017F to S, U+212A to K) as that
    one. *)
Fixpoint fold_bytes (s : list Z) : list Z :=
  match s with
  | [] => []
  | 0xC5 :: 0xBF :: r => 83 :: fold_bytes r
  | 0xE2 :: 0x84 :: 0xAA :: r => 75 :: fold_bytes r
  | c :: r => (if (97 <=? c) && (c <=? 122) then c - 32 else c) :: fold_bytes r
  end.

Definition foldName (s : string) : string :=
  Bytes.to_string (fold_bytes (Bytes.of_string s)).

Fixpoint index_where {A : Type} (p : A -> bool) (l : list A) : option nat :=
  match l with
  | [] => None
  | x :: r => if p x then Some O
              else match index_where p r with
                   | Some i => Some (S i)
                   | None => None
                   end
  end.

(** The field an object key stands for: the one with exactly that name,
    or else the first one with that name up to case. *)
Definition find_field {V : Type} (key : string) (fs : list (FieldInfo * V))
  : option nat :=
  match index_where
          (fun f => visible (fst f) && String.eqb (jsonName (fst f)) key) fs
  with
  | Some i => Some i
  | None =>
      index_where
        (fun f => visible (fst f)
                  && String.eqb (foldName (jsonName (fst f))) (foldName key))
        fs
  end.

Fixpoint update {A : Type} (l : list A) (i : nat) (x : A) : list A :=
  match l, i with
  | [], _ => []
  | _ :: r, O => x :: r
  | y :: r, S i' => y :: update r i' x
  end.

(* ------------------------------------------------------------------ *)
(** ** Decoding into a Go value *)

Section Decode.

(** [strconv.ParseFloat(s, 32)] as a bit pattern; [None] for its error. *)
Variable ParseFloat32 : string -> option Z.

(** The struct being filled and the path of field names to the value
    being read, for error messages. *)
Definition errorContext : Type := (string * list string)%type.

Fixpoint join (sep : string) (l : list string) : string :=
  match l with
  | [] => ""
  | [x] => x
  | x :: r => x ++ sep ++ join sep r
  end.

Definition typeError (ctx : errorContext) (value : string) (t : GoType)
  : error :=
  UnmarshalTypeError value (typeString t) (fst ctx) (join "." (snd ctx)).

(** [d.saveError]: the first error is the one kept. *)
Definition saveError (saved new : option error) : option error :=
  match saved with
  | Some _ => saved
  | None => new
  end.

Definition fits (bits z : Z) : bool :=
  (- 2 ^ (bits - 1) <=? z) && (z <? 2 ^ (bits - 1)).

(** [d.value(v)]: the value [j] stored into [v].  A value of the wrong
    kind leaves its target as it is and is recorded as an error; decoding
    goes on.  An array is decoded into the elements a slice already has,
    and into zero values beyond them (the capacity of the slice is not
    modelled). *)
Fixpoint decode (ctx : errorContext) (j : JSON) (v : GoVal) {struct j}
  : GoVal * option error :=
  match j with
  | JNull =>
      (match v with VSlice e _ => VSlice e None | _ => v end, None)
  | JTrue =>
      match v with
      | VBool _ => (VBool true, None)
      | _ => (v, Some (typeError ctx "bool" (typeOf v)))
      end
  | JFalse =>
      match v with
      | VBool _ => (VBool false, None)
      | _ => (v, Some (typeError ctx "bool" (typeOf v)))
      end
  | JString raw =>
      match v with
      | VString _ => (VString (unquote raw), None)
      | _ => (v, Some (typeError ctx "string" (typeOf v)))
      end
  | JNumber lit =>
      match v with
      | VInt n b _ =>
          match strconv.ParseInt lit with
          | Some z =>
              if fits b z then (VInt n b z, None)
              else (v, Some (typeError ctx ("number " ++ lit) (typeOf v)))
          | None => (v, Some (typeError ctx ("number " ++ lit) (typeOf v)))
          end
      | VFloat32 _ =>
          match ParseFloat32 lit with
          | Some f => (VFloat32 f, None)
          | None => (v, Some (typeError ctx ("number " ++ lit) (typeOf v)))
          end
      | _ => (v, Some (typeError ctx "number" (typeOf v)))
      end
  | JArray js =>
      match v with
      | VSlice e old =>
          let '(vs, er) :=
            (fix elems (js : list JSON) (olds : list GoVal) {struct js}
               : list GoVal * option error :=
               match js with
               | [] => ([], None)
               | j1 :: js' =>
                   let start := match olds with
                                | o :: _ => o
                                | [] => zero e
                                end in
                   let '(v1, e1) := decode ctx j1 start in
                   let '(vs, e2) := elems js' (tl olds) in
                   (v1 :: vs, saveError e1 e2)
               end) js (match old with Some l => l | None => [] end) in
          (VSlice e (Some vs), er)
      | _ => (v, Some (typeError ctx "array" (typeOf v)))
      end
  | JObject ms =>
      match v with
      | VStruct n fs =>
          let '(fs', er) :=
            (fix members (ms : list (list Z * JSON))
                 (fs : list (FieldInfo * GoVal)) {struct ms}
               : list (FieldInfo * GoVal) * option error :=
               match ms with
               | [] => (fs, None)
               | (k, jv) :: ms' =>
                   match find_field (unquote k) fs with
                   | Some i =>
                       match nth_error fs i with
                       | Some (fi, fv) =>
                           let '(fv', e1) :=
                             decode (n, (snd ctx ++ [jsonName fi])%list)
                               jv fv in
                           let '(fs'', e2) :=
                             members ms' (update fs i (fi, fv')) in
                           (fs'', saveError e1 e2)
                       | None => members ms' fs
                       end
                   | None => members ms' fs
                   end
               end) ms fs in
          (VStruct n fs', er)
      | _ => (v, Some (typeError ctx "object" (typeOf v)))
      end
  end.

Definition errPhase : error :=
  errorString "JSON decoder out of sync - data changing underfoot?".

(** [json.Unmarshal(data, &v)] for [v] holding a pointer to a struct:
    the struct after the call, and the error.  The text is checked as a
    whole before anything is stored. *)
Definition Unmarshal (data : string) (v : GoVal) : GoVal * option error :=
  let bs := Bytes.of_string data in
  match checkValid bs with
  | Some e => (v, Some e)
  | None =>
      match parse bs with
      | Some j => decode ("", []) j v
      | None => (v, Some errPhase)
      end
  end.

End Decode.

(* ------------------------------------------------------------------ *)
(** ** Encoding a Go value *)

Section Encode.

(** The JSON text of a [float32]; [None] for a NaN or an infinity. *)
Variable encodeFloat32 : Z -> option string.
(** [strconv.FormatFloat(f, 'g', -1, 32)]. *)
Variable FormatFloat32 : Z -> string.

Definition htmlSafe (b : Z) : bool :=
  (0x20 <=? b) && negb ((b =? 34) || (b =? 92) || (b =? 60) || (b =? 62)
                        || (b =? 38)).

(** The body of [encodeState.string] with HTML escaping on. *)
Fixpoint encode_bytes (fuel : nat) (s : list Z) : string :=
  match fuel with
  | O => ""
  | S f =>
      match s with
      | [] => ""
      | b :: r =>
          if b <? 0x80 then
            (if htmlSafe b then String (Bytes.chr b) ""
             else if (b =? 92) || (b =? 34) then
               backslash ++ String (Bytes.chr b) ""
             else if b =? 10 then backslash ++ "n"
             else if b =? 13 then backslash ++ "r"
             else if b =? 9 then backslash ++ "t"
             else backslash ++ "u00" ++ hex2 b)
            ++ encode_bytes f r
          else
            let '(c, size) := utf8.DecodeRune s in
            if (c =? utf8.RuneError) && (size =? 1)%nat then
              backslash ++ "ufffd" ++ encode_bytes f r
            else if (c =? 0x2028) || (c =? 0x2029) then
              backslash ++ "u202"
                ++ String (strconv.hexdigit (Z.land c 15)) ""
                ++ encode_bytes f (skipn size s)
            else
              Bytes.to_string (firstn size s) ++ encode_bytes f (skipn size s)
      end
  end.

Definition encode_string (s : string) : string :=
  dquote ++ encode_bytes (S (String.length s)) (Bytes.of_string s) ++ dquote.

(** [isEmptyValue]. *)
Definition isEmptyValue (v : GoVal) : bool :=
  match v with
  | VBool b => negb b
  | VInt _ _ z => z =? 0
  | VFloat32 f => (f =? 0) || (f =? 2 ^ 31)
  | VString s => String.eqb s ""
  | VSlice _ None => true
  | VSlice _ (Some l) => match l with [] => true | _ => false end
  | VStruct _ _ => false
  end.

Definition UnsupportedValueError (f : Z) : error :=
  errorString ("json: unsupported value: " ++ FormatFloat32 f).

(** The encoder: the text of a value, or the first error. *)
Fixpoint encode (v : GoVal) : result string :=
  match v with
  | VBool true => inl "true"
  | VBool false => inl "false"
  | VInt _ _ z => inl (strconv.FormatInt z)
  | VFloat32 f =>
      match encodeFloat32 f with
      | Some s => inl s
      | None => inr (UnsupportedValueError f)
      end
  | VString s => inl (encode_string s)
  | VSlice _ None => inl "null"
  | VSlice _ (Some l) =>
      match
        (fix elems (l : list GoVal) (first : bool) : result string :=
           match l with
           | [] => inl ""
           | x :: r =>
               match encode x with
               | inr e => inr e
               | inl sx =>
                   match elems r false with
                   | inr e => inr e
                   | inl sr => inl ((if first then "" else ",") ++ sx ++ sr)
                   end
               end
           end) l true
      with
      | inl s => inl ("[" ++ s ++ "]")
      | inr e => inr e
      end
  | VStruct _ fs =>
      match
        (fix members (fs : list (FieldInfo * GoVal)) (first : bool)
           : result string :=
           match fs with
           | [] => inl ""
           | (fi, x) :: r =>
               if negb (visible fi) || (omitEmpty fi && isEmptyValue x)
               then members r first
               else
                 match encode x with
                 | inr e => inr e
                 | inl sx =>
                     match members r false with
                     | inr e => inr e
                     | inl sr =>
                         inl ((if first then "" else ",")
                              ++ encode_string (jsonName fi) ++ ":"
                              ++ sx ++ sr)
                     end
                 end
           end) fs true
      with
      | inl s => inl ("{" ++ s ++ "}")
      | inr e => inr e
      end
  end.

(** [json.Marshal(v)]. *)
Definition Marshal (v : GoVal) : result string := encode v.

End Encode.

End json.

(* ================================================================== *)
(** * fmt *)
(* ================================================================== *)

Module fmt.

(** An operand of [Sprintf]. *)
Inductive Arg : Type :=
| AInt (ty : string) (z : Z)   (** an integer, with the name of its type *)
| AString (s : string)
| AError (e : error)
| APointer (v : GoVal)         (** a non-nil pointer to a struct *).

Section Printing.

(** [strconv.FormatFloat(f, 'g', -1, 32)]. *)
Variable FormatFloat32 : Z -> string.

Definition verb_is (verb : ascii) (c : string) : bool :=
  String.eqb (String verb "") c.

(** [p.badVerb(verb)]. *)
Definition badVerb (verb : ascii) (ty value : string) : string :=
  "%!" ++ String verb "" ++ "(" ++ ty ++ "=" ++ value ++ ")".

Definition fmtBool (b : bool) : string := if b then "true" else "false".

Fixpoint join_space (l : list string) : string :=
  match l with
  | [] => ""
  | [x] => x
  | x :: r => x ++ " " ++ join_space r
  end.

(** [p.printValue(v, verb, depth)] for the verbs [d], [s] and [v] without
    flags: a struct is written as its fields between braces and a slice
    as its elements between brackets, each with the same verb; a verb
    that does not fit the kind of a value is reported in place. *)
Fixpoint printValue (verb : ascii) (v : GoVal) : string :=
  match v with
  | VBool b =>
      if verb_is verb "v" then fmtBool b
      else badVerb verb "bool" (fmtBool b)
  | VInt n _ z =>
      if verb_is verb "v" || verb_is verb "d" then strconv.FormatInt z
      else badVerb verb n (strconv.FormatInt z)
  | VFloat32 f =>
      if verb_is verb "v" then FormatFloat32 f
      else badVerb verb "float32" (FormatFloat32 f)
  | VString s =>
      if verb_is verb "v" || verb_is verb "s" then s
      else badVerb verb "string" s
  | VSlice _ None => "[]"
  | VSlice _ (Some l) => "[" ++ join_space (map (printValue verb) l) ++ "]"
  | VStruct _ fs =>
      "{" ++ join_space (map (fun f => printValue verb (snd f)) fs) ++ "}"
  end.

Definition errorTypeName (e : error) : string :=
  match e with
  | errorString _ => "*errors.errorString"
  | SyntaxError _ _ => "*json.SyntaxError"
  | UnmarshalTypeError _ _ _ _ => "*json.UnmarshalTypeError"
  | PathError _ _ _ => "*fs.PathError"
  | TransportError _ => "*url.Error"
  end.

Definition argType (a : Arg) : string :=
  match a with
  | AInt ty _ => ty
  | AString _ => "string"
  | AError e => errorTypeName e
  | APointer v => "*" ++ typeString (typeOf v)
  end.

(** [p.printArg(arg, verb)].  An error is written as its message (the
    verbs [s] and [v] call [Error()]); a pointer to a struct as [&] and
    the struct. *)
Definition printArg (verb : ascii) (a : Arg) : string :=
  match a with
  | AInt ty z =>
      if verb_is verb "v" || verb_is verb "d" then strconv.FormatInt z
      else badVerb verb ty (strconv.FormatInt z)
  | AString s =>
      if verb_is verb "v" || verb_is verb "s" then s
      else badVerb verb "string" s
  | AError e =>
      if verb_is verb "v" || verb_is verb "s" then Error e
      else badVerb verb (errorTypeName e) (Error e)
  | APointer v => "&" ++ printValue verb v
  end.

Fixpoint extra_args (l : list Arg) : string :=
  match l with
  | [] => ""
  | [a] => argType a ++ "=" ++ printArg "v" a
  | a :: r => argType a ++ "=" ++ printArg "v" a ++ ", " ++ extra_args r
  end.

Definition extra (l : list Arg) : string :=
  match l with
  | [] => ""
  | _ => "%!(EXTRA " ++ extra_args l ++ ")"
  end.

(** [fmt.Sprintf(format, a...)] for formats whose verbs carry no flag,
    width or precision.  The verbs modelled are [d], [s] and [v]; any
    other is written as Go writes an unknown one. *)
Fixpoint Sprintf (format : string) (a : list Arg) : string :=
  match format with
  | EmptyString => extra a
  | String "%" EmptyString => "%!(NOVERB)" ++ extra a
  | String "%" (String c rest) =>
      if verb_is c "%" then "%" ++ Sprintf rest a
      else
        match a with
        | [] => "%!" ++ String c "" ++ "(MISSING)" ++ Sprintf rest []
        | x :: a' => printArg c x ++ Sprintf rest a'
        end
  | String c rest => String c (Sprintf rest a)
  end.

(** [fmt.Errorf(format, a...)]: an error that is its message. *)
Definition Errorf (format : string) (a : list Arg) : error :=
  errorString (Sprintf format a).

End Printing.

End fmt.

(* ================================================================== *)
(** * The world outside the program *)
(* ================================================================== *)

(** An HTTP request as [http.NewRequest] and [Header.Add] build it. *)
Record HttpRequest : Type := {
  Method : string;
  URL : string;
  Header : list (string * string);
  Body : string
}.

(** [http.Client]: only its timeout, in seconds, is set. *)
Record HttpClient : Type := { Timeout : Z }.

(** What the program asks of its environment.  Each field is a function
    the model is run with; none is assumed anything of. *)
Record Runtime : Type := {
  (** the value of [time.Now().Unix()] at the n-th reading of the clock *)
  clock : nat -> Z;
  (** the k-th value of [Int63()] of the source [rand.Seed(seed)] leaves *)
  source_Int63 : Z -> nat -> Z;
  (** the error of [http.NewRequest] on a method and an address *)
  NewRequest_error : string -> string -> option error;
  (** [client.Do]: after the requests sent so far, the response to a
      request (what reading its body gives) or the error *)
  client_Do : HttpClient -> list HttpRequest -> HttpRequest
              -> result (result string);
  (** [ioutil.ReadFile] *)
  ReadFile : string -> result string;
  (** [strconv.ParseFloat(s, 32)], [strconv.FormatFloat(f, 'g', -1, 32)]
      and the JSON text of a [float32], all on bit patterns *)
  ParseFloat32 : string -> option Z;
  FormatFloat32 : Z -> string;
  encodeFloat32 : Z -> option string
}.

(* ================================================================== *)
(** * Package youtu *)
(* ================================================================== *)

(** UserIDMaxLen: the greatest length of a user id *)
Definition UserIDMaxLen : Z := 110.

(** ErrUserIDTooLong *)
Definition ErrUserIDTooLong : error := errorString "user id too long".

(** DefaultHost *)
Definition DefaultHost : string := "api.youtu.qq.com".

(** AppSign: the credential.  [appID] and [expired] are [uint32]. *)
Record AppSign : Type := {
  appID : Z;
  secretID : string;
  secretKey : string;
  expired : Z;
  userID : string
}.

(** The zero value [AppSign{}]. *)
Definition AppSign_zero : AppSign :=
  {| appID := 0; secretID := ""; secretKey := ""; expired := 0;
     userID := "" |}.

(** NewAppSign *)
Definition NewAppSign (appID : Z) (secretID secretKey : string)
    (expired : Z) (userID : string) : AppSign * option error :=
  if Bytes.len userID >? UserIDMaxLen then
    (AppSign_zero, Some ErrUserIDTooLong)
  else
    ({| appID := appID; secretID := secretID; secretKey := secretKey;
        expired := expired; userID := userID |}, None).

(** Youtu: the credential and the host *)
Record Youtu : Type := {
  appSign : AppSign;
  host : string
}.

(** Init *)
Definition Init (appSign : AppSign) (host : string) : Youtu :=
  {| appSign := appSign; host := host |}.

(* ------------------------------------------------------------------ *)
(** ** The state of a run, and the monad of its methods *)

(** What a method can read and write: the [Youtu] its receiver points
    to, the random source shared by package [math/rand] (its seed and
    the number of values drawn since), the number of times the clock was
    read, and the requests sent. *)
Record State : Type := {
  client : Youtu;
  globalRand : Z * nat;
  clock_reads : nat;
  sent : list HttpRequest
}.

(** The state in which a program holding [y] starts. *)
Definition start (y : Youtu) : State :=
  {| client := y; globalRand := (1, O); clock_reads := O; sent := [] |}.

Definition M (A : Type) : Type := State -> A * State.

Definition ret {A : Type} (a : A) : M A := fun st => (a, st).

Definition bind {A B : Type} (m : M A) (k : A -> M B) : M B :=
  fun st => let '(a, st') := m st in k a st'.

Declare Scope go_scope.
Delimit Scope go_scope with go.
Notation "x <- m ;; k" := (bind m (fun x => k))
  (at level 61, m at next level, right associativity) : go_scope.
Open Scope go_scope.

Definition newline : string := String (Bytes.chr 10) "".

(* ------------------------------------------------------------------ *)
(** ** Requests and responses *)

Definition fld (name tag : string) (t : GoType) : FieldInfo * GoType :=
  ({| fname := name; ftag := tag |}, t).

Definition int : GoType := TInt "int" 64.
Definition int32 : GoType := TInt "int32" 32.

(** DetectMode: normal or big face *)
Definition DetectMode : GoType := TInt "youtu.DetectMode" 64.
Definition DetectModeNormal : Z := 0.
Definition DetectModeBigFace : Z := 1.

Definition detectFaceReq : GoType := TStruct "detectFaceReq"
  [fld "AppID" "app_id" TString;
   fld "Image" "image" TString;
   fld "Mode" "mode,omitempty" DetectMode].

Definition Face : GoType := TStruct "Face"
  [fld "FaceID" "face_id" TString;
   fld "X" "x" int32;
   fld "Y" "y" int32;
   fld "Width" "width" TFloat32;
   fld "Height" "height" TFloat32;
   fld "Gender" "gender" int32;
   fld "Age" "age" int32;
   fld "Expression" "expression" int32;
   fld "Glass" "glass" TBool;
   fld "Pitch" "pitch" int32;
   fld "Yaw" "yaw" int32;
   fld "Roll" "roll" int32].

Definition DetectFaceRsp : GoType := TStruct "DetectFaceRsp"
  [fld "SessionID" "session_id" TString;
   fld "ImageID" "image_id" TString;
   fld "ImageWidth" "image_width" int32;
   fld "ImageHeight" "image_height" int32;
   fld "Face" "face" (TSlice Face);
   fld "ErrorCode" "errorcode" int;
   fld "ErrorMsg" "errormsg" TString].

Definition faceCompareReq : GoType := TStruct "faceCompareReq"
  [fld "AppID" "app_id" TString;
   fld "ImageA" "imageA" TString;
   fld "ImageB" "imageB" TString].

Definition FaceCompareRsp : GoType := TStruct "FaceCompareRsp"
  [fld "EyebrowSim" "eyebrow_sim" TFloat32;
   fld "EyeSim" "eye_sim" TFloat32;
   fld "NoseSim" "nose_sim" TFloat32;
   fld "MouthSim" "mouth_sim" TFloat32;
   fld "Similarity" "similarity" TFloat32;
   fld "ErrorCode" "errorcode" int32;
   fld "ErrorMsg" "errormsg" TString].

Definition faceVerifyReq : GoType := TStruct "faceVerifyReq"
  [fld "AppID" "app_id" TString;
   fld "Image" "image" TString;
   fld "PersonID" "person_id" TString].

Definition FaceVerifyRsp : GoType := TStruct "FaceVerifyRsp"
  [fld "Ismatch" "ismatch" TBool;
   fld "Confidence" "confidence" TFloat32;
   fld "SessionID" "session_id" TString;
   fld "ErrorCode" "errorcode" int32;
   fld "ErrorMsg" "errormsg" TString].

Definition faceIdentifyReq : GoType := TStruct "faceIdentifyReq"
  [fld "AppID" "app_id" TString;
   fld "GroupID" "group_id" TString;
   fld "Image" "image" TString].

Definition FaceIdentifyRsp : GoType := TStruct "FaceIdentifyRsp"
  [fld "SessionID" "session_id" TString;
   fld "PersonID" "person_id" TString;
   fld "FaceID" "face_id" TString;
   fld "Confidence" "confidence" TFloat32;
   fld "ErrorCode" "errorcode" int;
   fld "ErrorMsg" "errormsg" TString].

Definition newPersonReq : GoType := TStruct "newPersonReq"
  [fld "AppID" "app_id" TString;
   fld "Image" "image" TString;
   fld "PersonID" "person_id" TString;
   fld "GroupIDs" "group_ids" (TSlice TString);
   fld "PersonName" "person_name,omitempty" TString;
   fld "Tag" "tag,omitempty" TString].

Definition NewPersonRsp : GoType := TStruct "NewPersonRsp"
  [fld "SessionID" "session_id" TString;
   fld "SucGroup" "suc_group" int;
   fld "SucFace" "suc_face" int;
   fld "PersonName" "person_name" TString;
   fld "PersonID" "person_id" TString;
   fld "FaceID" "face_id" TString;
   fld "ErrorCode" "errorcode" int;
   fld "ErrorMsg" "errormsg" TString].

Definition delPersonReq : GoType := TStruct "delPersonReq"
  [fld "AppID" "app_id" TString;
   fld "PersonID" "person_id" TString].

Definition DelPersonRsp : GoType := TStruct "DelPersonRsp"
  [fld "SessionID" "session_id" TString;
   fld "Deleted" "deleted" int;
   fld "ErrorCode" "errorcode" int;
   fld "ErrorMsg" "errormsg" TString].

Definition addFaceReq : GoType := TStruct "addFaceReq"
  [fld "AppID" "app_id" TString;
   fld "PersonID" "person_id" TString;
   fld "Images" "images" (TSlice TString);
   fld "Tag" "tag,omitempty" TString].

Definition AddFaceRsp : GoType := TStruct "AddFaceRsp"
  [fld "SessionID" "session_id" TString;
   fld "Added" "added" int;
   fld "FaceIDs" "face_ids" (TSlice TString);
   fld "ErrorCode" "errorcode" int;
   fld "ErrorMsg" "errormsg" TString].

Definition delFaceReq : GoType := TStruct "delFaceReq"
  [fld "AppID" "app_id" TString;
   fld "PersonID" "person_id" TString;
   fld "FaceIDs" "face_ids" (TSlice TString)].

Definition DelFaceRsp : GoType := TStruct "DelFaceRsp"
  [fld "SessonID" "session_id" TString;
   fld "Deleted" "deleted" int32;
   fld "ErrorCode" "errorcode" int32;
   fld "ErrorMsg" "errormsg" TString].

Definition setInfoReq : GoType := TStruct "setInfoReq"
  [fld "AppID" "app_id" TString;
   fld "PersonID" "person_id" TString;
   fld "PersonName" "person_name,omitempty" TString;
   fld "Tag" "tag,omitempty" TString].

Definition SetInfoRsp : GoType := TStruct "SetInfoRsp"
  [fld "sessionID" "session_id" TString;
   fld "personID" "person_id" TString;
   fld "errorcode" "errorcode" int32;
   fld "errormsg" "errormsg" TString].

Definition getInfoReq : GoType := TStruct "getInfoReq"
  [fld "AppID" "app_id" TString;
   fld "PersonID" "person_id" TString].

Definition GetInfoRsp : GoType := TStruct "GetInfoRsp"
  [fld "PersonName" "person_name" TString;
   fld "PersonID" "person_id" TString;
   fld "GroupIDs" "group_ids" (TSlice TString);
   fld "FaceIDs" "face_ids" (TSlice TString);
   fld "SessionID" "" TString;
   fld "ErrorCode" "errorcode" int;
   fld "ErrorMsg" "errormsg" TString].

Definition getGroupIDsReq : GoType := TStruct "getGroupIDsReq"
  [fld "AppID" "app_id" TString].

Definition GetGroupIDsRsp : GoType := TStruct "GetGroupIDsRsp"
  [fld "GroupIDs" "group_ids" (TSlice TString);
   fld "ErrorCode" "errorcode" int32;
   fld "ErrorMsg" "errormsg" TString].

Definition getPersonIDsReq : GoType := TStruct "getPersonIDsReq"
  [fld "AppID" "app_id" TString;
   fld "GroupID" "group_id" TString].

Definition GetPersonIDsRsp : GoType := TStruct "GetPersonIDsRsp"
  [fld "PersonIDs" "person_ids" (TSlice TString);
   fld "ErrorCode" "errorcode" int32;
   fld "ErrorMsg" "errormsg" TString].

Definition getFaceIDsReq : GoType := TStruct "getFaceIDsReq"
  [fld "AppID" "app_id" TString;
   fld "PersonID" "person_id" TString].

Definition GetFaceIDsRsp : GoType := TStruct "GetFaceIDsRsp"
  [fld "FaceIDs" "face_ids" (TSlice TString);
   fld "ErrorCode" "errorcode" int32;
   fld "ErrorMsg" "errormsg" TString].

Definition getFaceInfoReq : GoType := TStruct "getFaceInfoReq"
  [fld "AppID" "app_id" TString;
   fld "FaceID" "face_id" TString].

Definition GetFaceInfoRsp : GoType := TStruct "GetFaceInfoRsp"
  [fld "FaceInfo" "face_info" Face;
   fld "ErrorCode" "errorcode" int32;
   fld "ErrorMsg" "errormsg" TString].

(** A [[]string]: nil, or its elements. *)
Definition strings (l : option (list string)) : GoVal :=
  VSlice TString (option_map (map VString) l).

Section Methods.

Variable rt : Runtime.

(* ------------------------------------------------------------------ *)
(** ** What a method can do to the state *)

(** Reading through the receiver [y]. *)
Definition getY : M Youtu := fun st => (client st, st).

(** [time.Now().Unix()] *)
Definition time_Now_Unix : M Z := fun st =>
  (to_int64 (clock rt (clock_reads st)),
   {| client := client st; globalRand := globalRand st;
      clock_reads := S (clock_reads st); sent := sent st |}).

(** [rand.Seed(seed)] *)
Definition rand_Seed (seed : Z) : M unit := fun st =>
  (tt, {| client := client st; globalRand := (seed, O);
          clock_reads := clock_reads st; sent := sent st |}).

(** [rand.Int63()]: a non-negative 63-bit number *)
Definition rand_Int63 : M Z := fun st =>
  let '(seed, k) := globalRand st in
  (source_Int63 rt seed k mod 2 ^ 63,
   {| client := client st; globalRand := (seed, S k);
      clock_reads := clock_reads st; sent := sent st |}).

(** [rand.Int31()] is [int32(rand.Int63() >> 32)]. *)
Definition rand_Int31 : M Z :=
  x <- rand_Int63 ;; ret (to_int32 (Z.shiftr x 32)).

(** [client.Do(req)] *)
Definition http_Do (c : HttpClient) (req : HttpRequest)
  : M (result (result string)) := fun st =>
  (client_Do rt c (sent st) req,
   {| client := client st; globalRand := globalRand st;
      clock_reads := clock_reads st; sent := (sent st ++ [req])%list |}).

(** [ioutil.ReadFile(file)] *)
Definition ioutil_ReadFile (file : string) : M (result string) :=
  ret (ReadFile rt file).

(** [h.Add(key, value)] *)
Definition Header_Add (r : HttpRequest) (key value : string) : HttpRequest :=
  {| Method := Method r; URL := URL r;
     Header := (Header r ++ [(key, value)])%list; Body := Body r |}.

(* ------------------------------------------------------------------ *)
(** ** The methods of [*Youtu] *)

(** [(y *Youtu) appID()] *)
Definition Youtu_appID : M string :=
  y <- getY ;;
  ret (strconv.Itoa (int_of_uint32 (appID (appSign y)))).

(** interfaceURL *)
Definition interfaceURL (ifname : string) : M string :=
  y <- getY ;;
  ret (fmt.Sprintf (FormatFloat32 rt) "http://%s/youtu/api/%s"
         [fmt.AString (host y); fmt.AString ifname]).

(** orignalSign *)
Definition orignalSign : M string :=
  y <- getY ;;
  let as_ := appSign y in
  now <- time_Now_Unix ;;
  _ <- rand_Seed now ;;
  rnd <- rand_Int31 ;;
  ret (fmt.Sprintf (FormatFloat32 rt) "a=%d&k=%s&e=%d&t=%d&r=%d&u=%s&f="
         [fmt.AInt "uint32" (appID as_);
          fmt.AString (secretID as_);
          fmt.AInt "uint32" (expired as_);
          fmt.AInt "int64" now;
          fmt.AInt "int32" rnd;
          fmt.AString (userID as_)]).

(** EncodeImage *)
Definition EncodeImage (file : string) : M (string * option error) :=
  r <- ioutil_ReadFile file ;;
  match r with
  | inr e => ret ("", Some e)
  | inl buf => ret (base64.EncodeToString buf, None)
  end.

(** sign *)
Definition sign : M string :=
  origSign <- orignalSign ;;
  y <- getY ;;
  let h := hmac.New sha1.New (Bytes.of_string (secretKey (appSign y))) in
  let h := Write h (Bytes.of_string origSign) in
  let hm := Sum h [] in
  (* attach orig_sign to hm *)
  let dstSign := Bytes.to_string hm ++ origSign in
  let b64 := base64.EncodeToString dstSign in
  ret b64.

(** get *)
Definition get (addr req : string) : M (result string) :=
  let client := {| Timeout := 5 |} in
  match NewRequest_error rt "POST" addr with
  | Some e => ret (inr e)
  | None =>
      let httpreq :=
        {| Method := "POST"; URL := addr; Header := []; Body := req |} in
      token <- sign ;;
      let httpreq := Header_Add httpreq "Authorization" token in
      let httpreq := Header_Add httpreq "Content-Type" "text/json" in
      let httpreq := Header_Add httpreq "User-Agent" "" in
      let httpreq := Header_Add httpreq "Accept" "*/*" in
      let httpreq := Header_Add httpreq "Expect" "100-continue" in
      resp <- http_Do client httpreq ;;
      match resp with
      | inr e => ret (inr e)
      | inl body => ret body
      end
  end.

Definition unmarshal_failed : string :=
  "json.Unmarshal() rsp: %s failed: %s" ++ newline.

(** interfaceRequest: [rsp] is the struct the caller's pointer leads to;
    the struct after the call is returned with the error. *)
Definition interfaceRequest (ifname : string) (req rsp : GoVal)
  : M (GoVal * option error) :=
  url <- interfaceURL ifname ;;
  match json.Marshal (encodeFloat32 rt) (FormatFloat32 rt) req with
  | inr e => ret (rsp, Some e)
  | inl data =>
      r <- get url data ;;
      match r with
      | inr e => ret (rsp, Some e)
      | inl body =>
          let '(rsp', er) := json.Unmarshal (ParseFloat32 rt) body rsp in
          match er with
          | Some e =>
              ret (rsp', Some (fmt.Errorf (FormatFloat32 rt) unmarshal_failed
                                 [fmt.APointer rsp'; fmt.AError e]))
          | None => ret (rsp', None)
          end
      end
  end.

(* ------------------------------------------------------------------ *)
(** ** The operations *)

(** DetectFace *)
Definition DetectFace (imageData : string) (mode : Z)
  : M (GoVal * option error) :=
  y <- getY ;;
  let req := literal detectFaceReq
    [("AppID", VString (strconv.Itoa (int_of_uint32 (appID (appSign y)))));
     ("Image", VString imageData);
     ("Mode", VInt "youtu.DetectMode" 64 mode)] in
  interfaceRequest "detectface" req (zero DetectFaceRsp).

(** FaceCompare *)
Definition FaceCompare (imageA imageB : string) : M (GoVal * option error) :=
  a <- Youtu_appID ;;
  let req := literal faceCompareReq
    [("AppID", VString a);
     ("ImageA", VString imageA);
     ("ImageB", VString imageB)] in
  interfaceRequest "facecompare" req (zero FaceCompareRsp).

(** FaceVerify *)
Definition FaceVerify (image personID : string) : M (GoVal * option error) :=
  a <- Youtu_appID ;;
  let req := literal faceVerifyReq
    [("AppID", VString a);
     ("Image", VString image);
     ("PersonID", VString personID)] in
  interfaceRequest "faceverify" req (zero FaceVerifyRsp).

(** FaceIdentify *)
Definition FaceIdentify (image groupID : string) : M (GoVal * option error) :=
  a <- Youtu_appID ;;
  let req := literal faceIdentifyReq
    [("AppID", VString a);
     ("GroupID", VString groupID);
     ("Image", VString image)] in
  interfaceRequest "faceidentify" req (zero FaceIdentifyRsp).

(** NewPerson *)
Definition NewPerson (image personID : string)
    (groupIDs : option (list string)) (personName tag : string)
  : M (GoVal * option error) :=
  a <- Youtu_appID ;;
  let req := literal newPersonReq
    [("AppID", VString a);
     ("PersonID", VString personID);
     ("Image", VString image);
     ("GroupIDs", strings groupIDs);
     ("PersonName", VString personName);
     ("Tag", VString tag)] in
  interfaceRequest "newperson" req (zero NewPersonRsp).

(** DelPerson *)
Definition DelPerson (personID : string) : M (GoVal * option error) :=
  a <- Youtu_appID ;;
  let req := literal delPersonReq
    [("AppID", VString a);
     ("PersonID", VString personID)] in
  interfaceRequest "delperson" req (zero DelPersonRsp).

(** AddFace *)
Definition AddFace (images : option (list string)) (personID tag : string)
  : M (GoVal * option error) :=
  a <- Youtu_appID ;;
  let req := literal addFaceReq
    [("AppID", VString a);
     ("Images", strings images);
     ("PersonID", VString personID);
     ("Tag", VString tag)] in
  interfaceRequest "addface" req (zero AddFaceRsp).

(** DelFace *)
Definition DelFace (personID : string) (faceIDs : option (list string))
  : M (GoVal * option error) :=
  a <- Youtu_appID ;;
  let req := literal delFaceReq
    [("AppID", VString a);
     ("PersonID", VString personID);
     ("FaceIDs", strings faceIDs)] in
  interfaceRequest "delface" req (zero DelFaceRsp).

(** SetInfo *)
Definition SetInfo (personID personName tag : string)
  : M (GoVal * option error) :=
  a <- Youtu_appID ;;
  let req := literal setInfoReq
    [("AppID", VString a);
     ("PersonID", VString personID);
     ("PersonName", VString personName);
     ("Tag", VString tag)] in
  interfaceRequest "setinfo" req (zero SetInfoRsp).

(** GetInfo *)
Definition GetInfo (personID : string) : M (GoVal * option error) :=
  a <- Youtu_appID ;;
  let req := literal getInfoReq
    [("AppID", VString a);
     ("PersonID", VString personID)] in
  interfaceRequest "getinfo" req (zero GetInfoRsp).

(** GetGroupIDs *)
Definition GetGroupIDs : M (GoVal * option error) :=
  a <- Youtu_appID ;;
  let req := literal getGroupIDsReq
    [("AppID", VString a)] in
  interfaceRequest "getgroupids" req (zero GetGroupIDsRsp).

(** GetPersonIDs *)
Definition GetPersonIDs (groupID : string) : M (GoVal * option error) :=
  a <- Youtu_appID ;;
  let req := literal getPersonIDsReq
    [("AppID", VString a);
     ("GroupID", VString groupID)] in
  interfaceRequest "getpersonids" req (zero GetPersonIDsRsp).

(** GetFaceIDs *)
Definition GetFaceIDs (personID : string) : M (GoVal * option error) :=
  a <- Youtu_appID ;;
  let req := literal getFaceIDsReq
    [("AppID", VString a);
     ("PersonID", VString personID)] in
  interfaceRequest "getfaceids" req (zero GetFaceIDsRsp).

(** GetFaceInfo *)
Definition GetFaceInfo (faceID : string) : M (GoVal * option error) :=
  a <- Youtu_appID ;;
  let req := literal getFaceInfoReq
    [("AppID", VString a);
     ("FaceID", VString faceID)] in
  interfaceRequest "getfaceinfo" req (zero GetFaceInfoRsp).

(* ------------------------------------------------------------------ *)
(** ** A call of an operation *)

(** The operations with their arguments, to state a property of all of
    them at once. *)
Inductive Call : Type :=
| CallDetectFace (imageData : string) (mode : Z)
| CallFaceCompare (imageA imageB : string)
| CallFaceVerify (image personID : string)
| CallFaceIdentify (image groupID : string)
| CallNewPerson (image personID : string) (groupIDs : option (list string))
    (personName tag : string)
| CallDelPerson (personID : string)
| CallAddFace (images : option (list string)) (personID tag : string)
| CallDelFace (personID : string) (faceIDs : option (list string))
| CallSetInfo (personID personName tag : string)
| CallGetInfo (personID : string)
| CallGetGroupIDs
| CallGetPersonIDs (groupID : string)
| CallGetFaceIDs (personID : string)
| CallGetFaceInfo (faceID : string).

Definition invoke (c : Call) : M (GoVal * option error) :=
  match c with
  | CallDetectFace i m => DetectFace i m
  | CallFaceCompare a b => FaceCompare a b
  | CallFaceVerify i p => FaceVerify i p
  | CallFaceIdentify i g => FaceIdentify i g
  | CallNewPerson i p g n t => NewPerson i p g n t
  | CallDelPerson p => DelPerson p
  | CallAddFace i p t => AddFace i p t
  | CallDelFace p f => DelFace p f
  | CallSetInfo p n t => SetInfo p n t
  | CallGetInfo p => GetInfo p
  | CallGetGroupIDs => GetGroupIDs
  | CallGetPersonIDs g => GetPersonIDs g
  | CallGetFaceIDs p => GetFaceIDs p
  | CallGetFaceInfo f => GetFaceInfo f
  end.

End Methods.

(* ================================================================== *)
(** * The words of the specification *)
(* ================================================================== *)

(** A number that is a byte. *)
Definition is_byte (b : Z) : Prop := 0 <= b < 256.

(** A number in decimal. *)
Definition decimal (n : Z) : string := strconv.FormatInt n.

(** The canonical string
    [a=<appID>&k=<secretID>&e=<expiry>&t=<t>&r=<r>&u=<userID>&f=]. *)
Definition canonical_string (appID : Z) (secretID : string) (expiry t r : Z)
    (userID : string) : string :=
  "a=" ++ decimal appID ++ "&k=" ++ secretID ++ "&e=" ++ decimal expiry
    ++ "&t=" ++ decimal t ++ "&r=" ++ decimal r ++ "&u=" ++ userID ++ "&f=".

(** The token of a canonical string under a secret key: the Base64 text
    of the HMAC-SHA1 digest followed by the canonical string. *)
Definition token_of (secretKey canonical : string) : string :=
  base64.EncodeToString
    (Bytes.to_string
       (hmac.HMAC_SHA1_spec (Bytes.of_string secretKey)
          (Bytes.of_string canonical))
     ++ canonical).

(** The address of an operation on a host. *)
Definition target_URL (host operationName : string) : string :=
  "http://" ++ host ++ "/youtu/api/" ++ operationName.

(** The time a signature takes from the clock and the nonce it draws. *)
Definition time_read (rt : Runtime) (st : State) : Z :=
  to_int64 (clock rt (clock_reads st)).

Definition nonce_drawn (rt : Runtime) (st : State) : Z :=
  to_int32 (Z.shiftr (source_Int63 rt (time_read rt st) O mod 2 ^ 63) 32).

(** The name each operation is sent under. *)
Definition operation_name (c : Call) : string :=
  match c with
  | CallDetectFace _ _ => "detectface"
  | CallFaceCompare _ _ => "facecompare"
  | CallFaceVerify _ _ => "faceverify"
  | CallFaceIdentify _ _ => "faceidentify"
  | CallNewPerson _ _ _ _ _ => "newperson"
  | CallDelPerson _ => "delperson"
  | CallAddFace _ _ _ => "addface"
  | CallDelFace _ _ => "delface"
  | CallSetInfo _ _ _ => "setinfo"
  | CallGetInfo _ => "getinfo"
  | CallGetGroupIDs => "getgroupids"
  | CallGetPersonIDs _ => "getpersonids"
  | CallGetFaceIDs _ => "getfaceids"
  | CallGetFaceInfo _ => "getfaceinfo"
  end.

(** The response each operation expects. *)
Definition response_type (c : Call) : GoType :=
  match c with
  | CallDetectFace _ _ => DetectFaceRsp
  | CallFaceCompare _ _ => FaceCompareRsp
  | CallFaceVerify _ _ => FaceVerifyRsp
  | CallFaceIdentify _ _ => FaceIdentifyRsp
  | CallNewPerson _ _ _ _ _ => NewPersonRsp
  | CallDelPerson _ => DelPersonRsp
  | CallAddFace _ _ _ => AddFaceRsp
  | CallDelFace _ _ => DelFaceRsp
  | CallSetInfo _ _ _ => SetInfoRsp
  | CallGetInfo _ => GetInfoRsp
  | CallGetGroupIDs => GetGroupIDsRsp
  | CallGetPersonIDs _ => GetPersonIDsRsp
  | CallGetFaceIDs _ => GetFaceIDsRsp
  | CallGetFaceInfo _ => GetFaceInfoRsp
  end.

Definition fv (name tag : string) (v : GoVal) : FieldInfo * GoVal :=
  ({| fname := name; ftag := tag |}, v).

(** The request of each operation, field by field as its struct declares
    them: the application identifier as [app_id], then the arguments of
    the caller. *)
Definition request_shape (app_id : string) (c : Call) : GoVal :=
  match c with
  | CallDetectFace imageData mode =>
      VStruct "detectFaceReq"
        [fv "AppID" "app_id" (VString app_id);
         fv "Image" "image" (VString imageData);
         fv "Mode" "mode,omitempty" (VInt "youtu.DetectMode" 64 mode)]
  | CallFaceCompare imageA imageB =>
      VStruct "faceCompareReq"
        [fv "AppID" "app_id" (VString app_id);
         fv "ImageA" "imageA" (VString imageA);
         fv "ImageB" "imageB" (VString imageB)]
  | CallFaceVerify image personID =>
      VStruct "faceVerifyReq"
        [fv "AppID" "app_id" (VString app_id);
         fv "Image" "image" (VString image);
         fv "PersonID" "person_id" (VString personID)]
  | CallFaceIdentify image groupID =>
      VStruct "faceIdentifyReq"
        [fv "AppID" "app_id" (VString app_id);
         fv "GroupID" "group_id" (VString groupID);
         fv "Image" "image" (VString image)]
  | CallNewPerson image personID groupIDs personName tag =>
      VStruct "newPersonReq"
        [fv "AppID" "app_id" (VString app_id);
         fv "Image" "image" (VString image);
         fv "PersonID" "person_id" (VString personID);
         fv "GroupIDs" "group_ids" (strings groupIDs);
         fv "PersonName" "person_name,omitempty" (VString personName);
         fv "Tag" "tag,omitempty" (VString tag)]
  | CallDelPerson personID =>
      VStruct "delPersonReq"
        [fv "AppID" "app_id" (VString app_id);
         fv "PersonID" "person_id" (VString personID)]
  | CallAddFace images personID tag =>
      VStruct "addFaceReq"
        [fv "AppID" "app_id" (VString app_id);
         fv "PersonID" "person_id" (VString personID);
         fv "Images" "images" (strings images);
         fv "Tag" "tag,omitempty" (VString tag)]
  | CallDelFace personID faceIDs =>
      VStruct "delFaceReq"
        [fv "AppID" "app_id" (VString app_id);
         fv "PersonID" "person_id" (VString personID);
         fv "FaceIDs" "face_ids" (strings faceIDs)]
  | CallSetInfo personID personName tag =>
      VStruct "setInfoReq"
        [fv "AppID" "app_id" (VString app_id);
         fv "PersonID" "person_id" (VString personID);
         fv "PersonName" "person_name,omitempty" (VString personName);
         fv "Tag" "tag,omitempty" (VString tag)]
  | CallGetInfo personID =>
      VStruct "getInfoReq"
        [fv "AppID" "app_id" (VString app_id);
         fv "PersonID" "person_id" (VString personID)]
  | CallGetGroupIDs =>
      VStruct "getGroupIDsReq"
        [fv "AppID" "app_id" (VString app_id)]
  | CallGetPersonIDs groupID =>
      VStruct "getPersonIDsReq"
        [fv "AppID" "app_id" (VString app_id);
         fv "GroupID" "group_id" (VString groupID)]
  | CallGetFaceIDs personID =>
      VStruct "getFaceIDsReq"
        [fv "AppID" "app_id" (VString app_id);
         fv "PersonID" "person_id" (VString personID)]
  | CallGetFaceInfo faceID =>
      VStruct "getFaceInfoReq"
        [fv "AppID" "app_id" (VString app_id);
         fv "FaceID" "face_id" (VString faceID)]
  end.

(** The request an operation hands to the dispatcher on the client [y]. *)
Definition request_of (y : Youtu) (c : Call) : GoVal :=
  request_shape (strconv.Itoa (int_of_uint32 (appID (appSign y)))) c.

(** The HTTP request the dispatcher sends in state [st] for a serialized
    request [data] of the operation [ifname]. *)
Definition http_request (rt : Runtime) (st : State) (ifname data : string)
  : HttpRequest :=
  {| Method := "POST";
     URL := target_URL (host (client st)) ifname;
     Header := [("Authorization", fst (sign rt st));
                ("Content-Type", "text/json");
                ("User-Agent", "");
                ("Accept", "*/*");
                ("Expect", "100-continue")];
     Body := data |}.

(** What the transport gives back for that request: the body of the
    response, or the error of sending or reading. *)
Definition reply (rt : Runtime) (st : State) (ifname data : string)
  : result string :=
  match NewRequest_error rt "POST" (target_URL (host (client st)) ifname) with
  | Some e => inr e
  | None =>
      match client_Do rt {| Timeout := 5 |} (sent st)
              (http_request rt st ifname data) with
      | inr e => inr e
      | inl body => body
      end
  end.

(** The state the dispatcher leaves: when the request could be built, the
    clock was read, the random source reseeded and drawn from once, and
    the request added to those sent. *)
Definition after_request (rt : Runtime) (st : State) (ifname data : string)
  : State :=
  match NewRequest_error rt "POST" (target_URL (host (client st)) ifname) with
  | Some _ => st
  | None =>
      {| client := client st;
         globalRand := (time_read rt st, 1%nat);
         clock_reads := S (clock_reads st);
         sent := (sent st ++ [http_request rt st ifname data])%list |}
  end.

(** The body an operation receives, when its request could be encoded
    and sent and the response read. *)
Definition response_body (rt : Runtime) (c : Call) (st : State)
  : option string :=
  match json.Marshal (encodeFloat32 rt) (FormatFloat32 rt)
          (request_of (client st) c) with
  | inr _ => None
  | inl data =>
      match reply rt st (operation_name c) data with
      | inl body => Some body
      | inr _ => None
      end
  end.

(** The message of the error the dispatcher makes of a failed decoding:
    the response struct written with the verb [s] after an ampersand, and
    the message of the decoder's error. *)
Definition decoding_message (rt : Runtime) (rsp : GoVal) (e : error)
  : string :=
  "json.Unmarshal() rsp: &" ++ fmt.printValue (FormatFloat32 rt) "s" rsp
    ++ " failed: " ++ Error e ++ newline.

(** The names the operations are sent under. *)
Definition operation_names : list string :=
  ["detectface"; "facecompare"; "faceverify"; "faceidentify"; "newperson";
   "delperson"; "addface"; "delface"; "setinfo"; "getinfo"; "getgroupids";
   "getpersonids"; "getfaceids"; "getfaceinfo"].

(** A struct none of whose fields package json sees. *)
Definition hidden (v : GoVal) : bool :=
  match v with
  | VStruct _ fs => forallb (fun f => negb (json.visible (fst f))) fs
  | _ => false
  end.

(* ------------------------------------------------------------------ *)
(** ** Fixtures: a credential, a client and a world to run them in *)

Definition credential1 : AppSign :=
  {| appID := 1; secretID := "k"; secretKey := "sk"; expired := 100;
     userID := "u" |}.

Definition client1 : Youtu := Init credential1 DefaultHost.

(** A world where the clock reads 1000, the source gives the nonce 5,
    every file holds [Man] and every request is answered with [body]. *)
Definition world (body : string) : Runtime := {|
  clock := fun _ => 1000;
  source_Int63 := fun _ _ => 5 * 2 ^ 32;
  NewRequest_error := fun _ _ => None;
  client_Do := fun _ _ _ => inl (inl body);
  ReadFile := fun name =>
    if String.eqb name "face.jpg" then inl "Man"
    else inr (PathError "open" name "no such file or directory");
  ParseFloat32 := fun _ => None;
  FormatFloat32 := fun _ => "0";
  encodeFloat32 := fun _ => None
|}.

Definition q (s : string) : string := json.dquote ++ s ++ json.dquote.

(** A response that decodes and carries a non-zero status code. *)
Definition body_status_7 : string :=
  "{" ++ q "session_id" ++ ":" ++ q "s1" ++ "," ++ q "person_id" ++ ":"
      ++ q "p1" ++ "," ++ q "errorcode" ++ ":7," ++ q "errormsg" ++ ":"
      ++ q "no face" ++ "}".

(** A response that is not JSON. *)
Definition body_html : string := "<html>503 Service Unavailable</html>".

(** A response that is JSON with a string where the status code goes. *)
Definition body_wrong_kind : string :=
  "{" ++ q "group_ids" ++ ":[" ++ q "g1" ++ "]," ++ q "errorcode" ++ ":"
      ++ q "x" ++ "}".

Definition call_newperson : Call :=
  CallNewPerson "aW1n" "p1" (Some ["g1"]) "Alice" "".

Definition long_id (n : nat) : string := Bytes.repeat_string "x" n.

(** What [body_status_7] decodes to as the response of [newperson]. *)
Definition rsp_status_7 : GoVal :=
  fst (json.Unmarshal (fun _ => None) body_status_7 (zero NewPersonRsp)).

(* ------------------------------------------------------------------ *)
(** ** More of the words of the code, and more fixtures *)

(** A world whose transport refuses the address with [refused], if any,
    and otherwise answers every request with [answer]. *)
Definition world_of (refused : option error)
    (answer : result (result string)) : Runtime := {|
  clock := fun _ => 1000;
  source_Int63 := fun _ _ => 5 * 2 ^ 32;
  NewRequest_error := fun _ _ => refused;
  client_Do := fun _ _ _ => answer;
  ReadFile := fun name => inr (PathError "open" name "permission denied");
  ParseFloat32 := fun _ => None;
  FormatFloat32 := fun _ => "0";
  encodeFloat32 := fun _ => None
|}.

Definition connection_refused : error :=
  TransportError "dial tcp 127.0.0.1:80: connect: connection refused".

Definition invalid_address : error :=
  TransportError "invalid character in host name".

(** The fields of a struct value. *)
Definition fields_of (v : GoVal) : list (FieldInfo * GoVal) :=
  match v with
  | VStruct _ fs => fs
  | _ => []
  end.

(** A member of an object whose key stands for no field of [fs]. *)
Definition unknown_key (fs : list (FieldInfo * GoVal))
    (m : list Z * json.JSON) : bool :=
  match json.find_field (json.unquote (fst m)) fs with
  | None => true
  | Some _ => false
  end.

(** A member of an object whose key is not [SessionID] in any case. *)
Definition not_SessionID (m : list Z * json.JSON) : bool :=
  negb (String.eqb (json.foldName (json.unquote (fst m))) "SESSIONID").

(** An object with keys no response knows. *)
Definition body_unknown_keys : string :=
  "{" ++ q "request_id" ++ ":17," ++ q "debug" ++ ":[true,null]}".

(** An object that names the session as the service does. *)
Definition body_session : string :=
  "{" ++ q "session_id" ++ ":" ++ q "s1" ++ "," ++ q "person_id" ++ ":"
      ++ q "p1" ++ "}".

(** The error of the transport for the request of an operation: of
    building the request, of sending it or of reading the response. *)
Definition transport_failure (rt : Runtime) (c : Call) (st : State)
  : option error :=
  match json.Marshal (encodeFloat32 rt) (FormatFloat32 rt)
          (request_of (client st) c) with
  | inr _ => None
  | inl data =>
      match reply rt st (operation_name c) data with
      | inl _ => None
      | inr e => Some e
      end
  end.

(** Two credentials for one application and one secret key whose
    canonical strings at time [t] with nonce [r] are the same text: what
    the second has in its secret identifier, the first has in its user
    identifier. *)
Definition credential_short (id : Z) (key : string) (sid mid uid : string)
    (e e' t r : Z) : AppSign :=
  {| appID := id; secretID := sid; secretKey := key; expired := e;
     userID := mid ++ "&e=" ++ decimal e' ++ "&t=" ++ decimal t
                 ++ "&r=" ++ decimal r ++ "&u=" ++ uid |}.

Definition credential_long (id : Z) (key : string) (sid mid uid : string)
    (e e' t r : Z) : AppSign :=
  {| appID := id; secretID := sid ++ "&e=" ++ decimal e ++ "&t=" ++ decimal t
                               ++ "&r=" ++ decimal r ++ "&u=" ++ mid;
     secretKey := key; expired := e'; userID := uid |}.

(** The JSON text of a [[]string]. *)
Fixpoint strings_elems (l : list string) : string :=
  match l with
  | [] => ""
  | [x] => json.encode_string x
  | x :: r => json.encode_string x ++ "," ++ strings_elems r
  end.

Definition strings_json (l : option (list string)) : string :=
  match l with
  | None => "null"
  | Some l => "[" ++ strings_elems l ++ "]"
  end.

(** A member [,"name":text] of an object, left out when [omit]. *)
Definition member (omit : bool) (name text : string) : string :=
  if omit then "" else "," ++ q name ++ ":" ++ text.

(** The JSON text of the request of each operation: [app_id] first, then
    the fields in the order their struct declares them; the fields tagged
    [omitempty] are left out when zero or empty. *)
Definition request_text (app_id : string) (c : Call) : string :=
  "{" ++ q "app_id" ++ ":" ++ json.encode_string app_id ++
  match c with
  | CallDetectFace imageData mode =>
      member false "image" (json.encode_string imageData)
      ++ member (mode =? 0) "mode" (decimal mode)
  | CallFaceCompare imageA imageB =>
      member false "imageA" (json.encode_string imageA)
      ++ member false "imageB" (json.encode_string imageB)
  | CallFaceVerify image personID =>
      member false "image" (json.encode_string image)
      ++ member false "person_id" (json.encode_string personID)
  | CallFaceIdentify image groupID =>
      member false "group_id" (json.encode_string groupID)
      ++ member false "image" (json.encode_string image)
  | CallNewPerson image personID groupIDs personName tag =>
      member false "image" (json.encode_string image)
      ++ member false "person_id" (json.encode_string personID)
      ++ member false "group_ids" (strings_json groupIDs)
      ++ member (String.eqb personName "") "person_name"
           (json.encode_string personName)
      ++ member (String.eqb tag "") "tag" (json.encode_string tag)
  | CallDelPerson personID =>
      member false "person_id" (json.encode_string personID)
  | CallAddFace images personID tag =>
      member false "person_id" (json.encode_string personID)
      ++ member false "images" (strings_json images)
      ++ member (String.eqb tag "") "tag" (json.encode_string tag)
  | CallDelFace personID faceIDs =>
      member false "person_id" (json.encode_string personID)
      ++ member false "face_ids" (strings_json faceIDs)
  | CallSetInfo personID personName tag =>
      member false "person_id" (json.encode_string personID)
      ++ member (String.eqb personName "") "person_name"
           (json.encode_string personName)
      ++ member (String.eqb tag "") "tag" (json.encode_string tag)
  | CallGetInfo personID =>
      member false "person_id" (json.encode_string personID)
  | CallGetGroupIDs => ""
  | CallGetPersonIDs groupID =>
      member false "group_id" (json.encode_string groupID)
  | CallGetFaceIDs personID =>
      member false "person_id" (json.encode_string personID)
  | CallGetFaceInfo faceID =>
      member false "face_id" (json.encode_string faceID)
  end ++ "}".

(* ------------------------------------------------------------------ *)
(** ** The status code in a body and in a response *)

(** Whether a key stands for the [i]-th field of [fs]. *)
Definition selects (fs : list (FieldInfo * GoVal)) (i : nat) (key : list Z)
  : bool :=
  match json.find_field (json.unquote key) fs with
  | Some j => Nat.eqb j i
  | None => false
  end.

(** The value an object gives the [i]-th field of [fs]: that of the last
    member whose key stands for the field. *)
Fixpoint last_for (fs : list (FieldInfo * GoVal)) (i : nat)
    (ms : list (list Z * json.JSON)) : option json.JSON :=
  match ms with
  | [] => None
  | (k, j) :: r =>
      match last_for fs i r with
      | Some j' => Some j'
      | None => if selects fs i k then Some j else None
      end
  end.

(** The status code an object carries for the response of an operation:
    what it gives the field [ErrorCode], when the response has a field
    of that name. *)
Definition status_in_body (c : Call) (ms : list (list Z * json.JSON))
  : option json.JSON :=
  let fs := fields_of (zero (response_type c)) in
  match json.index_where (fun f => String.eqb (fname (fst f)) "ErrorCode") fs
  with
  | Some i => last_for fs i ms
  | None => None
  end.

(** The operations other than [SetInfo], each on arguments of its own. *)
Definition sibling_calls : list Call :=
  [CallDetectFace "aW1n" DetectModeNormal;
   CallFaceCompare "aW1n" "aW1n";
   CallFaceVerify "aW1n" "p1";
   CallFaceIdentify "aW1n" "g1";
   CallNewPerson "aW1n" "p1" (Some ["g1"]) "Alice" "";
   CallDelPerson "p1";
   CallAddFace (Some ["aW1n"]) "p1" "";
   CallDelFace "p1" (Some ["f1"]);
   CallGetInfo "p1";
   CallGetGroupIDs;
   CallGetPersonIDs "g1";
   CallGetFaceIDs "p1";
   CallGetFaceInfo "f1"].

(** Whether an operation returned a nil error and a response whose field
    [ErrorCode] is [z]. *)
Definition returned_status (z : Z) (r : GoVal * option error) : bool :=
  match r with
  | (rsp, None) =>
      match field rsp "ErrorCode" with
      | Some (VInt _ _ z') => z' =? z
      | _ => false
      end
  | (_, Some _) => false
  end.

(** Every operation, each on arguments of its own, in the order of the
    source. *)
Definition every_call : list Call :=
  (firstn 8 sibling_calls ++ CallSetInfo "p1" "Alice" "" ::
     skipn 8 sibling_calls)%list.

(** Whether an operation returned an error whose message has the text of
    the decoder's error [cause] in it, has a mark of a verb applied to
    an operand of the wrong type in it, and has not [body] in it. *)
Definition failed_without_body (cause body : string)
    (r : GoVal * option error) : bool :=
  match r with
  | (_, Some e) =>
      Bytes.contains (Error e) cause
      && Bytes.contains (Error e) "%!s("
      && negb (Bytes.contains (Error e) body)
  | (_, None) => false
  end.

(** A response with a status code for every operation that has a field
    for it, sent after a member the response of no operation has and a
    group list of the wrong kind. *)
Definition body_status_twice : string :=
  "{" ++ q "errorcode" ++ ":3," ++ q "group_ids" ++ ":7,"
      ++ q "ERRORCODE" ++ ":-12}".

(** The members of the object a body is, and none when it is none. *)
Definition members (body : string) : list (list Z * json.JSON) :=
  match json.parse (Bytes.of_string body) with
  | Some (json.JObject ms) => ms
  | _ => []
  end.

(* ================================================================== *)
(** * Properties *)
(* ================================================================== *)

Example sha1_abc :
  hex_of_bytes (sha1.Sum1 (Bytes.of_string "abc"))
  = "a9993e364706816aba3e25717850c26c9cd0d89d".
Proof. vm_compute. reflexivity. Qed.

Example sha1_empty :
  hex_of_bytes (sha1.Sum1 [])
  = "da39a3ee5e6b4b0d3255bfef95601890afd80709".
Proof. vm_compute. reflexivity. Qed.

Example sha1_two_blocks :
  hex_of_bytes (sha1.Sum1 (Bytes.of_string
     "abcdbcdecdefdefgefghfghighijhijkijkljklmklmnlmnomnopnopq"))
  = "84983e441c3bd26ebaae4aa1f95129e5e54670f1".
Proof. vm_compute. reflexivity. Qed.

Example hmac_sha1_rfc2202_2 :
  hex_of_bytes
    (Sum (Write (hmac.New sha1.New (Bytes.of_string "Jefe"))
            (Bytes.of_string "what do ya want for nothing?")) [])
  = "effcdf6ae5eb2fa2d27416d5f184df9c259a7c79".
Proof. vm_compute. reflexivity. Qed.

Example base64_vectors :
  base64.EncodeToString "Man" = "TWFu" /\
  base64.EncodeToString "Ma" = "TWE=" /\
  base64.EncodeToString "M" = "TQ==" /\
  base64.EncodeToString "foobar" = "Zm9vYmFy" /\
  base64.encode [0xFB; 0xFF] = "+/8=" /\
  base64.encode [0xFF; 0xFE; 0xFD; 0x00; 0x80] = "//79AIA=".
Proof. vm_compute. repeat split. Qed.

Example itoa_vectors :
  strconv.Itoa 0 = "0" /\ strconv.Itoa 4294967295 = "4294967295" /\
  strconv.Itoa (-17) = "-17" /\ strconv.FormatInt 1000 = "1000".
Proof. vm_compute. repeat split. Qed.

Example utf8_vectors :
  utf8.DecodeRune [0xE4; 0xB8; 0x96] = (0x4E16, 3%nat) /\
  utf8.EncodeRune 0x4E16 = [0xE4; 0xB8; 0x96] /\
  utf8.DecodeRune [0xC0; 0x80] = (utf8.RuneError, 1%nat) /\
  utf8.DecodeRune [0xED; 0xA0; 0x80] = (utf8.RuneError, 1%nat) /\
  utf8.EncodeRune 0x1F600 = [0xF0; 0x9F; 0x98; 0x80] /\
  utf8.DecodeRune [0xF0; 0x9F; 0x98; 0x80] = (0x1F600, 4%nat).
Proof. vm_compute. repeat split. Qed.

Example checkValid_vectors :
  json.checkValid (Bytes.of_string "{}") = None /\
  json.checkValid (Bytes.of_string " [1, 2.5e+3, true, null, {}] ") = None /\
  json.checkValid (Bytes.of_string "<html>")
    = Some (SyntaxError
              "invalid character '<' looking for beginning of value" 1) /\
  json.checkValid (Bytes.of_string "{")
    = Some (SyntaxError "unexpected end of JSON input" 1) /\
  json.checkValid (Bytes.of_string "")
    = Some (SyntaxError "unexpected end of JSON input" 0) /\
  json.checkValid (Bytes.of_string "nil")
    = Some (SyntaxError
              "invalid character 'i' in literal null (expecting 'u')" 2) /\
  json.checkValid (Bytes.of_string "{} x")
    = Some (SyntaxError
              "invalid character 'x' after top-level value" 4) /\
  json.checkValid (Bytes.of_string "01")
    = Some (SyntaxError
              "invalid character '1' after top-level value" 2) /\
  json.checkValid (Bytes.of_string "[1,]")
    = Some (SyntaxError
              "invalid character ']' looking for beginning of value" 4).
Proof. vm_compute. repeat split. Qed.

(* ------------------------------------------------------------------ *)
(** ** The signer *)

(** The hash object of crypto/hmac computes the HMAC of RFC 2104. *)
Lemma hmac_Sum_spec : forall key text,
  Sum (Write (hmac.New sha1.New key) text) [] = hmac.HMAC_SHA1_spec key text.
Proof.
  intros key text.
  unfold hmac.HMAC_SHA1_spec.
  cbn [Sum Write hmac.hmac_Hash hmac.hmac_Sum hmac.hmac_Write hmac.New
       hmac.inner hmac.outer hmac.opad hmac.ipad Reset BlockSize
       sha1.digest_Hash sha1.written sha1.New].
  change (Z.to_nat 64) with 64%nat.
  unfold hmac.zero_extend, hmac.xor_pad.
  cbn [List.length skipn firstn app].
  destruct (64 <? List.length key)%nat; reflexivity.
Qed.

Lemma be32_length : forall x, List.length (sha1.be32 x) = 4%nat.
Proof. reflexivity. Qed.

(** A SHA-1 digest is 20 bytes long. *)
Lemma Sum1_length : forall msg, List.length (sha1.Sum1 msg) = 20%nat.
Proof.
  intros msg. unfold sha1.Sum1.
  destruct (sha1.blocks _ _ _) as [[[[h0 h1] h2] h3] h4].
  reflexivity.
Qed.

Lemma HMAC_SHA1_length : forall key text,
  List.length (hmac.HMAC_SHA1_spec key text) = 20%nat.
Proof. intros. unfold hmac.HMAC_SHA1_spec. apply Sum1_length. Qed.

Lemma code_chr : forall z, 0 <= z < 256 -> Bytes.code (Bytes.chr z) = z.
Proof.
  intros z Hz. unfold Bytes.code, Bytes.chr.
  rewrite Z.mod_small by exact Hz.
  rewrite N_ascii_embedding.
  - apply Z2N.id. lia.
  - change 256%N with (Z.to_N 256). apply Z2N.inj_lt; lia.
Qed.

Lemma of_string_to_string : forall l,
  Forall is_byte l -> Bytes.of_string (Bytes.to_string l) = l.
Proof.
  induction 1 as [|b l Hb Hl IH]; cbn; [reflexivity|].
  now rewrite (code_chr _ Hb), IH.
Qed.

Lemma of_string_app : forall a b,
  Bytes.of_string (a ++ b) = (Bytes.of_string a ++ Bytes.of_string b)%list.
Proof.
  induction a as [|c a IH]; intros b; cbn; [reflexivity|].
  now rewrite IH.
Qed.

Lemma land_255_byte : forall x, is_byte (Z.land x 255).
Proof.
  intros x. unfold is_byte. change 255 with (Z.ones 8).
  rewrite Z.land_ones by lia. apply Z.mod_pos_bound. lia.
Qed.

Lemma be32_bytes : forall x, Forall is_byte (sha1.be32 x).
Proof. intros x. unfold sha1.be32. repeat constructor; apply land_255_byte. Qed.

(** A SHA-1 digest is made of bytes. *)
Lemma Sum1_bytes : forall msg, Forall is_byte (sha1.Sum1 msg).
Proof.
  intros msg. unfold sha1.Sum1.
  destruct (sha1.blocks _ _ _) as [[[[h0 h1] h2] h3] h4].
  repeat (apply Forall_app; split); apply be32_bytes.
Qed.

(** What [orignalSign] returns and the state it leaves: the clock was
    read once and the shared random source reseeded and drawn from. *)
Lemma orignalSign_run : forall rt st,
  orignalSign rt st =
  (canonical_string (appID (appSign (client st)))
     (secretID (appSign (client st))) (expired (appSign (client st)))
     (time_read rt st) (nonce_drawn rt st) (userID (appSign (client st))),
   {| client := client st; globalRand := (time_read rt st, 1%nat);
      clock_reads := S (clock_reads st); sent := sent st |}).
Proof.
  intros rt st. reflexivity.
Qed.

Lemma sign_run : forall rt st,
  sign rt st =
  (token_of (secretKey (appSign (client st))) (fst (orignalSign rt st)),
   snd (orignalSign rt st)).
Proof.
  intros rt st.
  unfold sign, bind. rewrite orignalSign_run. cbn [fst snd getY client ret].
  unfold token_of. rewrite <- hmac_Sum_spec. reflexivity.
Qed.

(** The nonce is a non-negative number of 31 bits. *)
Lemma nonce_drawn_range : forall rt st, 0 <= nonce_drawn rt st < 2 ^ 31.
Proof.
  intros rt st. unfold nonce_drawn.
  set (x := source_Int63 rt (time_read rt st) 0 mod 2 ^ 63).
  assert (Hx : 0 <= x < 2 ^ 63) by (apply Z.mod_pos_bound; lia).
  assert (Hs : 0 <= Z.shiftr x 32 < 2 ^ 31).
  { rewrite Z.shiftr_div_pow2 by lia. split.
    - apply Z.div_pos; lia.
    - apply Z.div_lt_upper_bound; [lia|].
      change (2 ^ 32 * 2 ^ 31) with (2 ^ 63). lia. }
  unfold to_int32. rewrite Z.mod_small; lia.
Qed.

Lemma append_empty : forall s : string, s ++ "" = s.
Proof. induction s as [|c s IH]; [reflexivity | cbn; now rewrite IH]. Qed.

Lemma interfaceURL_run : forall rt ifname st,
  interfaceURL rt ifname st = (target_URL (host (client st)) ifname, st).
Proof.
  intros rt ifname st.
  unfold interfaceURL, bind, getY, ret, target_URL.
  cbn [fmt.Sprintf fmt.printArg fmt.verb_is String.eqb Ascii.eqb Bool.eqb
       orb fmt.extra].
  now rewrite append_empty.
Qed.

(* ------------------------------------------------------------------ *)
(** ** Decimal numbers *)

Lemma digit_code : forall d,
  0 <= d < 10 -> Bytes.code (strconv.digit d) = 48 + d.
Proof.
  intros d Hd. unfold strconv.digit. apply code_chr. lia.
Qed.

Lemma digit_is_digit : forall d,
  0 <= d < 10 -> strconv.is_digit (strconv.digit d) = true.
Proof.
  intros d Hd. unfold strconv.is_digit. rewrite (digit_code d Hd).
  apply andb_true_intro. split; [apply Z.leb_le | apply Z.leb_le]; lia.
Qed.

(** The digits written for [n] in front of [acc] read back as [n]. *)
Lemma digits_fuel_value : forall fuel n acc,
  0 <= n < 2 ^ Z.of_nat fuel ->
  exists m, 0 <= m /\ forall k,
    strconv.digits_value (strconv.digits_fuel fuel n acc) k
    = strconv.digits_value acc (k * 10 ^ m + n).
Proof.
  induction fuel as [|f IH]; intros n acc Hn.
  - exists 0. split; [lia|]. intros k. cbn in Hn. cbn [strconv.digits_fuel].
    f_equal. lia.
  - cbn [strconv.digits_fuel].
    assert (Hmod : 0 <= n mod 10 < 10) by (apply Z.mod_pos_bound; lia).
    destruct (n <? 10) eqn:E.
    + apply Z.ltb_lt in E. exists 1. split; [lia|]. intros k.
      cbn [strconv.digits_value]. rewrite (digit_code _ Hmod).
      rewrite Z.mod_small by lia. f_equal. lia.
    + apply Z.ltb_ge in E.
      assert (Hdiv : 0 <= n / 10 < 2 ^ Z.of_nat f).
      { split; [apply Z.div_pos; lia|].
        apply Z.div_lt_upper_bound; [lia|].
        rewrite Nat2Z.inj_succ, Z.pow_succ_r in Hn by lia. lia. }
      destruct (IH (n / 10) (String (strconv.digit (n mod 10)) acc) Hdiv)
        as [m [Hm Hv]].
      exists (m + 1). split; [lia|]. intros k. rewrite Hv.
      cbn [strconv.digits_value]. rewrite (digit_code _ Hmod).
      f_equal. rewrite Z.pow_add_r by lia.
      pose proof (Z.div_mod n 10 ltac:(lia)). lia.
Qed.

Lemma digits_fuel_all_digits : forall fuel n acc,
  0 <= n -> strconv.all_digits acc = true ->
  strconv.all_digits (strconv.digits_fuel fuel n acc) = true.
Proof.
  induction fuel as [|f IH]; intros n acc Hn Hacc; [exact Hacc|].
  cbn [strconv.digits_fuel].
  assert (Hmod : 0 <= n mod 10 < 10) by (apply Z.mod_pos_bound; lia).
  assert (Hacc' : strconv.all_digits
                    (String (strconv.digit (n mod 10)) acc) = true).
  { cbn [strconv.all_digits]. now rewrite (digit_is_digit _ Hmod), Hacc. }
  destruct (n <? 10); [exact Hacc'|].
  apply IH; [apply Z.div_pos; lia | exact Hacc'].
Qed.

Lemma digits_fuel_acc : forall fuel n acc,
  acc <> "" -> strconv.digits_fuel fuel n acc <> "".
Proof.
  induction fuel as [|f IH]; intros n acc Hacc; [exact Hacc|].
  cbn [strconv.digits_fuel].
  destruct (n <? 10); [discriminate|]. apply IH. discriminate.
Qed.

Lemma FormatUint_digits : forall n,
  0 <= n ->
  strconv.FormatUint n <> "" /\
  strconv.all_digits (strconv.FormatUint n) = true /\
  strconv.digits_value (strconv.FormatUint n) 0 = n.
Proof.
  intros n Hn. unfold strconv.FormatUint.
  split; [|split].
  - cbn [strconv.digits_fuel].
    destruct (n <? 10); [discriminate|]. apply digits_fuel_acc. discriminate.
  - apply digits_fuel_all_digits; [exact Hn | reflexivity].
  - assert (Hf : 0 <= n < 2 ^ Z.of_nat (S (Z.to_nat (Z.log2 n)))).
    { split; [exact Hn|].
      rewrite Nat2Z.inj_succ, Z2Nat.id by apply Z.log2_nonneg.
      destruct (Z.eq_dec n 0) as [->|Hnz]; [reflexivity|].
      apply Z.log2_spec. lia. }
    destruct (digits_fuel_value _ n "" Hf) as [m [_ Hv]].
    rewrite Hv. cbn [strconv.digits_value]. lia.
Qed.

(** The digits after the sign, read back. *)
Lemma ParseInt_digits : forall ds,
  ds <> "" -> strconv.all_digits ds = true ->
  strconv.ParseInt ds
  = (if is_int64 (strconv.digits_value ds 0)
     then Some (strconv.digits_value ds 0) else None).
Proof.
  intros ds Hne Hall. unfold strconv.ParseInt.
  destruct ds as [|c r]; [contradiction|].
  cbn [strconv.all_digits] in Hall. apply andb_prop in Hall as [Hc Hr].
  unfold strconv.is_digit in Hc. apply andb_prop in Hc as [H1 H2].
  apply Z.leb_le in H1. apply Z.leb_le in H2.
  replace (Bytes.code c =? 45) with false by (symmetry; apply Z.eqb_neq; lia).
  replace (Bytes.code c =? 43) with false by (symmetry; apply Z.eqb_neq; lia).
  cbn [strconv.all_digits]. unfold strconv.is_digit.
  replace (48 <=? Bytes.code c) with true by (symmetry; apply Z.leb_le; lia).
  replace (Bytes.code c <=? 57) with true by (symmetry; apply Z.leb_le; lia).
  cbn [andb]. rewrite Hr. reflexivity.
Qed.

Lemma ParseInt_minus : forall ds,
  ds <> "" -> strconv.all_digits ds = true ->
  strconv.ParseInt (String "-" ds)
  = (if is_int64 (- strconv.digits_value ds 0)
     then Some (- strconv.digits_value ds 0) else None).
Proof.
  intros ds Hne Hall. unfold strconv.ParseInt.
  change (Bytes.code "-" =? 45) with true. cbv iota.
  destruct ds as [|c r]; [contradiction|].
  rewrite Hall. reflexivity.
Qed.

(** [strconv.FormatInt] writes a number in decimal: [strconv.ParseInt]
    reads it back. *)
Theorem ParseInt_FormatInt : forall z,
  is_int64 z = true -> strconv.ParseInt (strconv.FormatInt z) = Some z.
Proof.
  intros z Hz. unfold strconv.FormatInt.
  destruct (z <? 0) eqn:E.
  - apply Z.ltb_lt in E.
    destruct (FormatUint_digits (- z) ltac:(lia)) as [Hne [Hall Hval]].
    change ("-" ++ strconv.FormatUint (- z))
      with (String "-" (strconv.FormatUint (- z))).
    rewrite (ParseInt_minus _ Hne Hall), Hval, Z.opp_involutive, Hz.
    reflexivity.
  - apply Z.ltb_ge in E.
    destruct (FormatUint_digits z E) as [Hne [Hall Hval]].
    rewrite (ParseInt_digits _ Hne Hall), Hval, Hz. reflexivity.
Qed.

(* ------------------------------------------------------------------ *)
(** ** Base64 *)

Lemma in_all_bytes : forall b, is_byte b -> In b base64.all_bytes.
Proof.
  intros b [H0 H1]. unfold base64.all_bytes.
  apply in_map_iff. exists (Z.to_nat b). split; [lia|].
  apply in_seq. lia.
Qed.

Lemma group1_ok : forallb base64.group1 base64.all_bytes = true.
Proof. vm_compute. reflexivity. Qed.

Lemma group2_ok :
  forallb (fun a => forallb (base64.group2 a) base64.all_bytes)
    base64.all_bytes = true.
Proof. vm_compute. reflexivity. Qed.

Lemma in_all_sextets : forall i, base64.is_sextet i -> In i base64.all_sextets.
Proof.
  intros b [H0 H1]. unfold base64.all_sextets.
  apply in_map_iff. exists (Z.to_nat b). split; [lia|].
  apply in_seq. lia.
Qed.

Lemma alphabet_all_ok : forallb base64.alphabet_ok base64.all_sextets = true.
Proof. vm_compute. reflexivity. Qed.

Lemma value_alpha : forall i,
  base64.is_sextet i ->
  base64.value (base64.alpha i) = i /\
  base64.is_pad (base64.alpha i) = false.
Proof.
  intros i Hi.
  pose proof (proj1 (forallb_forall _ _) alphabet_all_ok i
                (in_all_sextets i Hi)) as H.
  unfold base64.alphabet_ok in H. apply andb_prop in H as [H1 H2].
  apply Z.eqb_eq in H1. apply negb_true_iff in H2. now split.
Qed.

Lemma pairs_ok :
  forallb (fun a => forallb (base64.pair_ok a) base64.all_bytes)
    base64.all_bytes = true.
Proof. vm_compute. reflexivity. Qed.

Lemma pair_facts : forall a b,
  is_byte a -> is_byte b -> base64.pair_ok a b = true.
Proof.
  intros a b Ha Hb.
  pose proof (proj1 (forallb_forall _ _) pairs_ok a (in_all_bytes a Ha)) as H.
  exact (proj1 (forallb_forall _ _) H b (in_all_bytes b Hb)).
Qed.

Lemma land_63_sextet : forall x, base64.is_sextet (Z.land x 63).
Proof.
  intros x. unfold base64.is_sextet. change 63 with (Z.ones 6).
  rewrite Z.land_ones by lia. apply Z.mod_pos_bound. lia.
Qed.

Lemma shiftr_2_sextet : forall a, is_byte a -> base64.is_sextet (Z.shiftr a 2).
Proof.
  intros a [H0 H1]. unfold base64.is_sextet. rewrite Z.shiftr_div_pow2 by lia.
  change (2 ^ 2) with 4. split.
  - apply Z.div_pos; lia.
  - apply Z.div_lt_upper_bound; lia.
Qed.

Lemma list_ind3 : forall (P : list Z -> Prop),
  P [] -> (forall a, P [a]) -> (forall a b, P [a; b]) ->
  (forall a b c l, P l -> P (a :: b :: c :: l)) ->
  forall l, P l.
Proof.
  intros P H0 H1 H2 H3.
  fix F 1. intros [|a [|b [|c l]]].
  - exact H0.
  - apply H1.
  - apply H2.
  - apply H3, F.
Qed.

Lemma decode_group : forall i1 i2 i3 i4 s,
  base64.is_sextet i1 -> base64.is_sextet i2 ->
  base64.is_sextet i3 -> base64.is_sextet i4 ->
  base64.decode_rfc4648
    (String (base64.alpha i1) (String (base64.alpha i2)
       (String (base64.alpha i3) (String (base64.alpha i4) s))))
  = match base64.decode_rfc4648 s with
    | Some l =>
        Some (Z.lor (Z.shiftl i1 2) (Z.shiftr i2 4)
              :: Z.lor (Z.land (Z.shiftl i2 4) 255) (Z.shiftr i3 2)
              :: Z.lor (Z.land (Z.shiftl i3 6) 255) i4 :: l)
    | None => None
    end.
Proof.
  intros i1 i2 i3 i4 s H1 H2 H3 H4.
  cbn [base64.decode_rfc4648].
  destruct (value_alpha i1 H1) as [V1 _].
  destruct (value_alpha i2 H2) as [V2 _].
  destruct (value_alpha i3 H3) as [V3 P3].
  destruct (value_alpha i4 H4) as [V4 P4].
  rewrite V1, V2, V3, V4, P3, P4.
  unfold base64.is_sextet in *.
  replace (i1 <? 0) with false by (symmetry; apply Z.ltb_ge; lia).
  replace (i2 <? 0) with false by (symmetry; apply Z.ltb_ge; lia).
  replace (i3 <? 0) with false by (symmetry; apply Z.ltb_ge; lia).
  replace (i4 <? 0) with false by (symmetry; apply Z.ltb_ge; lia).
  reflexivity.
Qed.

(** What [encode] writes, a decoder of RFC 4648 reads back: the encoding
    is the standard one and loses nothing. *)
Theorem base64_roundtrip : forall l,
  Forall is_byte l -> base64.decode_rfc4648 (base64.encode l) = Some l.
Proof.
  induction l as [|a|a b|a b c l IH] using list_ind3; intros Hl.
  - reflexivity.
  - inversion Hl as [|? ? Ha _]; subst.
    pose proof (proj1 (forallb_forall _ _) group1_ok a (in_all_bytes a Ha))
      as H.
    unfold base64.group1 in H.
    destruct (base64.decode_rfc4648 (base64.encode [a])) as [[|x [|? ?]]|];
      try discriminate.
    apply Z.eqb_eq in H. now subst.
  - inversion Hl as [|? ? Ha Hl']; subst.
    inversion Hl' as [|? ? Hb _]; subst.
    pose proof (proj1 (forallb_forall _ _) group2_ok a (in_all_bytes a Ha))
      as H.
    pose proof (proj1 (forallb_forall _ _) H b (in_all_bytes b Hb)) as H'.
    unfold base64.group2 in H'.
    destruct (base64.decode_rfc4648 (base64.encode [a; b]))
      as [[|x [|y [|? ?]]]|];
      try discriminate.
    apply andb_prop in H' as [Hx Hy].
    apply Z.eqb_eq in Hx, Hy. now subst.
  - inversion Hl as [|? ? Ha Hl1]; subst.
    inversion Hl1 as [|? ? Hb Hl2]; subst.
    inversion Hl2 as [|? ? Hc Hl3]; subst.
    cbn [base64.encode].
    rewrite decode_group;
      auto using shiftr_2_sextet, land_63_sextet.
    rewrite (IH Hl3).
    pose proof (pair_facts a b Ha Hb) as Hab.
    pose proof (pair_facts b c Hb Hc) as Hbc.
    unfold base64.pair_ok, base64.sextet2, base64.sextet3 in Hab, Hbc.
    repeat match goal with
           | H : _ && _ = true |- _ => apply andb_prop in H as [? ?]
           | H : (_ =? _) = true |- _ => apply Z.eqb_eq in H
           end.
    repeat f_equal; congruence.
Qed.

(* ------------------------------------------------------------------ *)
(** ** The dispatcher *)

(** [get] on the address of an operation: the reply of the transport,
    and one request more among those sent. *)
Lemma get_run : forall rt ifname data st,
  get rt (target_URL (host (client st)) ifname) data st =
  (reply rt st ifname data, after_request rt st ifname data).
Proof.
  intros rt ifname data st.
  unfold get, reply, after_request.
  destruct (NewRequest_error rt "POST" _) as [e|]; [reflexivity|].
  unfold bind. rewrite sign_run, orignalSign_run.
  cbn [fst snd http_Do client globalRand clock_reads sent].
  unfold http_request. rewrite sign_run, orignalSign_run.
  cbn [fst snd Header_Add Method URL Header Body app].
  destruct (client_Do rt _ _ _) as [body|e]; reflexivity.
Qed.

Lemma Errorf_unmarshal_failed : forall rt rsp e,
  fmt.Errorf (FormatFloat32 rt) unmarshal_failed
    [fmt.APointer rsp; fmt.AError e]
  = errorString (decoding_message rt rsp e).
Proof. intros. reflexivity. Qed.

(** The dispatcher, step by step. *)
Lemma interfaceRequest_run : forall rt ifname req rsp st,
  interfaceRequest rt ifname req rsp st =
  match json.Marshal (encodeFloat32 rt) (FormatFloat32 rt) req with
  | inr e => ((rsp, Some e), st)
  | inl data =>
      (match reply rt st ifname data with
       | inr e => (rsp, Some e)
       | inl body =>
           match json.Unmarshal (ParseFloat32 rt) body rsp with
           | (rsp', Some e) =>
               (rsp', Some (errorString (decoding_message rt rsp' e)))
           | (rsp', None) => (rsp', None)
           end
       end, after_request rt st ifname data)
  end.
Proof.
  intros rt ifname req rsp st.
  unfold interfaceRequest, bind. rewrite interfaceURL_run.
  destruct (json.Marshal _ _ req) as [data|e]; [|reflexivity].
  rewrite get_run.
  destruct (reply rt st ifname data) as [body|e]; [|reflexivity].
  destruct (json.Unmarshal _ body rsp) as [rsp' [e|]]; [|reflexivity].
  rewrite Errorf_unmarshal_failed. reflexivity.
Qed.

(** Every operation is one call of the dispatcher, with the name of the
    operation, its request and the zero value of its response. *)
Lemma invoke_dispatch : forall rt c st,
  invoke rt c st =
  interfaceRequest rt (operation_name c) (request_of (client st) c)
    (zero (response_type c)) st.
Proof.
  intros rt c st. destruct c; reflexivity.
Qed.

(** The client is the same after the dispatcher as before. *)
Lemma after_request_client : forall rt st ifname data,
  client (after_request rt st ifname data) = client st.
Proof.
  intros. unfold after_request.
  destruct (NewRequest_error rt _ _); reflexivity.
Qed.

Lemma interfaceRequest_client : forall rt ifname req rsp st,
  client (snd (interfaceRequest rt ifname req rsp st)) = client st.
Proof.
  intros. rewrite interfaceRequest_run.
  destruct (json.Marshal _ _ req); cbn [snd];
    [apply after_request_client | reflexivity].
Qed.

(** The dispatcher sends at most one request, to the address of the
    operation. *)
Lemma after_request_sent : forall rt st ifname data,
  exists l,
    sent (after_request rt st ifname data) = (sent st ++ l)%list /\
    (List.length l <= 1)%nat /\
    Forall (fun r => URL r = target_URL (host (client st)) ifname) l.
Proof.
  intros. unfold after_request.
  destruct (NewRequest_error rt _ _).
  - exists []. rewrite app_nil_r. repeat split; auto.
  - exists [http_request rt st ifname data]. cbn [sent].
    repeat split; auto.
Qed.

Lemma interfaceRequest_sent : forall rt ifname req rsp st,
  exists l,
    sent (snd (interfaceRequest rt ifname req rsp st)) = (sent st ++ l)%list /\
    (List.length l <= 1)%nat /\
    Forall (fun r => URL r = target_URL (host (client st)) ifname) l.
Proof.
  intros. rewrite interfaceRequest_run.
  destruct (json.Marshal _ _ req); cbn [snd].
  - apply after_request_sent.
  - exists []. rewrite app_nil_r. repeat split; auto.
Qed.

(** What an operation returns once its response has been received. *)
Lemma invoke_received : forall rt c st body,
  response_body rt c st = Some body ->
  fst (invoke rt c st) =
  match json.Unmarshal (ParseFloat32 rt) body (zero (response_type c)) with
  | (rsp', Some e) => (rsp', Some (errorString (decoding_message rt rsp' e)))
  | (rsp', None) => (rsp', None)
  end.
Proof.
  intros rt c st body Hbody.
  rewrite invoke_dispatch, interfaceRequest_run.
  unfold response_body in Hbody.
  destruct (json.Marshal _ _ _) as [data|e]; [|discriminate].
  cbn [fst].
  destruct (reply rt st (operation_name c) data) as [b|e]; [|discriminate].
  injection Hbody as ->. reflexivity.
Qed.

(* ------------------------------------------------------------------ *)
(** ** The decoder *)

Lemma index_where_none : forall (A : Type) (p : A -> bool) (l : list A),
  forallb (fun x => negb (p x)) l = true -> json.index_where p l = None.
Proof.
  induction l as [|x l IH]; cbn; [reflexivity|].
  intros H. apply andb_prop in H as [Hx Hl].
  apply negb_true_iff in Hx. rewrite Hx, (IH Hl). reflexivity.
Qed.

(** No key stands for a field of a struct whose fields are all hidden. *)
Lemma find_field_hidden : forall key (fs : list (FieldInfo * GoVal)),
  forallb (fun f => negb (json.visible (fst f))) fs = true ->
  json.find_field key fs = None.
Proof.
  intros key fs H. unfold json.find_field.
  rewrite !index_where_none; [reflexivity| |].
  - apply forallb_forall. intros f Hf.
    rewrite forallb_forall in H. specialize (H f Hf).
    apply negb_true_iff in H. rewrite H. reflexivity.
  - apply forallb_forall. intros f Hf.
    rewrite forallb_forall in H. specialize (H f Hf).
    apply negb_true_iff in H. rewrite H. reflexivity.
Qed.

(** Decoding stores nothing into a struct whose fields are all hidden,
    whatever the value decoded. *)
Lemma decode_hidden : forall pf v,
  hidden v = true ->
  forall ctx j, fst (json.decode pf ctx j v) = v.
Proof.
  intros pf v Hv ctx j.
  destruct v as [b|n bits z|f|s|e l|n fs]; try discriminate.
  cbn [hidden] in Hv.
  destruct j as [| | |lit|raw|js|ms]; cbn [json.decode fst]; try reflexivity.
  match goal with
  | |- fst (let '(_, _) := ?F ms fs in _) = _ =>
      assert (Hm : F ms fs = (fs, None))
  end.
  { induction ms as [|[k jv] ms IH]; [reflexivity|].
    rewrite (find_field_hidden _ _ Hv). exact IH. }
  rewrite Hm. reflexivity.
Qed.

Lemma Unmarshal_hidden : forall pf body v,
  hidden v = true -> fst (json.Unmarshal pf body v) = v.
Proof.
  intros pf body v Hv. unfold json.Unmarshal.
  destruct (json.checkValid _); [reflexivity|].
  destruct (json.parse _); [|reflexivity].
  now apply decode_hidden.
Qed.

(** A text the scanner rejects is not decoded. *)
Lemma Unmarshal_invalid : forall pf body v,
  json.Valid body = false ->
  exists e, json.checkValid (Bytes.of_string body) = Some e /\
            json.Unmarshal pf body v = (v, Some e).
Proof.
  intros pf body v H. unfold json.Valid in H. unfold json.Unmarshal.
  destruct (json.checkValid _) as [e|]; [|discriminate].
  exists e. split; reflexivity.
Qed.

(* ------------------------------------------------------------------ *)
(** ** The encoder *)

Lemma encode_strings : forall ef ff l,
  exists s, json.encode ef ff (strings l) = inl s.
Proof.
  intros ef ff [l|]; [|eexists; reflexivity].
  unfold strings. cbn [option_map json.encode].
  match goal with
  | |- exists s, match ?F (map VString l) true with _ => _ end = _ =>
      assert (H : forall b, exists s, F (map VString l) b = inl s)
  end.
  { induction l as [|x l IH]; intros b; [eexists; reflexivity|].
    cbn [map json.encode]. destruct (IH false) as [s Hs]. rewrite Hs.
    eexists; reflexivity. }
  destruct (H true) as [s Hs]. rewrite Hs. eexists; reflexivity.
Qed.

(** The request of every operation can be encoded: [json.Marshal] has
    no error to return to the dispatcher. *)
Lemma Marshal_request : forall rt y c,
  exists data,
    json.Marshal (encodeFloat32 rt) (FormatFloat32 rt) (request_of y c)
    = inl data.
Proof.
  intros rt y c. unfold request_of, json.Marshal.
  generalize (strconv.Itoa (int_of_uint32 (appID (appSign y)))) as a.
  intros a.
  destruct c; cbn -[strings json.encode_string strconv.FormatInt];
    repeat match goal with
    | |- context [json.encode ?ef ?ff (strings ?l)] =>
        let s := fresh "s" in let H := fresh "H" in
        destruct (encode_strings ef ff l) as [s H]; rewrite H
    | |- context [String.eqb ?x ""] => destruct (String.eqb x "")
    | |- context [?x =? 0] => destruct (x =? 0)
    end;
    eexists; reflexivity.
Qed.

(* ================================================================== *)
(** * What the specification states *)
(* ================================================================== *)

(** C1.  The string [orignalSign] builds is exactly
    [a=<appID>&k=<secretID>&e=<expiry>&t=<t>&r=<r>&u=<userID>&f=], the
    fields in that order, separated by [&] and [=], the last one always
    empty, where [t] is the time read from the clock and [r] the nonce
    drawn; for appID 1, secretID [k], expiry 100, t 1000, r 5 and userID
    [u] it is [a=1&k=k&e=100&t=1000&r=5&u=u&f=]. *)
Theorem orignalSign_canonical_string :
  (forall rt st,
     fst (orignalSign rt st) =
     "a=" ++ decimal (appID (appSign (client st)))
       ++ "&k=" ++ secretID (appSign (client st))
       ++ "&e=" ++ decimal (expired (appSign (client st)))
       ++ "&t=" ++ decimal (time_read rt st)
       ++ "&r=" ++ decimal (nonce_drawn rt st)
       ++ "&u=" ++ userID (appSign (client st)) ++ "&f=") /\
  canonical_string 1 "k" 100 1000 5 "u" = "a=1&k=k&e=100&t=1000&r=5&u=u&f=" /\
  fst (orignalSign (world "") (start client1))
  = "a=1&k=k&e=100&t=1000&r=5&u=u&f=".
Proof.
  split; [|split].
  - intros rt st. rewrite orignalSign_run. reflexivity.
  - vm_compute. reflexivity.
  - vm_compute. reflexivity.
Qed.

(** C2.  The token [sign] returns is the standard Base64 encoding of the
    HMAC-SHA1 digest of the canonical string under the secret key,
    followed directly by the bytes of the canonical string: the digest
    first, 20 bytes long, and no delimiter.  It is a function of the
    credential, the time and the nonce only, so with those fixed it is
    the same byte for byte. *)
Theorem sign_token :
  forall rt st,
    let cred := appSign (client st) in
    let canonical :=
      canonical_string (appID cred) (secretID cred) (expired cred)
        (time_read rt st) (nonce_drawn rt st) (userID cred) in
    let digest :=
      hmac.HMAC_SHA1_spec (Bytes.of_string (secretKey cred))
        (Bytes.of_string canonical) in
    fst (sign rt st)
    = base64.encode (digest ++ Bytes.of_string canonical)%list /\
    List.length digest = 20%nat /\
    (forall rt' st',
       appSign (client st') = cred ->
       time_read rt' st' = time_read rt st ->
       nonce_drawn rt' st' = nonce_drawn rt st ->
       fst (sign rt' st') = fst (sign rt st)).
Proof.
  intros rt st cred canonical digest.
  split; [|split].
  - rewrite sign_run, orignalSign_run. cbn [fst].
    unfold token_of, base64.EncodeToString.
    rewrite of_string_app, of_string_to_string; [reflexivity|].
    apply Sum1_bytes.
  - apply HMAC_SHA1_length.
  - intros rt' st' Hc Ht Hn.
    rewrite !sign_run, !orignalSign_run. cbn [fst].
    rewrite Hc, Ht, Hn. reflexivity.
Qed.

(** The token of the fixture, as HMAC-SHA1 and Base64 give it. *)
Lemma sign_token_witness :
  fst (sign (world "") (start client1))
  = "Bnxzm1BBZY5hVM3tInTbBeTLWKhhPTEmaz1rJmU9MTAwJnQ9MTAwMCZyPTUmdT11JmY9" /\
  fst (sign (world body_html) (start (Init credential1 "localhost")))
  = fst (sign (world "") (start client1)).
Proof.
  split.
  - vm_compute. reflexivity.
  - apply (proj2 (proj2 (sign_token (world "") (start client1)))
             (world body_html) (start (Init credential1 "localhost")));
      reflexivity.
Defined.

(** C3.  [NewAppSign] fails with [ErrUserIDTooLong] on a user identifier
    longer than 110 and succeeds on one of length 110 or less; the length
    is the one Go's [len] gives, the number of 8-bit characters of the
    string.  The bound is checked nowhere else: [Init] takes any
    credential, and signing writes the identifier of any credential
    whatever its length. *)
Theorem NewAppSign_length_bound :
  forall (id : Z) (sid key : string) (exp : Z) (uid : string),
    ((110 < String.length uid)%nat ->
     NewAppSign id sid key exp uid = (AppSign_zero, Some ErrUserIDTooLong)) /\
    ((String.length uid <= 110)%nat ->
     NewAppSign id sid key exp uid
     = ({| appID := id; secretID := sid; secretKey := key; expired := exp;
           userID := uid |}, None)) /\
    (forall (cred : AppSign) host rt,
       appSign (Init cred host) = cred /\
       fst (orignalSign rt (start (Init cred host)))
       = canonical_string (appID cred) (secretID cred) (expired cred)
           (time_read rt (start (Init cred host)))
           (nonce_drawn rt (start (Init cred host))) (userID cred)).
Proof.
  intros id sid key exp uid. unfold NewAppSign, UserIDMaxLen, Bytes.len.
  split; [|split].
  - intros H.
    destruct (Z.of_nat (String.length uid) >? 110) eqn:E; [reflexivity|].
    rewrite Z.gtb_ltb in E. apply Z.ltb_ge in E. lia.
  - intros H.
    destruct (Z.of_nat (String.length uid) >? 110) eqn:E; [|reflexivity].
    rewrite Z.gtb_ltb in E. apply Z.ltb_lt in E. lia.
  - intros cred h rt. split; [reflexivity|].
    rewrite orignalSign_run. reflexivity.
Qed.

(** An identifier of 111 characters is refused, one of 110 accepted. *)
Lemma NewAppSign_length_bound_witness :
  NewAppSign 1 "k" "sk" 100 (long_id 111)
  = (AppSign_zero, Some ErrUserIDTooLong) /\
  NewAppSign 1 "k" "sk" 100 (long_id 110)
  = ({| appID := 1; secretID := "k"; secretKey := "sk"; expired := 100;
        userID := long_id 110 |}, None).
Proof.
  split.
  - apply (proj1 (NewAppSign_length_bound 1 "k" "sk" 100 (long_id 111))).
    vm_compute. lia.
  - apply (proj1 (proj2
             (NewAppSign_length_bound 1 "k" "sk" 100 (long_id 110)))).
    vm_compute. lia.
Defined.

(** C4.  A status code of the service other than zero is no error of
    the operation and is to be found in the response returned, for every
    operation; thirteen operations do so.  [SetInfo] does not: the fields
    of [SetInfoRsp] carry the tags of the four members of the response
    but are unexported, and the decoder stores nothing into them.  On a
    body that decodes and carries the status code 7, [SetInfo] returns a
    nil error and a response whose status code is 0 and whose message is
    empty; each of the thirteen other operations, on the same body,
    returns a nil error and the status code 7 in its response. *)
Theorem SetInfo_drops_status_code :
  response_body (world body_status_7) (CallSetInfo "p1" "Alice" "")
    (start client1) = Some body_status_7 /\
  json.Unmarshal (ParseFloat32 (world body_status_7)) body_status_7
    (zero SetInfoRsp) = (zero SetInfoRsp, None) /\
  fst (SetInfo (world body_status_7) "p1" "Alice" "" (start client1))
  = (zero SetInfoRsp, None) /\
  field (zero SetInfoRsp) "errorcode" = Some (VInt "int32" 32 0) /\
  field (zero SetInfoRsp) "errormsg" = Some (VString "") /\
  fst (invoke (world body_status_7) call_newperson (start client1))
  = (rsp_status_7, None) /\
  field rsp_status_7 "ErrorCode" = Some (VInt "int" 64 7) /\
  map operation_name sibling_calls
  = filter (fun n => negb (String.eqb n "setinfo")) operation_names /\
  forallb (fun c => returned_status 7
                      (fst (invoke (world body_status_7) c (start client1))))
    sibling_calls = true.
Proof.
  split; [|split; [|split; [|split; [|split; [|split; [|split; [|split]]]]]]];
    vm_compute; reflexivity.
Qed.

(** C5.  The error of a failed decoding is to hold the body received
    and the error of the decoder.  The dispatcher hands [Errorf] the
    response struct where the body is meant, under the verb [s]: to a
    body that is not JSON, [GetGroupIDs] answers with an error whose
    message holds the struct, with the mark package [fmt] leaves for a
    verb applied to an operand of the wrong type, and the error of the
    decoder, and not the body.  So does every operation on that body, and
    so do the thirteen operations with a status field on a body that has
    a string for the status code. *)
Theorem decoding_error_omits_body :
  json.Valid body_html = false /\
  response_body (world body_html) CallGetGroupIDs (start client1)
  = Some body_html /\
  snd (fst (invoke (world body_html) CallGetGroupIDs (start client1)))
  = Some (errorString
            ("json.Unmarshal() rsp: &{[] %!s(int32=0) } failed: "
             ++ "invalid character '<' looking for beginning of value"
             ++ newline)) /\
  Bytes.contains
    ("json.Unmarshal() rsp: &{[] %!s(int32=0) } failed: "
     ++ "invalid character '<' looking for beginning of value" ++ newline)
    body_html = false /\
  map operation_name every_call = operation_names /\
  forallb (fun c =>
             failed_without_body
               "invalid character '<' looking for beginning of value"
               body_html
               (fst (invoke (world body_html) c (start client1))))
    every_call = true /\
  forallb (fun c =>
             failed_without_body
               "json: cannot unmarshal string into Go struct field "
               body_wrong_kind
               (fst (invoke (world body_wrong_kind) c (start client1))))
    sibling_calls = true.
Proof.
  split; [|split; [|split; [|split; [|split; [|split]]]]];
    vm_compute; reflexivity.
Qed.

(** C6.  For every operation name and every host, the address the
    dispatcher builds is [http://<host>/youtu/api/<operationName>], and
    it is the address of the one request the dispatcher sends, if it
    sends one. *)
Theorem interfaceURL_template :
  forall rt ifname st,
    fst (interfaceURL rt ifname st)
    = "http://" ++ host (client st) ++ "/youtu/api/" ++ ifname /\
    (forall req rsp, exists l,
       sent (snd (interfaceRequest rt ifname req rsp st))
       = (sent st ++ l)%list /\
       Forall (fun r => URL r
                        = "http://" ++ host (client st) ++ "/youtu/api/"
                            ++ ifname) l).
Proof.
  intros rt ifname st. split.
  - rewrite interfaceURL_run. reflexivity.
  - intros req rsp.
    destruct (interfaceRequest_sent rt ifname req rsp st) as [l [H1 [_ H3]]].
    exists l. split; assumption.
Qed.

Lemma Itoa_uint32 : forall x,
  is_uint32 x = true -> strconv.Itoa (int_of_uint32 x) = decimal x.
Proof.
  intros x H. unfold is_uint32 in H.
  apply andb_prop in H as [H0 H1].
  apply Z.leb_le in H0. apply Z.ltb_lt in H1.
  assert (E : to_int64 x = x).
  { unfold to_int64. rewrite Z.mod_small; lia. }
  unfold strconv.Itoa, int_of_uint32, decimal. now rewrite !E.
Qed.

Lemma operation_name_listed : forall c, In (operation_name c) operation_names.
Proof.
  intros c. unfold operation_names.
  destruct c; cbn [operation_name In]; tauto.
Qed.

Lemma request_shape_app_id : forall a c,
  field (request_shape a c) "AppID" = Some (VString a).
Proof. intros a c. destruct c; reflexivity. Qed.

(** C7.  Every operation (the source has fourteen) fills the request of
    its kind with the arguments of the caller and, as [app_id], the
    application identifier of the credential in decimal; it calls the
    dispatcher once, under its own fixed name, and what it returns, error
    included, is what the dispatcher returns; at most one request is
    sent. *)
Theorem operations_are_thin :
  forall rt c st,
    is_uint32 (appID (appSign (client st))) = true ->
    invoke rt c st
    = interfaceRequest rt (operation_name c)
        (request_shape (decimal (appID (appSign (client st)))) c)
        (zero (response_type c)) st /\
    field (request_shape (decimal (appID (appSign (client st)))) c) "AppID"
    = Some (VString (decimal (appID (appSign (client st))))) /\
    In (operation_name c) operation_names /\
    exists l,
      sent (snd (invoke rt c st)) = (sent st ++ l)%list /\
      (List.length l <= 1)%nat.
Proof.
  intros rt c st Hid.
  split; [|split; [|split]].
  - rewrite invoke_dispatch. unfold request_of.
    now rewrite (Itoa_uint32 _ Hid).
  - apply request_shape_app_id.
  - apply operation_name_listed.
  - rewrite invoke_dispatch.
    destruct (interfaceRequest_sent rt (operation_name c)
                (request_of (client st) c) (zero (response_type c)) st)
      as [l [H1 [H2 _]]].
    exists l. split; assumption.
Qed.

(** [NewPerson] on the fixture: the request handed to the dispatcher. *)
Lemma operations_are_thin_witness :
  invoke (world body_status_7) call_newperson (start client1)
  = interfaceRequest (world body_status_7) "newperson"
      (VStruct "newPersonReq"
         [fv "AppID" "app_id" (VString "1");
          fv "Image" "image" (VString "aW1n");
          fv "PersonID" "person_id" (VString "p1");
          fv "GroupIDs" "group_ids" (strings (Some ["g1"]));
          fv "PersonName" "person_name,omitempty" (VString "Alice");
          fv "Tag" "tag,omitempty" (VString "")])
      (zero NewPersonRsp) (start client1).
Proof.
  apply (proj1 (operations_are_thin (world body_status_7) call_newperson
                  (start client1) eq_refl)).
Defined.

(** C8.  [EncodeImage] on a file that can be read returns the standard
    Base64 encoding of its bytes and a nil error; on a file that cannot,
    the empty string and the error of the reading, as it is. *)
Theorem EncodeImage_result :
  forall rt file st,
    (forall buf,
       ReadFile rt file = inl buf ->
       EncodeImage rt file st = ((base64.EncodeToString buf, None), st)) /\
    (forall e,
       ReadFile rt file = inr e ->
       EncodeImage rt file st = (("", Some e), st)).
Proof.
  intros rt file st.
  unfold EncodeImage, bind, ioutil_ReadFile, ret.
  split; intros x Hx; rewrite Hx; reflexivity.
Qed.

(** A file holding [Man] is encoded as [TWFu]; a missing file gives the
    error of opening it. *)
Lemma EncodeImage_result_witness :
  EncodeImage (world "") "face.jpg" (start client1)
  = (("TWFu", None), start client1) /\
  EncodeImage (world "") "none.jpg" (start client1)
  = (("", Some (PathError "open" "none.jpg" "no such file or directory")),
     start client1).
Proof.
  split.
  - apply (proj1 (EncodeImage_result (world "") "face.jpg" (start client1))
             "Man").
    reflexivity.
  - apply (proj2 (EncodeImage_result (world "") "none.jpg" (start client1))).
    reflexivity.
Defined.

(** C9.  No operation changes the client: after every call the
    credential (application identifier, secret identifier, secret key,
    expiry, user identifier) and the host are what they were before; and
    so after signing and after encoding an image.  (The random source of
    package [math/rand], which is not part of the client, is reseeded.) *)
Theorem operations_leave_client :
  forall rt st,
    (forall c, client (snd (invoke rt c st)) = client st) /\
    client (snd (sign rt st)) = client st /\
    (forall file, client (snd (EncodeImage rt file st)) = client st) /\
    globalRand (snd (sign rt st)) = (time_read rt st, 1%nat).
Proof.
  intros rt st. split; [|split; [|split]].
  - intros c. rewrite invoke_dispatch. apply interfaceRequest_client.
  - rewrite sign_run, orignalSign_run. reflexivity.
  - intros file. unfold EncodeImage, bind, ioutil_ReadFile, ret.
    destruct (ReadFile rt file); reflexivity.
  - rewrite sign_run, orignalSign_run. reflexivity.
Qed.

(** C10.  Every field of [SetInfoRsp] is unexported, so the decoder
    stores nothing into it: whatever the body of the response, valid
    JSON or not, [SetInfo] returns the zero value of [SetInfoRsp]; so it
    does for a body that carries a person and a status code. *)
Theorem SetInfo_response_is_zero :
  (forall rt personID personName tag st,
     fst (fst (SetInfo rt personID personName tag st)) = zero SetInfoRsp) /\
  match SetInfoRsp with
  | TStruct _ fs => forallb (fun f => negb (exported (fst f))) fs
  | _ => false
  end = true /\
  fst (SetInfo (world body_status_7) "p1" "Alice" "" (start client1))
  = (zero SetInfoRsp, None).
Proof.
  split; [|split; vm_compute; reflexivity].
  intros rt personID personName tag st.
  change (SetInfo rt personID personName tag)
    with (invoke rt (CallSetInfo personID personName tag)).
  rewrite invoke_dispatch, interfaceRequest_run.
  cbn [response_type].
  destruct (json.Marshal _ _ _) as [data|e]; [|reflexivity].
  cbn [fst].
  destruct (reply rt st _ data) as [body|e]; [|reflexivity].
  pose proof (Unmarshal_hidden (ParseFloat32 rt) body (zero SetInfoRsp)
                eq_refl) as H.
  destruct (json.Unmarshal _ body (zero SetInfoRsp)) as [rsp [e|]];
    cbn [fst] in *; exact H.
Qed.

(* ================================================================== *)
(** * Further properties of the code *)
(* ================================================================== *)

Lemma of_string_bytes : forall s, Forall is_byte (Bytes.of_string s).
Proof.
  induction s as [|c s IH]; cbn; constructor; [|exact IH].
  unfold is_byte, Bytes.code. split; [apply N2Z.is_nonneg|].
  change 256 with (Z.of_N 256). apply N2Z.inj_lt. apply N_ascii_bounded.
Qed.

Lemma to_string_of_string : forall s, Bytes.to_string (Bytes.of_string s) = s.
Proof.
  induction s as [|c s IH]; cbn; [reflexivity|]. rewrite IH. f_equal.
  unfold Bytes.chr, Bytes.code.
  rewrite Z.mod_small.
  - rewrite N2Z.id. apply ascii_N_embedding.
  - split; [apply N2Z.is_nonneg|].
    change 256 with (Z.of_N 256). apply N2Z.inj_lt. apply N_ascii_bounded.
Qed.

(** The result and the state of an operation whose request is [data]. *)
Lemma invoke_run : forall rt c st data,
  json.Marshal (encodeFloat32 rt) (FormatFloat32 rt)
    (request_of (client st) c) = inl data ->
  invoke rt c st =
  (match reply rt st (operation_name c) data with
   | inr e => (zero (response_type c), Some e)
   | inl body =>
       match json.Unmarshal (ParseFloat32 rt) body (zero (response_type c))
       with
       | (rsp', Some e) =>
           (rsp', Some (errorString (decoding_message rt rsp' e)))
       | (rsp', None) => (rsp', None)
       end
   end, after_request rt st (operation_name c) data).
Proof.
  intros rt c st data H.
  rewrite invoke_dispatch, interfaceRequest_run, H. reflexivity.
Qed.

(** X1.  For every operation: when the transport fails, because the
    request is refused, cannot be sent, or its response cannot be read,
    the operation returns the zero value of its response and that very
    error, neither wrapped nor retried. *)
Theorem transport_error_is_returned :
  forall rt c st e,
    transport_failure rt c st = Some e ->
    fst (invoke rt c st) = (zero (response_type c), Some e).
Proof.
  intros rt c st e H. unfold transport_failure in H.
  destruct (json.Marshal _ _ _) as [data|] eqn:Hm; [|discriminate].
  rewrite (invoke_run _ _ _ _ Hm).
  destruct (reply rt st (operation_name c) data); [discriminate|].
  injection H as ->. reflexivity.
Qed.

Lemma transport_error_is_returned_witness :
  fst (invoke (world_of None (inr connection_refused)) CallGetGroupIDs
         (start client1))
  = (zero GetGroupIDsRsp, Some connection_refused) /\
  fst (invoke (world_of None (inl (inr connection_refused)))
         call_newperson (start client1))
  = (zero NewPersonRsp, Some connection_refused).
Proof.
  split.
  - apply (transport_error_is_returned
             (world_of None (inr connection_refused)) CallGetGroupIDs
             (start client1) connection_refused).
    vm_compute. reflexivity.
  - apply (transport_error_is_returned
             (world_of None (inl (inr connection_refused))) call_newperson
             (start client1) connection_refused).
    vm_compute. reflexivity.
Defined.

(** X2.  When [http.NewRequest] refuses the address, an operation
    returns that error with the zero value of its response and leaves
    the state as it was: the clock is not read, the random source is not
    reseeded, nothing is signed and nothing is sent. *)
Theorem rejected_address_sends_nothing :
  forall rt c st e,
    NewRequest_error rt "POST"
      ("http://" ++ host (client st) ++ "/youtu/api/" ++ operation_name c)
    = Some e ->
    invoke rt c st = ((zero (response_type c), Some e), st).
Proof.
  intros rt c st e H.
  destruct (Marshal_request rt (client st) c) as [data Hm].
  rewrite (invoke_run _ _ _ _ Hm).
  unfold reply, after_request, target_URL. rewrite H. reflexivity.
Qed.

Lemma rejected_address_sends_nothing_witness :
  invoke (world_of (Some invalid_address) (inl (inl body_status_7)))
    call_newperson (start (Init credential1 "bad host"))
  = ((zero NewPersonRsp, Some invalid_address),
     start (Init credential1 "bad host")).
Proof.
  apply (rejected_address_sends_nothing
           (world_of (Some invalid_address) (inl (inl body_status_7)))
           call_newperson (start (Init credential1 "bad host"))
           invalid_address).
  reflexivity.
Defined.

(** X3.  When the address is accepted, an operation sends exactly one
    request: a POST to [http://<host>/youtu/api/<name>] whose body is the
    JSON text of its request and whose headers are [Authorization], the
    token signed in the state before the call, [Content-Type: text/json],
    an empty [User-Agent], [Accept: */*] and [Expect: 100-continue], in
    that order; the clock is read once and the shared random source is
    left seeded with the time read, one value drawn. *)
Theorem operation_sends_one_signed_post :
  forall rt c st,
    NewRequest_error rt "POST"
      ("http://" ++ host (client st) ++ "/youtu/api/" ++ operation_name c)
    = None ->
    exists data,
      json.Marshal (encodeFloat32 rt) (FormatFloat32 rt)
        (request_of (client st) c) = inl data /\
      snd (invoke rt c st) =
      {| client := client st;
         globalRand := (time_read rt st, 1%nat);
         clock_reads := S (clock_reads st);
         sent :=
           (sent st ++
            [{| Method := "POST";
                URL := "http://" ++ host (client st) ++ "/youtu/api/"
                         ++ operation_name c;
                Header := [("Authorization", fst (sign rt st));
                           ("Content-Type", "text/json");
                           ("User-Agent", "");
                           ("Accept", "*/*");
                           ("Expect", "100-continue")];
                Body := data |}])%list |}.
Proof.
  intros rt c st H.
  destruct (Marshal_request rt (client st) c) as [data Hm].
  exists data. split; [exact Hm|].
  rewrite (invoke_run _ _ _ _ Hm). cbn [snd].
  unfold after_request, target_URL. rewrite H. reflexivity.
Qed.

Lemma operation_sends_one_signed_post_witness :
  exists data,
    json.Marshal (encodeFloat32 (world body_status_7))
      (FormatFloat32 (world body_status_7))
      (request_of (client (start client1)) call_newperson) = inl data /\
    snd (invoke (world body_status_7) call_newperson (start client1)) =
    {| client := client1;
       globalRand := (1000, 1%nat);
       clock_reads := 1;
       sent :=
         [{| Method := "POST";
             URL := "http://api.youtu.qq.com/youtu/api/newperson";
             Header := [("Authorization",
                         fst (sign (world body_status_7) (start client1)));
                        ("Content-Type", "text/json");
                        ("User-Agent", "");
                        ("Accept", "*/*");
                        ("Expect", "100-continue")];
             Body := data |}] |}.
Proof.
  apply (operation_sends_one_signed_post (world body_status_7)
           call_newperson (start client1)).
  reflexivity.
Defined.

(** X4.  The random source is reseeded from the clock at every
    signature, so the token depends on the credential and on the second
    read and on nothing else: two signatures of one credential that read
    the same second are the same token, whatever the random source had
    drawn before. *)
Theorem same_second_same_token :
  forall rt st st',
    appSign (client st') = appSign (client st) ->
    clock rt (clock_reads st') = clock rt (clock_reads st) ->
    fst (sign rt st') = fst (sign rt st).
Proof.
  intros rt st st' Hc Ht.
  rewrite !sign_run, !orignalSign_run. cbn [fst].
  unfold nonce_drawn, time_read. rewrite Hc, Ht. reflexivity.
Qed.

Lemma same_second_same_token_witness :
  fst (sign (world "") (snd (sign (world "") (start client1))))
  = fst (sign (world "") (start client1)) /\
  globalRand (snd (sign (world "") (start client1)))
  <> globalRand (start client1).
Proof.
  split.
  - apply (same_second_same_token (world "")
             (start client1) (snd (sign (world "") (start client1))));
      reflexivity.
  - vm_compute. discriminate.
Defined.

(** X5.  The token can be verified: decoding it as Base64 gives bytes
    whose tail after the first 20 is the canonical string, and whose
    first 20 are the HMAC-SHA1, under the secret key, of that tail. *)
Theorem token_decodes_to_canonical :
  forall rt st,
    exists bs,
      base64.decode_rfc4648 (fst (sign rt st)) = Some bs /\
      Bytes.to_string (skipn 20 bs) = fst (orignalSign rt st) /\
      firstn 20 bs
      = hmac.HMAC_SHA1_spec
          (Bytes.of_string (secretKey (appSign (client st)))) (skipn 20 bs).
Proof.
  intros rt st.
  set (canonical := fst (orignalSign rt st)).
  set (digest := hmac.HMAC_SHA1_spec
                   (Bytes.of_string (secretKey (appSign (client st))))
                   (Bytes.of_string canonical)).
  assert (Hlen : List.length digest = 20%nat) by apply HMAC_SHA1_length.
  exists (digest ++ Bytes.of_string canonical)%list.
  assert (Hskip : skipn 20 (digest ++ Bytes.of_string canonical)
                  = Bytes.of_string canonical).
  { rewrite <- Hlen, skipn_app, skipn_all, Nat.sub_diag. reflexivity. }
  split; [|split].
  - rewrite sign_run. cbn [fst]. fold canonical.
    unfold token_of, base64.EncodeToString.
    rewrite of_string_app, of_string_to_string by apply Sum1_bytes.
    apply base64_roundtrip. apply Forall_app. split.
    + apply Sum1_bytes.
    + apply of_string_bytes.
  - rewrite Hskip. apply to_string_of_string.
  - rewrite Hskip, <- Hlen, firstn_app, firstn_all, Nat.sub_diag.
    cbn [firstn]. now rewrite app_nil_r.
Qed.

(** X6.  What [EncodeImage] returns for a file it could read decodes,
    as Base64, to the bytes of the file. *)
Theorem EncodeImage_roundtrip :
  forall rt file buf st,
    ReadFile rt file = inl buf ->
    snd (fst (EncodeImage rt file st)) = None /\
    option_map Bytes.to_string
      (base64.decode_rfc4648 (fst (fst (EncodeImage rt file st))))
    = Some buf.
Proof.
  intros rt file buf st H.
  unfold EncodeImage, bind, ioutil_ReadFile, ret. rewrite H.
  cbn [fst snd]. split; [reflexivity|].
  unfold base64.EncodeToString.
  rewrite base64_roundtrip by apply of_string_bytes.
  cbn [option_map]. f_equal. apply to_string_of_string.
Qed.

Lemma EncodeImage_roundtrip_witness :
  snd (fst (EncodeImage (world "") "face.jpg" (start client1))) = None /\
  option_map Bytes.to_string
    (base64.decode_rfc4648
       (fst (fst (EncodeImage (world "") "face.jpg" (start client1)))))
  = Some "Man".
Proof.
  apply (EncodeImage_roundtrip (world "") "face.jpg" "Man" (start client1)).
  reflexivity.
Defined.

(** X7.  For an application identifier in the range of [uint32], the
    string [appID()] returns reads back as the identifier, and it is the
    [AppID] field of the request of every operation. *)
Theorem appID_reads_back :
  forall st,
    is_uint32 (appID (appSign (client st))) = true ->
    strconv.ParseInt (fst (Youtu_appID st))
    = Some (appID (appSign (client st))) /\
    (forall c, field (request_of (client st) c) "AppID"
               = Some (VString (fst (Youtu_appID st)))).
Proof.
  intros st H. unfold Youtu_appID, bind, getY, ret. cbn [fst].
  split.
  - rewrite (Itoa_uint32 _ H). unfold decimal.
    apply ParseInt_FormatInt.
    unfold is_uint32 in H. apply andb_prop in H as [H0 H1].
    apply Z.leb_le in H0. apply Z.ltb_lt in H1.
    unfold is_int64. apply andb_true_intro.
    split; [apply Z.leb_le | apply Z.ltb_lt]; lia.
  - intros c. unfold request_of. apply request_shape_app_id.
Qed.

Lemma appID_reads_back_witness :
  strconv.ParseInt
    (fst (Youtu_appID (start (Init
       {| appID := 4294967295; secretID := "k"; secretKey := "sk";
          expired := 0; userID := "u" |} DefaultHost))))
  = Some 4294967295.
Proof.
  apply (proj1 (appID_reads_back (start (Init
       {| appID := 4294967295; secretID := "k"; secretKey := "sk";
          expired := 0; userID := "u" |} DefaultHost)) eq_refl)).
Defined.

(* ------------------------------------------------------------------ *)

Lemma encode_strings_text : forall ef ff l,
  json.encode ef ff (strings l) = inl (strings_json l).
Proof.
  intros ef ff [l|]; [|reflexivity].
  unfold strings, strings_json. cbn [option_map json.encode].
  match goal with
  | |- match ?F (map VString l) true with _ => _ end = _ =>
      assert (H : forall b,
                F (map VString l) b
                = inl (match l with
                       | [] => ""
                       | _ => (if b then "" else ",") ++ strings_elems l
                       end))
  end.
  { induction l as [|x l IH]; intros b; [reflexivity|].
    cbn [map json.encode]. rewrite (IH false).
    destruct l as [|y l].
    - cbn [strings_elems]. now rewrite append_empty.
    - cbn [strings_elems append]. reflexivity. }
  rewrite (H true). destruct l; reflexivity.
Qed.

Lemma append_assoc : forall a b c : string, (a ++ b) ++ c = a ++ (b ++ c).
Proof.
  induction a as [|x a IH]; intros b c; cbn; [reflexivity|].
  now rewrite IH.
Qed.

(** The text of a closed string is computed; appends are nested to the
    right. *)
Ltac json_text :=
  repeat match goal with
         | |- context [json.encode_string (String ?c ?s)] =>
             let v := eval vm_compute in (json.encode_string (String c s)) in
             change (json.encode_string (String c s)) with v
         | |- context [q (String ?c ?s)] =>
             let v := eval vm_compute in (q (String c s)) in
             change (q (String c s)) with v
         end;
  repeat first [rewrite !append_assoc | progress cbn [append]].

(** X8.  The body of the request of every operation: a JSON object with
    [app_id] first and then the fields in the order of the struct; the
    fields tagged [omitempty] ([mode], [person_name], [tag]) are left out
    when zero or empty, and a nil slice ([group_ids], [images],
    [face_ids]) is written [null]. *)
Theorem request_wire_text :
  forall rt y c,
    json.Marshal (encodeFloat32 rt) (FormatFloat32 rt) (request_of y c)
    = inl (request_text
             (strconv.Itoa (int_of_uint32 (appID (appSign y)))) c).
Proof.
  intros rt y c.
  unfold request_of, json.Marshal, request_text, member, decimal.
  generalize (strconv.Itoa (int_of_uint32 (appID (appSign y)))) as a.
  intros a.
  destruct c;
    cbn -[json.encode_string strings append q String.eqb Z.eqb
          strconv.FormatInt];
    rewrite ?encode_strings_text;
    repeat match goal with
           | |- context [String.eqb ?x ""] => destruct (String.eqb x "")
           | |- context [?x =? 0] => destruct (x =? 0)
           end;
    cbn -[json.encode_string strings_json append q strconv.FormatInt];
    json_text; reflexivity.
Qed.

(** The bodies of [DetectFace] in its two modes, and of [NewPerson]
    without groups, name or tag. *)
Example request_wire_text_examples :
  request_text "1" (CallDetectFace "aW1n" DetectModeNormal)
  = "{" ++ q "app_id" ++ ":" ++ q "1" ++ "," ++ q "image" ++ ":"
        ++ q "aW1n" ++ "}" /\
  request_text "1" (CallDetectFace "aW1n" DetectModeBigFace)
  = "{" ++ q "app_id" ++ ":" ++ q "1" ++ "," ++ q "image" ++ ":"
        ++ q "aW1n" ++ "," ++ q "mode" ++ ":1}" /\
  request_text "1" (CallNewPerson "aW1n" "p1" None "" "")
  = "{" ++ q "app_id" ++ ":" ++ q "1" ++ "," ++ q "image" ++ ":"
        ++ q "aW1n" ++ "," ++ q "person_id" ++ ":" ++ q "p1" ++ ","
        ++ q "group_ids" ++ ":null}".
Proof. vm_compute. repeat split. Qed.

(* ------------------------------------------------------------------ *)

Lemma zero_response_struct : forall c,
  exists n,
    zero (response_type c)
    = VStruct n (fields_of (zero (response_type c))).
Proof. intros c. destruct c; eexists; reflexivity. Qed.

(** X9.  On an empty body every operation fails with the decoding error
    of an unexpected end of input; on the bodies [null] and [{}] every
    operation returns the zero value of its response and a nil error. *)
Theorem empty_and_null_bodies :
  forall rt c st,
    (response_body rt c st = Some "" ->
     fst (invoke rt c st)
     = (zero (response_type c),
        Some (errorString
                ("json.Unmarshal() rsp: &"
                 ++ fmt.printValue (FormatFloat32 rt) "s"
                      (zero (response_type c))
                 ++ " failed: unexpected end of JSON input" ++ newline)))) /\
    (response_body rt c st = Some "null" ->
     fst (invoke rt c st) = (zero (response_type c), None)) /\
    (response_body rt c st = Some "{}" ->
     fst (invoke rt c st) = (zero (response_type c), None)).
Proof.
  intros rt c st. split; [|split]; intros H;
    rewrite (invoke_received _ _ _ _ H).
  - reflexivity.
  - destruct c; reflexivity.
  - destruct c; reflexivity.
Qed.

Lemma empty_and_null_bodies_witness :
  fst (invoke (world "") CallGetGroupIDs (start client1))
  = (zero GetGroupIDsRsp,
     Some (errorString
             ("json.Unmarshal() rsp: &{[] %!s(int32=0) } failed: "
              ++ "unexpected end of JSON input" ++ newline))) /\
  fst (invoke (world "null") call_newperson (start client1))
  = (zero NewPersonRsp, None) /\
  fst (invoke (world "{}") call_newperson (start client1))
  = (zero NewPersonRsp, None).
Proof.
  split; [|split].
  - apply (proj1 (empty_and_null_bodies (world "") CallGetGroupIDs
                    (start client1))).
    vm_compute. reflexivity.
  - apply (proj1 (proj2 (empty_and_null_bodies (world "null") call_newperson
                           (start client1)))).
    vm_compute. reflexivity.
  - apply (proj2 (proj2 (empty_and_null_bodies (world "{}") call_newperson
                           (start client1)))).
    vm_compute. reflexivity.
Defined.

(** Decoding an object none of whose keys stands for a field stores
    nothing and is no error. *)
Lemma decode_unknown_keys : forall pf ctx n ms fs,
  forallb (unknown_key fs) ms = true ->
  json.decode pf ctx (json.JObject ms) (VStruct n fs) = (VStruct n fs, None).
Proof.
  intros pf ctx n ms fs H. cbn [json.decode].
  match goal with
  | |- (let '(_, _) := ?F ms fs in _) = _ =>
      assert (Hm : F ms fs = (fs, None))
  end.
  { induction ms as [|[k jv] ms IH]; [reflexivity|].
    cbn [forallb] in H. apply andb_prop in H as [Hk Hms].
    unfold unknown_key in Hk. cbn [fst] in Hk.
    destruct (json.find_field (json.unquote k) fs) eqn:E; [discriminate|].
    exact (IH Hms). }
  rewrite Hm. reflexivity.
Qed.

(** X10.  A response whose body is an object with none but unknown keys
    is no error: the operation returns the zero value of its response and
    a nil error. *)
Theorem unknown_keys_are_ignored :
  forall rt c st body ms,
    response_body rt c st = Some body ->
    json.checkValid (Bytes.of_string body) = None ->
    json.parse (Bytes.of_string body) = Some (json.JObject ms) ->
    forallb (unknown_key (fields_of (zero (response_type c)))) ms = true ->
    fst (invoke rt c st) = (zero (response_type c), None).
Proof.
  intros rt c st body ms Hb Hv Hp Hk.
  rewrite (invoke_received _ _ _ _ Hb).
  unfold json.Unmarshal. rewrite Hv, Hp.
  destruct (zero_response_struct c) as [n Hz].
  rewrite Hz in *. cbn [fields_of] in *.
  rewrite (decode_unknown_keys _ _ _ _ _ Hk). reflexivity.
Qed.

Lemma unknown_keys_are_ignored_witness :
  fst (invoke (world body_unknown_keys) CallGetGroupIDs (start client1))
  = (zero GetGroupIDsRsp, None).
Proof.
  apply (unknown_keys_are_ignored (world body_unknown_keys) CallGetGroupIDs
           (start client1) body_unknown_keys
           [(Bytes.of_string "request_id", json.JNumber "17");
            (Bytes.of_string "debug",
             json.JArray [json.JTrue; json.JNull])]);
    vm_compute; reflexivity.
Defined.

(* ------------------------------------------------------------------ *)

Lemma index_where_some : forall (A : Type) (p : A -> bool) l i,
  json.index_where p l = Some i ->
  exists x, nth_error l i = Some x /\ p x = true.
Proof.
  induction l as [|a l IH]; cbn; intros i H; [discriminate|].
  destruct (p a) eqn:E.
  - injection H as <-. exists a. split; [reflexivity | exact E].
  - destruct (json.index_where p l) as [j|]; [|discriminate].
    injection H as <-. cbn. apply IH. reflexivity.
Qed.

Lemma index_where_fst :
  forall (p : FieldInfo -> bool) (fs fs' : list (FieldInfo * GoVal)),
    map fst fs = map fst fs' ->
    json.index_where (fun f => p (fst f)) fs
    = json.index_where (fun f => p (fst f)) fs'.
Proof.
  induction fs as [|a fs IH]; destruct fs' as [|b fs']; cbn; intros H;
    try discriminate; [reflexivity|].
  injection H as H1 H2. rewrite H1, (IH fs' H2). reflexivity.
Qed.

(** The field a key stands for depends on the declarations only. *)
Lemma find_field_fst : forall key (fs fs' : list (FieldInfo * GoVal)),
  map fst fs = map fst fs' ->
  json.find_field key fs = json.find_field key fs'.
Proof.
  intros key fs fs' H. unfold json.find_field.
  pose proof (index_where_fst
                (fun fi => json.visible fi
                           && String.eqb (json.jsonName fi) key) _ _ H) as H1.
  pose proof (index_where_fst
                (fun fi => json.visible fi
                           && String.eqb (json.foldName (json.jsonName fi))
                                (json.foldName key)) _ _ H) as H2.
  cbv beta in H1, H2. rewrite H1, H2. reflexivity.
Qed.

Lemma update_fst : forall (fs : list (FieldInfo * GoVal)) i fi v v',
  nth_error fs i = Some (fi, v) ->
  map fst (json.update fs i (fi, v')) = map fst fs.
Proof.
  induction fs as [|a fs IH]; intros [|i] fi v v' H; cbn in *;
    try discriminate.
  - injection H as ->. reflexivity.
  - f_equal. exact (IH _ _ _ _ H).
Qed.

Lemma update_other : forall (A : Type) (l : list A) i j x,
  i <> j -> nth_error (json.update l j x) i = nth_error l i.
Proof.
  induction l as [|a l IH]; intros [|i] [|j] x H; cbn; try reflexivity.
  - contradiction.
  - apply IH. congruence.
Qed.

(** Decoding an object leaves the declarations of a struct as they are,
    and a field no key stands for as it is. *)
Lemma decode_object_keeps : forall pf ctx n ms fs i,
  forallb (fun m => match json.find_field (json.unquote (fst m)) fs with
                    | Some j => negb (Nat.eqb j i)
                    | None => true
                    end) ms = true ->
  exists fs' er,
    json.decode pf ctx (json.JObject ms) (VStruct n fs) = (VStruct n fs', er)
    /\ map fst fs' = map fst fs
    /\ nth_error fs' i = nth_error fs i.
Proof.
  intros pf ctx n ms fs i H. cbn [json.decode].
  match goal with
  | |- exists _ _, (let '(_, _) := ?F ms fs in _) = _ /\ _ =>
      assert (Hm : forall fs0,
                map fst fs0 = map fst fs ->
                nth_error fs0 i = nth_error fs i ->
                map fst (fst (F ms fs0)) = map fst fs /\
                nth_error (fst (F ms fs0)) i = nth_error fs i)
  end.
  { induction ms as [|[k jv] ms IH]; intros fs0 H1 H2; [now split|].
    cbn [forallb fst] in H. apply andb_prop in H as [Hk Hms].
    cbv beta iota.
    rewrite (find_field_fst (json.unquote k) fs0 fs H1).
    destruct (json.find_field (json.unquote k) fs) as [j|] eqn:E;
      [|exact (IH Hms fs0 H1 H2)].
    apply negb_true_iff, Nat.eqb_neq in Hk.
    destruct (nth_error fs0 j) as [[fi fv]|] eqn:En;
      [|exact (IH Hms fs0 H1 H2)].
    destruct (json.decode pf _ jv fv) as [fv' e1].
    specialize (IH Hms (json.update fs0 j (fi, fv'))).
    destruct (_ ms (json.update fs0 j (fi, fv'))) as [fs2 e2] eqn:E2 in *.
    cbn [fst] in *. apply IH.
    - rewrite (update_fst _ _ _ _ _ En). exact H1.
    - rewrite update_other by congruence. exact H2. }
  destruct (Hm fs eq_refl eq_refl) as [H1 H2].
  match goal with
  | |- exists _ _, (let '(_, _) := ?F ms fs in _) = _ /\ _ =>
      destruct (F ms fs) as [fs' er]
  end.
  exists fs', er. cbn [fst] in *. repeat split; assumption.
Qed.

Lemma field_of_kept : forall (fs fs' : list (FieldInfo * GoVal)) f i,
  map fst fs' = map fst fs ->
  json.index_where (fun x => String.eqb (fname (fst x)) f) fs = Some i ->
  nth_error fs' i = nth_error fs i ->
  field_of fs' f = field_of fs f.
Proof.
  induction fs as [|[fi v] fs IH]; intros [|[fi' v'] fs'] f i H1 H2 H3;
    cbn in *; try discriminate.
  injection H1 as -> H1.
  destruct (String.eqb (fname fi) f) eqn:E.
  - injection H2 as <-. cbn in H3. injection H3 as ->. reflexivity.
  - destruct (json.index_where _ fs) as [j|] eqn:Ej; [|discriminate].
    injection H2 as <-. cbn in H3. exact (IH fs' f j H1 Ej H3).
Qed.

(** Of the fields of [GetInfoRsp], a key stands for [SessionID] only if
    it is spelled so, in any case. *)
Lemma GetInfoRsp_SessionID_key : forall key,
  json.find_field key (fields_of (zero GetInfoRsp)) = Some 4%nat ->
  json.foldName key = "SESSIONID".
Proof.
  intros key. unfold json.find_field.
  destruct (json.index_where _ (fields_of (zero GetInfoRsp))) as [i|] eqn:E.
  - intros H. injection H as ->.
    apply index_where_some in E as [x [Hn Hp]].
    vm_compute in Hn. injection Hn as <-.
    apply andb_prop in Hp as [_ Hp]. apply String.eqb_eq in Hp.
    cbn [fst] in Hp. rewrite <- Hp. vm_compute. reflexivity.
  - intros H.
    apply index_where_some in H as [x [Hn Hp]].
    vm_compute in Hn. injection Hn as <-.
    apply andb_prop in Hp as [_ Hp]. apply String.eqb_eq in Hp.
    cbn [fst] in Hp. rewrite <- Hp. vm_compute. reflexivity.
Qed.

(** X11.  The field [SessionID] of [GetInfoRsp] has no tag: whatever
    else the body of the response holds, [GetInfo] leaves it empty unless
    a key of the object is spelled [SessionID] (in any case); the key
    [session_id] of the other responses does not fill it. *)
Theorem GetInfo_SessionID_key :
  forall rt personID st body ms,
    response_body rt (CallGetInfo personID) st = Some body ->
    json.checkValid (Bytes.of_string body) = None ->
    json.parse (Bytes.of_string body) = Some (json.JObject ms) ->
    forallb not_SessionID ms = true ->
    field (fst (fst (GetInfo rt personID st))) "SessionID"
    = Some (VString "").
Proof.
  intros rt personID st body ms Hb Hv Hp Hk.
  change (GetInfo rt personID) with (invoke rt (CallGetInfo personID)).
  rewrite (invoke_received _ _ _ _ Hb).
  unfold json.Unmarshal. rewrite Hv, Hp. cbn [response_type].
  change (zero GetInfoRsp)
    with (VStruct "GetInfoRsp" (fields_of (zero GetInfoRsp))).
  destruct (decode_object_keeps (ParseFloat32 rt) ("", []) "GetInfoRsp" ms
              (fields_of (zero GetInfoRsp)) 4%nat) as [fs' [er [Hd [H1 H2]]]].
  { apply forallb_forall. intros m Hm.
    rewrite forallb_forall in Hk. specialize (Hk m Hm).
    destruct (json.find_field _ _) as [j|] eqn:E; [|reflexivity].
    apply negb_true_iff, Nat.eqb_neq. intros ->.
    apply GetInfoRsp_SessionID_key in E.
    unfold not_SessionID in Hk. rewrite E in Hk. discriminate. }
  rewrite Hd.
  assert (Hf : field (VStruct "GetInfoRsp" fs') "SessionID"
               = Some (VString "")).
  { unfold field.
    rewrite (field_of_kept (fields_of (zero GetInfoRsp)) fs' "SessionID"
               4%nat H1 eq_refl H2).
    reflexivity. }
  destruct er; exact Hf.
Qed.

Lemma GetInfo_SessionID_key_witness :
  field (fst (fst (GetInfo (world body_session) "p1" (start client1))))
    "SessionID" = Some (VString "") /\
  field (fst (fst (GetInfo (world body_session) "p1" (start client1))))
    "PersonID" = Some (VString "p1").
Proof.
  split.
  - apply (GetInfo_SessionID_key (world body_session) "p1" (start client1)
             body_session
             [(Bytes.of_string "session_id",
               json.JString (Bytes.of_string "s1"));
              (Bytes.of_string "person_id",
               json.JString (Bytes.of_string "p1"))]);
      vm_compute; reflexivity.
  - vm_compute. reflexivity.
Defined.

(** The session is read from a key spelled [SessionID], in any case. *)
Example GetInfo_sessionid_spelling :
  field (fst (fst (GetInfo
                     (world ("{" ++ q "sessionid" ++ ":" ++ q "s1" ++ "}"))
                     "p1" (start client1)))) "SessionID"
  = Some (VString "s1").
Proof. vm_compute. reflexivity. Qed.

(** X12.  The time written in the canonical string is a 64-bit signed
    number and the nonce a non-negative number below 2^31, whatever the
    clock and the random source give. *)
Theorem canonical_time_and_nonce_ranges :
  forall rt st,
    exists t r,
      fst (orignalSign rt st)
      = canonical_string (appID (appSign (client st)))
          (secretID (appSign (client st))) (expired (appSign (client st)))
          t r (userID (appSign (client st))) /\
      - 2 ^ 63 <= t < 2 ^ 63 /\
      0 <= r < 2 ^ 31.
Proof.
  intros rt st. exists (time_read rt st), (nonce_drawn rt st).
  split; [now rewrite orignalSign_run|]. split.
  - unfold time_read, to_int64.
    pose proof (Z.mod_pos_bound (clock rt (clock_reads st) + 2 ^ 63) (2 ^ 64)
                  ltac:(lia)).
    lia.
  - apply nonce_drawn_range.
Qed.

(** X13.  An operation returns a nil error exactly when a response was
    received and its body decoded without error; encoding the request is
    never what fails. *)
Theorem operation_succeeds_iff :
  forall rt c st,
    snd (fst (invoke rt c st)) = None <->
    exists body,
      response_body rt c st = Some body /\
      snd (json.Unmarshal (ParseFloat32 rt) body (zero (response_type c)))
      = None.
Proof.
  intros rt c st.
  destruct (Marshal_request rt (client st) c) as [data Hm].
  rewrite (invoke_run _ _ _ _ Hm). unfold response_body. rewrite Hm.
  cbn [fst].
  destruct (reply rt st (operation_name c) data) as [body|e].
  - destruct (json.Unmarshal _ body _) as [rsp [e|]] eqn:E; cbn [snd].
    + split; [discriminate|].
      intros [b [Hb He]]. injection Hb as <-. rewrite E in He.
      discriminate.
    + split; [|reflexivity]. intros _. exists body.
      rewrite E. split; reflexivity.
  - cbn [snd]. split; [discriminate|]. intros [b [Hb _]]. discriminate.
Qed.

(** X14.  Two operations one after the other send two requests, in the
    order of the calls and each to the address of its operation, read the
    clock twice and leave the client as it was. *)
Theorem operations_in_sequence :
  forall rt c1 c2 st,
    (forall c, NewRequest_error rt "POST"
                 (target_URL (host (client st)) (operation_name c)) = None) ->
    exists r1 r2,
      sent (snd (invoke rt c2 (snd (invoke rt c1 st))))
      = (sent st ++ [r1; r2])%list /\
      URL r1 = target_URL (host (client st)) (operation_name c1) /\
      URL r2 = target_URL (host (client st)) (operation_name c2) /\
      clock_reads (snd (invoke rt c2 (snd (invoke rt c1 st))))
      = S (S (clock_reads st)) /\
      client (snd (invoke rt c2 (snd (invoke rt c1 st)))) = client st.
Proof.
  intros rt c1 c2 st H.
  destruct (Marshal_request rt (client st) c1) as [d1 Hm1].
  rewrite (invoke_run _ _ _ _ Hm1). cbn [snd].
  set (st1 := after_request rt st (operation_name c1) d1).
  assert (Hc : client st1 = client st) by apply after_request_client.
  destruct (Marshal_request rt (client st1) c2) as [d2 Hm2].
  rewrite (invoke_run _ _ _ _ Hm2). cbn [snd].
  exists (http_request rt st (operation_name c1) d1),
         (http_request rt st1 (operation_name c2) d2).
  unfold after_request at 1 2 3. rewrite Hc, (H c2).
  unfold st1, after_request. rewrite (H c1). cbn [sent clock_reads client].
  rewrite <- app_assoc. cbn [app].
  repeat split.
Qed.

Lemma operations_in_sequence_witness :
  exists r1 r2,
    sent (snd (invoke (world "{}") CallGetGroupIDs
                 (snd (invoke (world "{}") call_newperson (start client1)))))
    = ([] ++ [r1; r2])%list /\
    URL r1 = "http://api.youtu.qq.com/youtu/api/newperson" /\
    URL r2 = "http://api.youtu.qq.com/youtu/api/getgroupids" /\
    clock_reads
      (snd (invoke (world "{}") CallGetGroupIDs
              (snd (invoke (world "{}") call_newperson (start client1)))))
    = 2%nat /\
    client
      (snd (invoke (world "{}") CallGetGroupIDs
              (snd (invoke (world "{}") call_newperson (start client1)))))
    = client1.
Proof.
  apply (operations_in_sequence (world "{}") call_newperson CallGetGroupIDs
           (start client1)).
  reflexivity.
Defined.

(** X15.  The canonical string does not escape [&] and [=] in the secret
    identifier and the user identifier: two credentials of one application
    and one secret key, different in secret identifier, expiry and user
    identifier, get the same token when the user identifier of the one
    holds, in the form of the canonical string, what the secret
    identifier of the other ends with. *)
Theorem separators_are_not_escaped :
  forall rt st st' id key sid mid uid e e',
    clock_reads st' = clock_reads st ->
    appSign (client st)
    = credential_short id key sid mid uid e e'
        (time_read rt st) (nonce_drawn rt st) ->
    appSign (client st')
    = credential_long id key sid mid uid e e'
        (time_read rt st) (nonce_drawn rt st) ->
    fst (sign rt st') = fst (sign rt st).
Proof.
  intros rt st st' id key sid mid uid e e' Hn Hs Hl.
  rewrite !sign_run, !orignalSign_run. cbn [fst].
  unfold nonce_drawn, time_read in *. rewrite Hn, Hs, Hl.
  unfold credential_short, credential_long, canonical_string.
  cbn [appID secretID secretKey expired userID].
  f_equal.
  repeat first [rewrite !append_assoc | progress cbn [append]].
  reflexivity.
Qed.

Lemma separators_are_not_escaped_witness :
  fst (sign (world "")
         (start (Init {| appID := 1; secretID := "k&e=100&t=1000&r=5&u=u";
                         secretKey := "sk"; expired := 7; userID := "v" |}
                   DefaultHost)))
  = fst (sign (world "")
           (start (Init {| appID := 1; secretID := "k"; secretKey := "sk";
                           expired := 100;
                           userID := "u&e=7&t=1000&r=5&u=v" |}
                     DefaultHost))).
Proof.
  apply (separators_are_not_escaped (world "")
           (start (Init {| appID := 1; secretID := "k"; secretKey := "sk";
                           expired := 100;
                           userID := "u&e=7&t=1000&r=5&u=v" |}
                     DefaultHost))
           (start (Init {| appID := 1; secretID := "k&e=100&t=1000&r=5&u=u";
                           secretKey := "sk"; expired := 7; userID := "v" |}
                     DefaultHost))
           1 "sk" "k" "u" "v" 100 7);
    vm_compute; reflexivity.
Defined.

(** X16.  [SetInfo] cannot report what the service answers: for every
    response whose body is a JSON object, status code and message
    included, it returns the zero value of [SetInfoRsp] and a nil
    error. *)
Theorem SetInfo_hides_service_errors :
  forall rt personID personName tag st body ms,
    response_body rt (CallSetInfo personID personName tag) st = Some body ->
    json.checkValid (Bytes.of_string body) = None ->
    json.parse (Bytes.of_string body) = Some (json.JObject ms) ->
    fst (SetInfo rt personID personName tag st) = (zero SetInfoRsp, None).
Proof.
  intros rt personID personName tag st body ms Hb Hv Hp.
  change (SetInfo rt personID personName tag)
    with (invoke rt (CallSetInfo personID personName tag)).
  rewrite (invoke_received _ _ _ _ Hb).
  unfold json.Unmarshal. rewrite Hv, Hp. cbn [response_type].
  change (zero SetInfoRsp)
    with (VStruct "SetInfoRsp" (fields_of (zero SetInfoRsp))).
  rewrite decode_unknown_keys; [reflexivity|].
  apply forallb_forall. intros m _. unfold unknown_key.
  now rewrite find_field_hidden.
Qed.

Lemma SetInfo_hides_service_errors_witness :
  fst (SetInfo (world body_status_7) "p1" "Alice" "" (start client1))
  = (zero SetInfoRsp, None).
Proof.
  apply (SetInfo_hides_service_errors (world body_status_7) "p1" "Alice" ""
           (start client1) body_status_7
           [(Bytes.of_string "session_id",
             json.JString (Bytes.of_string "s1"));
            (Bytes.of_string "person_id",
             json.JString (Bytes.of_string "p1"));
            (Bytes.of_string "errorcode", json.JNumber "7");
            (Bytes.of_string "errormsg",
             json.JString (Bytes.of_string "no face"))]);
    vm_compute; reflexivity.
Defined.

Lemma decode_object_cons : forall pf ctx n k jv ms fs,
  json.decode pf ctx (json.JObject ((k, jv) :: ms)) (VStruct n fs) =
  match json.find_field (json.unquote k) fs with
  | Some i =>
      match nth_error fs i with
      | Some (fi, fv) =>
          let '(fv', e1) :=
            json.decode pf (n, (snd ctx ++ [json.jsonName fi])%list) jv fv in
          let '(v', e2) :=
            json.decode pf ctx (json.JObject ms)
              (VStruct n (json.update fs i (fi, fv'))) in
          (v', json.saveError e1 e2)
      | None => json.decode pf ctx (json.JObject ms) (VStruct n fs)
      end
  | None => json.decode pf ctx (json.JObject ms) (VStruct n fs)
  end.
Proof.
  intros pf ctx n k jv ms fs. cbn [json.decode].
  destruct (json.find_field (json.unquote k) fs) as [i|]; [|reflexivity].
  destruct (nth_error fs i) as [[fi fv]|]; [|reflexivity].
  destruct (json.decode pf _ jv fv) as [fv' e1].
  match goal with
  | |- context [?F ms (json.update fs i (fi, fv'))] =>
      destruct (F ms (json.update fs i (fi, fv'))) as [fs2 e2]
  end.
  reflexivity.
Qed.

Lemma update_same : forall (A : Type) (l : list A) i x y,
  nth_error l i = Some y -> nth_error (json.update l i x) i = Some x.
Proof.
  induction l as [|a l IH]; intros [|i] x y H; cbn in *; try discriminate.
  - reflexivity.
  - exact (IH _ _ _ H).
Qed.

(** What is decoded into an integer is an integer of the same type. *)
Lemma decode_int_kind : forall pf ctx j n b z0,
  exists z', fst (json.decode pf ctx j (VInt n b z0)) = VInt n b z'.
Proof.
  intros pf ctx j n b z0.
  destruct j as [| | |lit|raw|js|ms]; cbn [json.decode fst];
    try (eexists; reflexivity).
  destruct (strconv.ParseInt lit) as [z|]; [|eexists; reflexivity].
  destruct (json.fits b z); eexists; reflexivity.
Qed.

Lemma selects_fst : forall (fs fs' : list (FieldInfo * GoVal)) i k,
  map fst fs = map fst fs' -> selects fs i k = selects fs' i k.
Proof.
  intros fs fs' i k H. unfold selects.
  now rewrite (find_field_fst _ _ _ H).
Qed.

Lemma last_for_fst : forall (fs fs' : list (FieldInfo * GoVal)) i ms,
  map fst fs = map fst fs' -> last_for fs i ms = last_for fs' i ms.
Proof.
  intros fs fs' i ms H.
  induction ms as [|[k j] ms IH]; cbn [last_for]; [reflexivity|].
  now rewrite IH, (selects_fst _ _ _ _ H).
Qed.

Lemma last_for_none : forall fs i ms,
  last_for fs i ms = None ->
  forallb (fun m => match json.find_field (json.unquote (fst m)) fs with
                    | Some j => negb (Nat.eqb j i)
                    | None => true
                    end) ms = true.
Proof.
  intros fs i ms. induction ms as [|[k j] ms IH]; cbn [last_for forallb fst];
    [reflexivity|].
  destruct (last_for fs i ms); [discriminate|].
  unfold selects.
  destruct (json.find_field (json.unquote k) fs) as [j'|].
  - destruct (Nat.eqb j' i); [discriminate|]. intros _. now rewrite IH.
  - intros _. now rewrite IH.
Qed.

(** Decoding an object stores, in an integer field, the number of the
    last member that stands for the field, whatever the other members
    are and whether or not they decode. *)
Lemma decode_object_sets : forall pf ctx nm ms fs i fi n b lit z,
  (exists z0, nth_error fs i = Some (fi, VInt n b z0)) ->
  last_for fs i ms = Some (json.JNumber lit) ->
  strconv.ParseInt lit = Some z ->
  json.fits b z = true ->
  exists fs' er,
    json.decode pf ctx (json.JObject ms) (VStruct nm fs) = (VStruct nm fs', er)
    /\ map fst fs' = map fst fs
    /\ nth_error fs' i = Some (fi, VInt n b z).
Proof.
  intros pf ctx nm ms. induction ms as [|[k jv] ms IH];
    intros fs i fi n b lit z [z0 Hn] Hl Hp Hf; [discriminate|].
  rewrite decode_object_cons. cbn [last_for] in Hl.
  destruct (last_for fs i ms) as [j'|] eqn:El.
  - (* a later member stands for the field *)
    injection Hl as ->.
    destruct (json.find_field (json.unquote k) fs) as [j|] eqn:Ef;
      [|apply (IH fs i fi n b lit z); eauto].
    destruct (nth_error fs j) as [[fj fvj]|] eqn:Ej;
      [|apply (IH fs i fi n b lit z); eauto].
    destruct (json.decode pf _ jv fvj) as [fv' e1] eqn:Ed.
    pose proof (update_fst _ _ _ _ fv' Ej) as Hm.
    destruct (IH (json.update fs j (fj, fv')) i fi n b lit z)
      as [fs' [er [H1 [H2 H3]]]]; auto.
    + destruct (Nat.eq_dec j i) as [->|Hne].
      * rewrite Hn in Ej. injection Ej as <- <-.
        destruct (decode_int_kind pf (nm, (snd ctx ++ [json.jsonName fi])%list)
                    jv n b z0) as [z' Hz].
        rewrite Ed in Hz. cbn [fst] in Hz. subst fv'.
        exists z'. eapply update_same. exact Hn.
      * exists z0. rewrite update_other by congruence. exact Hn.
    + rewrite <- El. apply last_for_fst. exact Hm.
    + rewrite H1. exists fs', (json.saveError e1 er).
      repeat split; [congruence | exact H3].
  - (* this member is the last that stands for the field *)
    unfold selects in Hl.
    destruct (json.find_field (json.unquote k) fs) as [j|] eqn:Ef;
      [|discriminate].
    destruct (Nat.eqb j i) eqn:Eji; [|discriminate].
    apply Nat.eqb_eq in Eji. subst j. injection Hl as ->.
    rewrite Hn.
    assert (Hd : json.decode pf (nm, (snd ctx ++ [json.jsonName fi])%list)
                   (json.JNumber lit) (VInt n b z0) = (VInt n b z, None)).
    { cbn [json.decode]. rewrite Hp, Hf. reflexivity. }
    rewrite Hd.
    pose proof (update_fst _ _ _ _ (VInt n b z) Hn) as Hm.
    destruct (decode_object_keeps pf ctx nm ms
                (json.update fs i (fi, VInt n b z)) i)
      as [fs' [er [H1 [H2 H3]]]].
    { apply last_for_none. rewrite <- El. symmetry.
      apply last_for_fst. symmetry. exact Hm. }
    rewrite H1. exists fs', (json.saveError None er).
    repeat split; [congruence|].
    rewrite H3. eapply update_same. exact Hn.
Qed.

Lemma field_of_index : forall (fs : list (FieldInfo * GoVal)) f i fi v,
  json.index_where (fun x => String.eqb (fname (fst x)) f) fs = Some i ->
  nth_error fs i = Some (fi, v) ->
  field_of fs f = Some v.
Proof.
  induction fs as [|[fj w] fs IH]; intros f i fi v H1 H2; cbn in *;
    [discriminate|].
  destruct (String.eqb (fname fj) f).
  - injection H1 as <-. cbn in H2. now injection H2 as _ ->.
  - destruct (json.index_where _ fs) as [j|] eqn:Ej; [|discriminate].
    injection H1 as <-. cbn in H2. exact (IH f j fi v Ej H2).
Qed.

(** The field [ErrorCode] of a response, where there is one, is a Go
    [int] or [int32], and zero before decoding. *)
Lemma status_field : forall c i,
  json.index_where (fun f => String.eqb (fname (fst f)) "ErrorCode")
    (fields_of (zero (response_type c))) = Some i ->
  exists fi n b,
    nth_error (fields_of (zero (response_type c))) i
    = Some (fi, VInt n b 0) /\ (b = 32 \/ b = 64).
Proof.
  intros c i H.
  destruct c; vm_compute in H; try discriminate; injection H as <-;
    do 3 eexists; (split; [vm_compute; reflexivity | tauto]).
Qed.

Lemma is_int32_fits : forall b z,
  b = 32 \/ b = 64 -> is_int32 z = true -> json.fits b z = true.
Proof.
  intros b z Hb H. unfold is_int32 in H. unfold json.fits.
  apply andb_prop in H as [H1 H2].
  apply Z.leb_le in H1. apply Z.ltb_lt in H2.
  apply andb_true_intro.
  destruct Hb as [-> | ->]; split;
    try apply Z.leb_le; try apply Z.ltb_lt; cbn in *; lia.
Qed.

(** X17.  The status code of the service reaches the caller of every
    operation whose response has the field [ErrorCode] (all but
    [SetInfo]): when the body received is an object and the last of its
    members that stand for the field is a number that is an [int32], the
    response returned has that number in [ErrorCode], whatever the other
    members are and whether or not they decode. *)
Theorem status_code_is_returned :
  forall rt c st body ms lit z,
    response_body rt c st = Some body ->
    json.checkValid (Bytes.of_string body) = None ->
    json.parse (Bytes.of_string body) = Some (json.JObject ms) ->
    status_in_body c ms = Some (json.JNumber lit) ->
    strconv.ParseInt lit = Some z ->
    is_int32 z = true ->
    exists n b,
      field (fst (fst (invoke rt c st))) "ErrorCode" = Some (VInt n b z).
Proof.
  intros rt c st body ms lit z Hbody Hc Hp Hs Hl Hz.
  assert (E : fst (fst (invoke rt c st))
              = fst (json.Unmarshal (ParseFloat32 rt) body
                       (zero (response_type c)))).
  { rewrite (invoke_received _ _ _ _ Hbody).
    destruct (json.Unmarshal _ body _) as [r [e|]]; reflexivity. }
  rewrite E. unfold json.Unmarshal. rewrite Hc, Hp.
  unfold status_in_body in Hs. cbv zeta in Hs.
  destruct (zero_response_struct c) as [nm Hzero].
  remember (fields_of (zero (response_type c))) as fs eqn:Efs.
  destruct (json.index_where _ fs) as [i|] eqn:Ei; [|discriminate].
  pose proof Ei as Ei'. rewrite Efs in Ei'.
  destruct (status_field c i Ei') as [fi [n [b [Hn Hb]]]].
  rewrite <- Efs in Hn.
  destruct (decode_object_sets (ParseFloat32 rt) ("", []) nm ms fs i fi n b
              lit z (ex_intro _ 0 Hn) Hs Hl (is_int32_fits b z Hb Hz))
    as [fs' [er [H1 [H2 H3]]]].
  rewrite Hzero, H1. cbn [fst field].
  exists n, b.
  apply (field_of_index fs' "ErrorCode" i fi); [|exact H3].
  rewrite <- Ei.
  apply (index_where_fst (fun fi => String.eqb (fname fi) "ErrorCode")).
  exact H2.
Qed.

(** [GetGroupIDs] on a body that names the status code twice and has a
    number for the groups: the later status code is returned, with the
    error of the groups; and the status code of [body_status_7] is the
    one every operation other than [SetInfo] reads. *)
Lemma status_code_is_returned_witness :
  (exists n b,
     field (fst (fst (invoke (world body_status_twice) CallGetGroupIDs
                        (start client1)))) "ErrorCode"
     = Some (VInt n b (-12))) /\
  snd (json.Unmarshal (fun _ => None) body_status_twice
         (zero GetGroupIDsRsp))
  = Some (UnmarshalTypeError "number" "[]string" "GetGroupIDsRsp"
            "group_ids") /\
  forallb (fun c => match status_in_body c (members body_status_7) with
                    | Some (json.JNumber "7") => true
                    | _ => false
                    end) sibling_calls = true /\
  status_in_body (CallSetInfo "p1" "Alice" "") (members body_status_7)
  = None.
Proof.
  split; [|split; [|split]].
  - apply (status_code_is_returned (world body_status_twice) CallGetGroupIDs
             (start client1) body_status_twice (members body_status_twice)
             "-12" (-12));
      vm_compute; reflexivity.
  - vm_compute. reflexivity.
  - vm_compute. reflexivity.
  - vm_compute. reflexivity.
Defined.

Lemma has_prefix_refl : forall p, Bytes.has_prefix p p = true.
Proof.
  induction p as [|a p IH]; cbn; [reflexivity|].
  now rewrite Ascii.eqb_refl, IH.
Qed.

Lemma contains_prefix : forall s sub,
  Bytes.has_prefix sub s = true -> Bytes.contains s sub = true.
Proof. intros s sub H. destruct s; cbn; rewrite H; reflexivity. Qed.

Lemma contains_app : forall p s sub,
  Bytes.contains s sub = true -> Bytes.contains (p ++ s) sub = true.
Proof.
  induction p as [|a p IH]; intros s sub H; cbn [append]; [exact H|].
  cbn [Bytes.contains]. rewrite (IH s sub H). apply orb_true_r.
Qed.

(** X18.  A body that is not valid JSON is not decoded; and whenever the
    decoder fails, on the syntax of the body or on a member of the wrong
    kind, the operation returns what was decoded so far and an error
    whose message starts with [json.Unmarshal() rsp: ] and has in it
    [ failed: ], the message of the decoder's error and a newline. *)
Theorem decoding_failure_is_reported :
  forall rt c st body,
    response_body rt c st = Some body ->
    (json.Valid body = false ->
     exists e,
       json.Unmarshal (ParseFloat32 rt) body (zero (response_type c))
       = (zero (response_type c), Some e)) /\
    (forall rsp e,
       json.Unmarshal (ParseFloat32 rt) body (zero (response_type c))
       = (rsp, Some e) ->
       exists msg,
         fst (invoke rt c st) = (rsp, Some (errorString msg)) /\
         Bytes.has_prefix "json.Unmarshal() rsp: " msg = true /\
         Bytes.contains msg (" failed: " ++ Error e ++ newline) = true).
Proof.
  intros rt c st body Hbody. split.
  - intros Hinv.
    destruct (Unmarshal_invalid (ParseFloat32 rt) body
                (zero (response_type c)) Hinv) as [e [_ Hu]].
    exists e. exact Hu.
  - intros rsp e Hu.
    rewrite (invoke_received _ _ _ _ Hbody), Hu.
    eexists. split; [reflexivity|]. split; [reflexivity|].
    exact (contains_app
             ("json.Unmarshal() rsp: &"
                ++ fmt.printValue (FormatFloat32 rt) "s" rsp)
             (" failed: " ++ Error e ++ newline) _
             (contains_prefix _ _ (has_prefix_refl _))).
Qed.

(** [GetGroupIDs] on a body that is not JSON, and on one that has a
    string for the status code. *)
Lemma decoding_failure_is_reported_witness :
  (exists e,
     json.Unmarshal (fun _ => None) body_html (zero GetGroupIDsRsp)
     = (zero GetGroupIDsRsp, Some e)) /\
  (exists msg,
     fst (invoke (world body_wrong_kind) CallGetGroupIDs (start client1))
     = (fst (json.Unmarshal (fun _ => None) body_wrong_kind
               (zero GetGroupIDsRsp)),
        Some (errorString msg)) /\
     Bytes.has_prefix "json.Unmarshal() rsp: " msg = true /\
     Bytes.contains msg
       (" failed: "
        ++ "json: cannot unmarshal string into Go struct field "
        ++ "GetGroupIDsRsp.errorcode of type int32" ++ newline) = true).
Proof.
  split.
  - apply (proj1 (decoding_failure_is_reported (world body_html)
                    CallGetGroupIDs (start client1) body_html
                    ltac:(vm_compute; reflexivity))).
    vm_compute. reflexivity.
  - apply (proj2 (decoding_failure_is_reported (world body_wrong_kind)
                    CallGetGroupIDs (start client1) body_wrong_kind
                    ltac:(vm_compute; reflexivity))
             (fst (json.Unmarshal (fun _ => None) body_wrong_kind
                     (zero GetGroupIDsRsp)))
             (UnmarshalTypeError "string" "int32" "GetGroupIDsRsp"
                "errorcode")).
    vm_compute. reflexivity.
Defined.
